(** * cocrawler/urls.py: URL cleaning, canonicalization and redirect classes

    A shallow embedding of [cocrawler/urls.py] and a verification of the
    properties its specification states about it.

    Conventions of the embedding.
    - A Python [str] is a Rocq [string]; a character is an [ascii], read as
      the code point of the same number (code points 0..255).
    - A Python exception is a value of [exn]; a function that can raise
      returns a [result].
    - Python's built-in string methods are in module [Py], the regular
      expressions of the source are hand-compiled matchers in module [Re],
      and the functions of [urllib.parse] that the source calls are in
      module [Urllib].
    - The functions of the sibling module [surt] and of the third-party
      packages are fields of the classes [SurtModule] and [Libraries]. *)

From Stdlib Require Import String Ascii List Bool Arith ZArith Lia.
Import ListNotations.
Open Scope string_scope.

(** ** Exceptions and results *)

Inductive exn : Type :=
| ValueError
| IndexError.

Inductive result (A : Type) : Type :=
| Ok (a : A)
| Raise (e : exn).

Arguments Ok {A} a.
Arguments Raise {A} e.

Definition bind {A B : Type} (r : result A) (k : A -> result B) : result B :=
  match r with
  | Ok a => k a
  | Raise e => Raise e
  end.

Notation "x <- r ;; k" := (bind r (fun x => k))
  (at level 61, r at next level, right associativity).

Notation "' p <- r ;; k" := (bind r (fun x => match x with p => k end))
  (at level 61, p pattern, r at next level, right associativity).

(** ** Python string methods *)

Module Py.

(** [c in chars] for a one-character [c]. *)
Fixpoint char_in (c : ascii) (chars : string) : bool :=
  match chars with
  | "" => false
  | String d chars' => Ascii.eqb c d || char_in c chars'
  end.

(** [s[:n]] *)
Fixpoint take (n : nat) (s : string) : string :=
  match n, s with
  | S n', String c s' => String c (take n' s')
  | _, _ => ""
  end.

(** [s[n:]] *)
Fixpoint drop (n : nat) (s : string) : string :=
  match n, s with
  | S n', String c s' => drop n' s'
  | _, _ => s
  end.

(** [s.startswith(p)] *)
Fixpoint startswith (s p : string) {struct p} : bool :=
  match p, s with
  | "", _ => true
  | String a p', String b s' => Ascii.eqb b a && startswith s' p'
  | String _ _, "" => false
  end.

(** [s.endswith(suf)] *)
Fixpoint endswith (s suf : string) : bool :=
  if String.eqb s suf then true
  else match s with
       | "" => false
       | String _ s' => endswith s' suf
       end.

Fixpoint find_from (s sub : string) (i : Z) : Z :=
  if startswith s sub then i
  else match s with
       | "" => (-1)%Z
       | String _ s' => find_from s' sub (i + 1)%Z
       end.

(** [s.find(sub)]: the lowest index of [sub] in [s], or -1. *)
Definition find (s sub : string) : Z := find_from s sub 0%Z.

(** [sub in s] *)
Definition contains (s sub : string) : bool := (0 <=? find s sub)%Z.

(** [s.replace(old, new, 1)] *)
Fixpoint replace_first (s old new : string) : string :=
  if startswith s old then new ++ drop (String.length old) s
  else match s with
       | "" => ""
       | String c s' => String c (replace_first s' old new)
       end.

(** [s.replace(c, new)] for a one-character [c]. *)
Fixpoint replace_char (s : string) (c : ascii) (new : string) : string :=
  match s with
  | "" => ""
  | String d s' =>
      if Ascii.eqb d c then new ++ replace_char s' c new
      else String d (replace_char s' c new)
  end.

(** [s.split(sep)] for a one-character [sep]; the list is never empty. *)
Fixpoint split (s : string) (sep : ascii) : list string :=
  match s with
  | "" => [""]
  | String c s' =>
      if Ascii.eqb c sep then "" :: split s' sep
      else match split s' sep with
           | p :: ps => String c p :: ps
           | [] => [String c ""]
           end
  end.

(** [s.split(sep, 1)] when [sep in s]: the text before and after the first
    [sep]; the pair [(s, "")] when there is none. *)
Fixpoint split1 (s : string) (sep : ascii) : string * string :=
  match s with
  | "" => ("", "")
  | String c s' =>
      if Ascii.eqb c sep then ("", s')
      else let (a, b) := split1 s' sep in (String c a, b)
  end.

(** [sep.join(l)] *)
Fixpoint join (sep : string) (l : list string) : string :=
  match l with
  | [] => ""
  | [x] => x
  | x :: l' => x ++ sep ++ join sep l'
  end.

(** [s.lstrip(chars)] *)
Fixpoint lstrip (s chars : string) : string :=
  match s with
  | "" => ""
  | String c s' => if char_in c chars then lstrip s' chars else s
  end.

(** [s.rstrip(chars)] *)
Fixpoint rstrip (s chars : string) : string :=
  match s with
  | "" => ""
  | String c s' =>
      match rstrip s' chars with
      | "" => if char_in c chars then "" else String c ""
      | r => String c r
      end
  end.

(** [s.strip(chars)] *)
Definition strip (s chars : string) : string := rstrip (lstrip s chars) chars.

Definition between (lo hi : nat) (c : ascii) : bool :=
  Nat.leb lo (nat_of_ascii c) && Nat.leb (nat_of_ascii c) hi.

(** [c.lower()] on code points 0..255: A-Z and the Latin-1 capitals
    U+00C0..U+00DE other than the multiplication sign U+00D7. *)
Definition lower_char (c : ascii) : ascii :=
  if between 65 90 c
     || (between 192 222 c && negb (Nat.eqb (nat_of_ascii c) 215))
  then ascii_of_nat (nat_of_ascii c + 32)
  else c.

Fixpoint lower (s : string) : string :=
  match s with
  | "" => ""
  | String c s' => String (lower_char c) (lower s')
  end.

(** [c.upper()] for ASCII; the source upper-cases members of [valid_hex]
    only, which are ASCII. *)
Definition upper_char (c : ascii) : ascii :=
  if between 97 122 c then ascii_of_nat (nat_of_ascii c - 32) else c.

Fixpoint upper (s : string) : string :=
  match s with
  | "" => ""
  | String c s' => String (upper_char c) (upper s')
  end.

(** [x in l] for a set or list of strings. *)
Definition str_in (x : string) (l : list string) : bool :=
  existsb (String.eqb x) l.

(** The value of one hexadecimal digit. *)
Definition hex_value (c : ascii) : option nat :=
  if between 48 57 c then Some (nat_of_ascii c - 48)
  else if between 65 70 c then Some (nat_of_ascii c - 55)
  else if between 97 102 c then Some (nat_of_ascii c - 87)
  else None.

(** White space for [int]: the ASCII white space and, of the other code
    points up to 255, U+0085 and U+00A0. *)
Definition int_spaces : string :=
  string_of_list_ascii (map ascii_of_nat [9; 10; 11; 12; 13; 32; 133; 160]).

(** The digits of [int(s, 16)]: hexadecimal digits with single
    underscores between them; the value and what follows them.  The first
    character is a digit when this is called. *)
Fixpoint int16_digits (s : string) (acc : nat) (after_underscore : bool)
  : option (nat * string) :=
  match s with
  | "" => if after_underscore then None else Some (acc, "")
  | String c s' =>
      match hex_value c with
      | Some v => int16_digits s' (16 * acc + v) false
      | None =>
          if after_underscore then None
          else if Ascii.eqb c "_" then int16_digits s' acc true
          else Some (acc, s)
      end
  end.

(** [int(s, base=16)]; [None] is ValueError.  White space, a sign, the
    prefix [0x] or [0X] with one underscore after it, the digits, white
    space. *)
Definition int16 (s : string) : option Z :=
  let s := lstrip s int_spaces in
  let '(negative, s) :=
    match s with
    | String c r =>
        if Ascii.eqb c "+" then (false, r)
        else if Ascii.eqb c "-" then (true, r)
        else (false, s)
    | "" => (false, s)
    end in
  let s :=
    if startswith s "0x" || startswith s "0X" then
      let r := drop 2 s in
      if startswith r "_" then drop 1 r else r
    else s in
  match s with
  | "" => None
  | String c _ =>
      match hex_value c with
      | None => None
      | Some _ =>
          match int16_digits s 0 false with
          | Some (n, rest) =>
              if String.eqb (lstrip rest int_spaces) ""
              then Some (if negative then (- Z.of_nat n)%Z else Z.of_nat n)
              else None
          | None => None
          end
      end
  end.

(** [chr(int(s, base=16))]: ValueError when [int] raises it and when the
    value is negative.  A value above 255 is a character outside the code
    points modelled and needs three characters or more; [unquote] passes
    [p[:2]], at most two. *)
Definition chr_int16 (s : string) : result ascii :=
  match int16 s with
  | Some n =>
      if (0 <=? n)%Z && (n <? 256)%Z then Ok (ascii_of_nat (Z.to_nat n))
      else Raise ValueError
  | None => Raise ValueError
  end.

(** ['%02x' % i] and ['%02X' % i] for [i] in [range(256)]. *)
Definition digit_lower (n : nat) : ascii :=
  if Nat.ltb n 10 then ascii_of_nat (48 + n) else ascii_of_nat (87 + n).

Definition digit_upper (n : nat) : ascii :=
  if Nat.ltb n 10 then ascii_of_nat (48 + n) else ascii_of_nat (55 + n).

Definition fmt_02x (i : nat) : string :=
  String (digit_lower (i / 16)) (String (digit_lower (i mod 16)) "").

Definition fmt_02X (i : nat) : string :=
  String (digit_upper (i / 16)) (String (digit_upper (i mod 16)) "").

(** [range(lo, hi)] *)
Definition range (lo hi : nat) : list nat := seq lo (hi - lo).

(** [s.remove(x)] on a set whose member [x] is. *)
Definition set_remove (x : string) (l : list string) : list string :=
  filter (fun y => negb (String.eqb y x)) l.

End Py.

(** Characters that cannot be written inside a string literal here. *)
Definition backslash : ascii := "092"%char.
Definition dquote : ascii := "034"%char.
Definition squote : ascii := "039"%char.
Definition CR : ascii := "013"%char.
Definition LF : ascii := "010"%char.

Definition str1 (c : ascii) : string := String c "".

Fixpoint str_forallb (f : ascii -> bool) (s : string) : bool :=
  match s with
  | "" => true
  | String c s' => f c && str_forallb f s'
  end.

Fixpoint str_existsb (f : ascii -> bool) (s : string) : bool :=
  match s with
  | "" => false
  | String c s' => f c || str_existsb f s'
  end.

(** ** The regular expressions of the source, compiled by hand

    [re.I] on code points 0..255 identifies exactly the two cases of an
    ASCII letter, so a pattern letter matches a character [c] when
    [Py.lower_char c] is that letter. *)

Module Re.

(** The length of the longest run of [c] that [s] starts with: what a
    greedy [c{n,}] consumes. *)
Fixpoint run_length (c : ascii) (s : string) : nat :=
  match s with
  | "" => 0
  | String d s' => if Ascii.eqb d c then S (run_length c s') else 0
  end.

(** [https?:] under [re.I] at the start of [s]: the number of characters
    it matches. *)
Definition scheme_prefix_len (s : string) : option nat :=
  if String.eqb (Py.lower (Py.take 5 s)) "http:" then Some 5
  else if String.eqb (Py.lower (Py.take 6 s)) "https:" then Some 6
  else None.

(** [c{n,}] at offset [k] of [s]; the whole match from the start of [s]. *)
Definition run_at (c : ascii) (n k : nat) (s : string) : option string :=
  let r := run_length c (Py.drop k s) in
  if Nat.leb n r then Some (Py.take (k + r) s) else None.

(** [re.match(r'(?:https?:)?c{n,}', s, re.I)], its [group(0)].  The
    optional group is tried first; when the run fails after it, the
    matcher backtracks to the empty alternative. *)
Definition match_scheme_run (c : ascii) (n : nat) (s : string) : option string :=
  match scheme_prefix_len s with
  | Some k =>
      match run_at c n k s with
      | Some g => Some g
      | None => run_at c n 0 s
      end
  | None => run_at c n 0 s
  end.

(** [re.search('[cls]', s)], its [group(0)]: the first character of [s]
    that is in the class. *)
Fixpoint search_class (cls s : string) : option ascii :=
  match s with
  | "" => None
  | String c s' => if Py.char_in c cls then Some c else search_class cls s'
  end.

(** [re.match(r'(.*?)[cls]', s)], its [group(1)]: the lazy [.*?] stops at
    the first character of the class; [.] does not match a line feed. *)
Fixpoint match_lazy_until (cls s : string) : option string :=
  match s with
  | "" => None
  | String c s' =>
      if Py.char_in c cls then Some ""
      else if Ascii.eqb c LF then None
      else option_map (String c) (match_lazy_until cls s')
  end.

End Re.

(** ** urllib.parse

    [urlsplit] and [urlunsplit] of the Python standard library, after
    CPython 3.6 ([Lib/urllib/parse.py]), on [str] arguments.  The result
    cache of [urlsplit] is not modelled: the function is pure.

    Later versions of the library split some urls differently: they
    delete tab, CR and LF and the leading control characters and spaces,
    take a scheme only when it starts with a letter, have no rule about
    port numbers and check a bracketed host.  The theorems on the [URL]
    object are stated over what [urlsplit] returns. *)

Module Urllib.

Record SplitResult : Type := mkSplitResult {
  scheme : string;
  netloc : string;
  path : string;
  query : string;
  fragment : string
}.

Definition uses_netloc : list string :=
  ["ftp"; "http"; "gopher"; "nntp"; "telnet"; "imap"; "wais"; "file"; "mms";
   "https"; "shttp"; "snews"; "prospero"; "rtsp"; "rtspu"; "rsync"; "";
   "svn"; "svn+ssh"; "sftp"; "nfs"; "git"; "git+ssh"].

Definition scheme_chars : string :=
  "abcdefghijklmnopqrstuvwxyzABCDEFGHIJKLMNOPQRSTUVWXYZ0123456789+-.".

(** [url.find(sub, start)] *)
Definition find_at (url sub : string) (start : nat) : Z :=
  let r := Py.find (Py.drop start url) sub in
  if (r <? 0)%Z then (-1)%Z else (r + Z.of_nat start)%Z.

(** [_splitnetloc(url, start)]: the netloc ends at the first of [/?#]. *)
Definition _splitnetloc (url : string) (start : nat) : string * string :=
  let delim :=
    fold_left
      (fun delim c =>
         let wdelim := find_at url (str1 c) start in
         if (0 <=? wdelim)%Z then Nat.min delim (Z.to_nat wdelim) else delim)
      ["/"%char; "?"%char; "#"%char] (String.length url) in
  (Py.take (delim - start) (Py.drop start url), Py.drop delim url).

(** The scheme of [urlsplit]: the text before the first colon when it is
    [http], or when it is made of scheme characters and what follows is
    not a port number. *)
Definition split_scheme (url : string) : string * string :=
  let i := Py.find url ":" in
  if (0 <? i)%Z then
    let head := Py.take (Z.to_nat i) url in
    let rest := Py.drop (Z.to_nat i + 1) url in
    if String.eqb head "http" then (Py.lower head, rest)
    else if str_forallb (fun c => Py.char_in c scheme_chars) head then
      if String.eqb rest ""
         || str_existsb (fun c => negb (Py.char_in c "0123456789")) rest
      then (Py.lower head, rest)
      else ("", url)
    else ("", url)
  else ("", url).

Definition urlsplit (url : string) : result SplitResult :=
  let '(scheme, url) := split_scheme url in
  '(netloc, url) <-
    (if String.eqb (Py.take 2 url) "//" then
       let '(netloc, url) := _splitnetloc url 2 in
       if (Py.contains netloc "[" && negb (Py.contains netloc "]"))
          || (Py.contains netloc "]" && negb (Py.contains netloc "["))
       then Raise ValueError
       else Ok (netloc, url)
     else Ok ("", url)) ;;
  let '(url, fragment) :=
    if Py.contains url "#" then Py.split1 url "#" else (url, "") in
  let '(url, query) :=
    if Py.contains url "?" then Py.split1 url "?" else (url, "") in
  Ok (mkSplitResult scheme netloc url query fragment).

(** [urlunsplit(components)]; a fragment [None] is falsy like [""]. *)
Definition urlunsplit (c : SplitResult) : string :=
  let url := path c in
  let url :=
    if negb (String.eqb (netloc c) "")
       || (negb (String.eqb (scheme c) "") && Py.str_in (scheme c) uses_netloc
           && negb (String.eqb (Py.take 2 url) "//"))
    then
      let url :=
        if negb (String.eqb url "") && negb (String.eqb (Py.take 1 url) "/")
        then "/" ++ url else url in
      "//" ++ netloc c ++ url
    else url in
  let url := if negb (String.eqb (scheme c) "") then scheme c ++ ":" ++ url else url in
  let url := if negb (String.eqb (query c) "") then url ++ "?" ++ query c else url in
  let url := if negb (String.eqb (fragment c) "") then url ++ "#" ++ fragment c else url in
  url.

End Urllib.

Import Urllib.

(** ** Collaborators

    The sibling module [surt] of the package and the third-party functions
    the source calls.  Their sources are not part of [urls.py]; the
    embedding takes them as interfaces, with the signatures the
    specification gives them (total functions on strings). *)

Class SurtModule : Type := {
  (** [surt.netloc_to_punycanon(scheme, netloc)] *)
  netloc_to_punycanon : string -> string -> string;
  (** [surt.hostname_to_punycanon(netloc)] *)
  hostname_to_punycanon : string -> string;
  (** [surt.discard_www_from_hostname(hostname)] *)
  discard_www_from_hostname : string -> string;
  (** [surt.surt(url)] *)
  surt : string -> string
}.

Class Libraries : Type := {
  (** [urllib.parse.urljoin(base, url)]; it parses both and can raise. *)
  urljoin : string -> string -> result string;
  (** [tldextract.extract(s).registered_domain] *)
  registered_domain : string -> string
}.

(** ** cocrawler/urls.py *)

(** [is_absolute_url], lines 62-68. *)
Definition is_absolute_url (url : string) : bool :=
  if String.eqb (Py.take 2 url) "//" then true
  else if String.eqb (Py.lower (Py.take 7 url)) "http://"
          || String.eqb (Py.lower (Py.take 8 url)) "https://"
  then true
  else false.

(** The control characters 0x00..0x1f and the space, line 90. *)
Definition strip_chars : string :=
  string_of_list_ascii (map ascii_of_nat (seq 0 32)) ++ " ".

(** The character class of line 127: the two angle brackets, the double
    and the single quote, CR, LF and the space. *)
Definition terminators : string :=
  "<>" ++ str1 dquote ++ str1 squote ++ str1 CR ++ str1 LF ++ " ".

(** Lines 94-97 with a slash, [n = 3] and lines 99-102 with
    a backslash, [n = 2]: a run of [c] after an optional scheme becomes
    [//]. *)
Definition collapse_run (c : ascii) (n : nat) (link : string) : string :=
  match Re.match_scheme_run c n link with
  | Some start =>
      Py.rstrip start (str1 c) ++ "//" ++ Py.replace_first link start ""
  | None => link
  end.

(** Lines 105-110: a backslash that ends the host name becomes a slash. *)
Definition fix_host_backslash (link : string) : string :=
  if is_absolute_url link then
    let start := Z.to_nat (Py.find link "://" + 3) in
    match Re.search_class (str1 backslash ++ "/?#") (Py.drop start link) with
    | Some c =>
        if Ascii.eqb c backslash
        then Py.take start link
             ++ Py.replace_first (Py.drop start link) (str1 backslash) "/"
        else link
    | None => link
    end
  else link.

(** Lines 126-138: runaway links, then removal of CR and LF.  The
    diagnostic of line 131 is not modelled. *)
Definition clean_tail (link : string) : string :=
  let remove_crlf (link : string) :=
    Py.replace_char (Py.replace_char link CR "") LF "" in
  if Nat.ltb 300 (String.length link) then
    let link :=
      match Re.match_lazy_until terminators link with
      | Some g => g
      | None => link
      end in
    if Nat.ltb 300 (String.length link) then ""
    else remove_crlf link
  else remove_crlf link.

(** The link as it is before line 104: trimmed, runs collapsed. *)
Definition clean_head (link : string) : string :=
  let link := Py.strip link strip_chars in
  let link := collapse_run "/" 3 link in
  collapse_run backslash 2 link.

(** [clean_webpage_links(link, urljoin)], lines 71-138; [urljoin] is used
    by the diagnostic only. *)
Definition clean_webpage_links (link : string) : string :=
  clean_tail (fix_host_backslash (clean_head link)).

(** [special_seed_handling], lines 141-152. *)
Definition special_seed_handling (url : string) : result string :=
  parts <- urlsplit url ;;
  if String.eqb (scheme parts) "" then
    if Py.startswith url "//" then Ok ("http:" ++ url)
    else Ok ("http://" ++ url)
  else Ok url.

(** [l[1:-1]] and the assignment [l[1:-1] = new]. *)
Definition interior {A : Type} (l : list A) : list A :=
  firstn (length l - 1 - 1) (skipn 1 l).

Definition set_interior {A : Type} (l new : list A) : list A :=
  (firstn 1 l ++ new ++ skipn (Nat.max 1 (length l - 1)) l)%list.

Definition nonempty (s : string) : bool := negb (String.eqb s "").

(** The body of the loop of lines 167-177; [pop] on an empty list raises
    IndexError, which the source catches and ignores. *)
Definition resolve_segment (resolved_segments : list string) (s : string)
  : list string :=
  if String.eqb s ".." then
    match resolved_segments with
    | [] => []
    | _ => removelast resolved_segments
    end
  else if String.eqb s "." then resolved_segments
  else (resolved_segments ++ [s])%list.

(** [remove_dot_segments], lines 155-178.  [path[0]] raises IndexError on
    the empty string. *)
Definition remove_dot_segments (path : string) : result string :=
  match path with
  | "" => Raise IndexError
  | String c _ =>
      if negb (Ascii.eqb c "/") then Raise ValueError
      else
        let segments := Py.split path "/" in
        let segments :=
          set_interior segments (filter nonempty (interior segments)) in
        let resolved_segments :=
          fold_left resolve_segment (skipn 1 segments) [] in
        Ok ("/" ++ Py.join "/" resolved_segments)
  end.

(** The tables of lines 181-200. *)
Definition valid_hex : list string :=
  (map Py.fmt_02x (Py.range 0 256) ++ map Py.fmt_02X (Py.range 0 256))%list.

Definition unreserved : list string :=
  (map Py.fmt_02X (Py.range 65 91) ++ map Py.fmt_02X (Py.range 97 123)
   ++ map Py.fmt_02X (Py.range 48 58) ++ ["2D"; "2E"; "5F"; "7E"])%list.

Definition subdelims : list string :=
  (["21"; "24"; "3B"; "3D"] ++ map Py.fmt_02X (Py.range 38 45))%list.

Definition unquote_in_path : list string := (subdelims ++ ["3A"; "40"])%list.

Definition unquote_in_query : list string :=
  Py.set_remove "3D"
    (Py.set_remove "26" (subdelims ++ ["3A"; "2F"; "3F"; "40"])%list).

Definition unquote_in_frag : list string := unquote_in_query.

(** The body of the loop of lines 206-217. *)
Definition unquote_piece (safe : list string) (text p : string)
  : result string :=
  if Py.endswith text "%" then Ok (text ++ "%" ++ p)
  else
    let quote := Py.take 2 p in
    let rest := Py.drop 2 p in
    let quote := if Py.str_in quote valid_hex then Py.upper quote else quote in
    if Py.str_in quote safe then
      c <- Py.chr_int16 quote ;; Ok (text ++ String c rest)
    else Ok (text ++ "%" ++ quote ++ rest).

(** [unquote(text, safe)], lines 203-218. *)
Definition unquote (text : string) (safe : list string) : result string :=
  match Py.split text "%" with
  | [] => Raise IndexError
  | text :: pieces =>
      fold_left (fun acc p => text <- acc ;; unquote_piece safe text p)
        pieces (Ok text)
  end.

(** [safe_url_canonicalization(url)], lines 221-250: the canonical url
    and the fragment.  [fragment is not ''] is the test for a non-empty
    fragment. *)
Definition safe_url_canonicalization `{SurtModule} (url : string)
  : result (string * string) :=
  url <- unquote url unreserved ;;
  parts <- urlsplit url ;;
  let scheme := Py.lower (scheme parts) in
  let netloc := netloc_to_punycanon scheme (netloc parts) in
  let path := if String.eqb (path parts) "" then "/" else path parts in
  path <- remove_dot_segments path ;;
  let path := Py.replace_char path backslash "/" in
  path <- unquote path unquote_in_path ;;
  query <- unquote (query parts) unquote_in_query ;;
  fragment <-
    (if negb (String.eqb (fragment parts) "") then
       f <- unquote (fragment parts) unquote_in_frag ;; Ok ("#" ++ f)
     else Ok (fragment parts)) ;;
  Ok (urlunsplit (mkSplitResult scheme netloc path query ""), fragment).

(** The redirect classes of [special_redirect]. *)
Inductive redirect : Type :=
| same
| addslash
| removeslash
| tohttps
| tohttp
| tononwww
| tononwww_tohttps
| tononwww_tohttp
| towww
| towww_tohttps
| towww_tohttp.

(** The attributes of a [URL] object, lines 385-418. *)
Record URL : Type := mkURL {
  _url : string;
  _urlsplit : SplitResult;
  _netloc : string;
  _hostname : string;
  _hostname_without_www : string;
  _surt : string;
  _registered_domain : string;
  _original_frag : option string
}.

(** The [urljoin] argument of [URL.__init__]: [None], a [str] or a [URL]. *)
Inductive base : Type :=
| NoBase
| BaseStr (s : string)
| BaseURL (u : URL).

(** Lines 346-352 of [URL.__init__]: the link resolved against the base,
    which is already a [URL] object ([None] when the test [if urljoin] of
    line 343 fails). *)
Definition URL_resolve `{Libraries} (url : string) (urljoin_ : option URL)
  : result string :=
  match urljoin_ with
  | Some b =>
      if Py.startswith url "http://" || Py.startswith url "https://"
      then Ok url
      else if Py.startswith url "/" && negb (Py.startswith url "//")
      then Ok (scheme (_urlsplit b) ++ "://" ++ _hostname b ++ url)
      else urljoin (_url b) url
  | None => Ok url
  end.

(** Lines 357-360 and 369-383: the attributes, from the canonical url,
    its fragment and its split. *)
Definition URL_fields `{SurtModule} `{Libraries}
  (url frag : string) (parts : SplitResult) : URL :=
  let original_frag :=
    if Nat.ltb 0 (String.length frag) then Some frag else None in
  let path := if String.eqb (path parts) "" then "/" else path parts in
  let netloc := netloc_to_punycanon (scheme parts) (netloc parts) in
  let hostname := hostname_to_punycanon netloc in
  let urlsplit_ := mkSplitResult (scheme parts) netloc path (query parts) "" in
  let url_ := urlunsplit urlsplit_ in
  mkURL url_ urlsplit_ netloc hostname
    (discard_www_from_hostname hostname) (surt url)
    (registered_domain url_) original_frag.

(** Lines 355-383: canonicalization of the resolved link and the
    attributes. *)
Definition URL_canonical `{SurtModule} `{Libraries} (url : string)
  : result URL :=
  ' (url, frag) <- safe_url_canonicalization url ;;
  parts <- urlsplit url ;;
  Ok (URL_fields url frag parts).

(** [URL(url)]: no base, not a seed. *)
Definition URL_plain `{SurtModule} `{Libraries} (url : string) : result URL :=
  URL_canonical (clean_webpage_links url).

(** Lines 343-345: a [str] base is truthy when it is not empty, and is
    then replaced by [URL(urljoin)]; a [URL] object is always truthy. *)
Definition URL_base `{SurtModule} `{Libraries} (urljoin_ : base)
  : result (option URL) :=
  match urljoin_ with
  | NoBase => Ok None
  | BaseStr s =>
      if String.eqb s "" then Ok None
      else b <- URL_plain s ;; Ok (Some b)
  | BaseURL b => Ok (Some b)
  end.

(** Lines 339-352: the link that is canonicalized. *)
Definition URL_link `{SurtModule} `{Libraries}
  (url : string) (urljoin_ : base) (seed : bool) : result string :=
  url <- (if seed then special_seed_handling url else Ok url) ;;
  let url := clean_webpage_links url in
  b <- URL_base urljoin_ ;;
  URL_resolve url b.

(** [URL(url, urljoin, seed)], lines 338-383. *)
Definition URL_init `{SurtModule} `{Libraries}
  (url : string) (urljoin_ : base) (seed : bool) : result URL :=
  link <- URL_link url urljoin_ seed ;;
  URL_canonical link.

(** [special_redirect(url, next_url)], lines 261-304; [None] is
    unclassified. *)
Definition special_redirect (url next_url : URL) : option redirect :=
  let u := _url url in
  let n := _url next_url in
  if (5 <? Z.abs (Z.of_nat (String.length u) - Z.of_nat (String.length n)))%Z
  then None
  else if String.eqb u n then Some same
  else if negb (Py.endswith u "/") && String.eqb (u ++ "/") n
  then Some addslash
  else if Py.endswith u "/" && String.eqb u (n ++ "/")
  then Some removeslash
  else if String.eqb (Py.replace_first u "http" "https") n
  then Some tohttps
  else if Py.startswith u "https"
          && String.eqb (Py.replace_first u "https" "http") n
  then Some tohttp
  else if Py.startswith (netloc (_urlsplit url)) "www." then
    if String.eqb (Py.replace_first u "www." "") n then Some tononwww
    else if String.eqb
              (Py.replace_first (Py.replace_first u "www." "") "http" "https") n
    then Some tononwww_tohttps
    else if Py.startswith u "https"
            && String.eqb
                 (Py.replace_first (Py.replace_first u "www." "") "https" "http")
                 n
    then Some tononwww_tohttp
    else None
  else if Py.startswith (netloc (_urlsplit next_url)) "www." then
    if String.eqb u (Py.replace_first n "www." "") then Some towww
    else if String.eqb (Py.replace_first n "www." "")
              (Py.replace_first u "http" "https")
    then Some towww_tohttps
    else if Py.startswith u "https"
            && String.eqb (Py.replace_first n "www." "")
                 (Py.replace_first u "https" "http")
    then Some towww_tohttp
    else None
  else None.

(** ** The specification's wording, as definitions of its own *)

Definition is_hex (c : ascii) : bool :=
  match Py.hex_value c with
  | Some _ => true
  | None => false
  end.

Definition hex_pair_char (a b : ascii) : ascii :=
  match Py.hex_value a, Py.hex_value b with
  | Some x, Some y => ascii_of_nat (16 * x + y)
  | _, _ => "000"%char
  end.

(** The percent-decode contract read as one forward scan over the text: a
    [%] followed by two hexadecimal digits is a triplet, decoded when its
    upper-cased pair is in the safe-set and re-emitted upper-cased when
    not; any other [%] is copied; what has been emitted is not looked at
    again. *)
Fixpoint unquote_words (text : string) (safe : list string) : string :=
  match text with
  | "" => ""
  | String c t =>
      if Ascii.eqb c "%" then
        match t with
        | String a (String b rest) =>
            if is_hex a && is_hex b then
              let code := Py.upper (String a (String b "")) in
              if Py.str_in code safe
              then String (hex_pair_char a b) (unquote_words rest safe)
              else "%" ++ code ++ unquote_words rest safe
            else String c (unquote_words t safe)
        | _ => String c (unquote_words t safe)
        end
      else String c (unquote_words t safe)
  end.

(** The segments after the leading one: an empty segment is dropped unless
    it is the last one. *)
Fixpoint keep_segments (l : list string) : list string :=
  match l with
  | [] => []
  | [s] => [s]
  | s :: l' => if nonempty s then s :: keep_segments l' else keep_segments l'
  end.

(** Left to right over the segments, with the resolved segments as a
    stack (top first): [..] pops, or is discarded on the empty stack; [.]
    is dropped; any other segment is pushed. *)
Fixpoint resolve_stack (l stack : list string) : list string :=
  match l with
  | [] => rev stack
  | s :: l' =>
      if String.eqb s ".." then resolve_stack l' (tl stack)
      else if String.eqb s "." then resolve_stack l' stack
      else resolve_stack l' (s :: stack)
  end.

(** The path normalizer as the specification words it. *)
Definition remove_dot_segments_words (path : string) : string :=
  "/" ++ Py.join "/" (resolve_stack (keep_segments (tl (Py.split path "/"))) []).

(** A safe-set of two-hex-digit uppercase codes. *)
Definition is_upper_hex (c : ascii) : bool :=
  Py.between 48 57 c || Py.between 65 70 c.

Definition is_lower_hex (c : ascii) : bool :=
  Py.between 48 57 c || Py.between 97 102 c.

Definition is_code (s : string) : bool :=
  match s with
  | String a (String b "") => is_upper_hex a && is_upper_hex b
  | _ => false
  end.

Definition safe_codes (safe : list string) : Prop :=
  forall x, Py.str_in x safe = true -> is_code x = true.

(** ** A reference instance of the collaborators

    Modelled from the spec: the module [surt] and the package
    [tldextract] are not among the sources.  The specification describes
    the first as punycode, case folding and removal of the default port;
    this instance does the last two (punycode is the identity on ASCII
    host names).  [urllib.parse.urljoin] is modelled after the library.
    The instance instantiates the interfaces in the closed examples below;
    the theorems hold for every instance. *)

(** Modelled from the spec: [surt.netloc_to_punycanon], as case folding
    and removal of the default port. *)
Definition reference_netloc (scheme netloc : string) : string :=
  let n := Py.lower netloc in
  if String.eqb scheme "http" && Py.endswith n ":80"
  then Py.take (String.length n - 3) n
  else if String.eqb scheme "https" && Py.endswith n ":443"
  then Py.take (String.length n - 4) n
  else n.

(** Modelled from the spec: [surt.hostname_to_punycanon], as the host of
    a netloc, without user information and port. *)
Definition reference_hostname (netloc : string) : string :=
  let hostport := last (Py.split netloc "@") "" in
  fst (Py.split1 hostport ":").

(** Modelled from the spec: [surt.discard_www_from_hostname]. *)
Definition reference_discard_www (hostname : string) : string :=
  if Py.startswith hostname "www." then Py.drop 4 hostname else hostname.

(** Modelled from the spec: [surt.surt], as the host labels in reverse
    order, then the path and the query. *)
Definition reference_surt (url : string) : string :=
  match urlsplit url with
  | Ok p =>
      Py.join "," (rev (Py.split (reference_hostname (netloc p)) "."))
      ++ ")" ++ path p
      ++ (if String.eqb (query p) "" then "" else "?" ++ query p)
  | Raise _ => url
  end.

(** Modelled from the spec: [tldextract.extract(url).registered_domain],
    as the last two labels of the host.  This is the registered domain of
    a host whose public suffix is one label, as [example.com]; the public
    suffix list is not modelled, so the two differ on a host such as
    [www.example.co.uk].  It is used on hosts of the first kind only. *)
Definition reference_registered_domain (url : string) : string :=
  match urlsplit url with
  | Ok p =>
      let labels := Py.split (reference_hostname (netloc p)) "." in
      Py.join "." (skipn (length labels - 2) labels)
  | Raise _ => ""
  end.

(** [urllib.parse.urljoin] with its helpers, after CPython 3.6
    ([Lib/urllib/parse.py]), on [str] arguments. *)
Definition uses_relative : list string :=
  ["ftp"; "http"; "gopher"; "nntp"; "imap"; "wais"; "file"; "https";
   "shttp"; "mms"; "prospero"; "rtsp"; "rtspu"; ""; "sftp"; "svn";
   "svn+ssh"].

Definition uses_params : list string :=
  ["ftp"; "hdl"; "prospero"; "http"; "imap"; "https"; "shttp"; "rtsp";
   "rtspu"; "sip"; "sips"; "mms"; ""; "sftp"; "tel"].

(** [url.rfind(c)]: the highest index of [c], or -1. *)
Fixpoint rfind_from (s : string) (c : ascii) (i last : Z) : Z :=
  match s with
  | "" => last
  | String d s' => rfind_from s' c (i + 1)%Z (if Ascii.eqb d c then i else last)
  end.

Definition rfind (s : string) (c : ascii) : Z := rfind_from s c 0%Z (-1)%Z.

(** [_splitparams(url)], called when [url] has a semicolon: in the last
    segment of a path with a slash, anywhere in a path without one. *)
Definition _splitparams (url : string) : string * string :=
  if Py.contains url "/" then
    let i := find_at url ";" (Z.to_nat (rfind url "/")) in
    if (i <? 0)%Z then (url, "")
    else (Py.take (Z.to_nat i) url, Py.drop (Z.to_nat i + 1) url)
  else
    let i := Py.find url ";" in
    (Py.take (Z.to_nat i) url, Py.drop (Z.to_nat i + 1) url).

(** [urlparse(url, scheme)]: the split and the parameters; [scheme] is
    the scheme of a url that has none. *)
Definition urlparse (url scheme_ : string) : result (SplitResult * string) :=
  parts <- urlsplit url ;;
  let scheme_ := if String.eqb (scheme parts) "" then scheme_ else scheme parts in
  let '(url, params) :=
    if Py.str_in scheme_ uses_params && Py.contains (path parts) ";"
    then _splitparams (path parts)
    else (path parts, "") in
  Ok (mkSplitResult scheme_ (netloc parts) url (query parts) (fragment parts),
      params).

(** [urlunparse(components)] *)
Definition urlunparse (c : SplitResult) (params : string) : string :=
  let url :=
    if negb (String.eqb params "") then path c ++ ";" ++ params else path c in
  urlunsplit (mkSplitResult (scheme c) (netloc c) url (query c) (fragment c)).

(** [urljoin(base, url)]: the collaborator of line 352, over the model of
    the library. *)
Definition reference_urljoin (b url : string) : result string :=
  if String.eqb b "" then Ok url
  else if String.eqb url "" then Ok b
  else
    ' (bp, bparams) <- urlparse b "" ;;
    ' (up, params) <- urlparse url (scheme bp) ;;
    if negb (String.eqb (scheme up) (scheme bp))
       || negb (Py.str_in (scheme up) uses_relative)
    then Ok url
    else if Py.str_in (scheme up) uses_netloc
            && negb (String.eqb (netloc up) "")
    then Ok (urlunparse up params)
    else
      let netloc_ :=
        if Py.str_in (scheme up) uses_netloc then netloc bp else netloc up in
      if String.eqb (path up) "" && String.eqb params ""
      then Ok (urlunparse
                 (mkSplitResult (scheme up) netloc_ (path bp)
                    (if String.eqb (query up) "" then query bp else query up)
                    (fragment up))
                 bparams)
      else
        let base_parts := Py.split (path bp) "/" in
        let base_parts :=
          if negb (String.eqb (last base_parts "") "")
          then removelast base_parts else base_parts in
        let segments :=
          if String.eqb (Py.take 1 (path up)) "/" then Py.split (path up) "/"
          else
            let segments := (base_parts ++ Py.split (path up) "/")%list in
            set_interior segments (filter nonempty (interior segments)) in
        let resolved_path := fold_left resolve_segment segments [] in
        let resolved_path :=
          if String.eqb (last segments "") "."
             || String.eqb (last segments "") ".."
          then (resolved_path ++ [""])%list else resolved_path in
        let path_ := Py.join "/" resolved_path in
        Ok (urlunparse
              (mkSplitResult (scheme up) netloc_
                 (if String.eqb path_ "" then "/" else path_)
                 (query up) (fragment up))
              params).

Definition reference_surt_module : SurtModule := {|
  netloc_to_punycanon := reference_netloc;
  hostname_to_punycanon := reference_hostname;
  discard_www_from_hostname := reference_discard_www;
  surt := reference_surt
|}.

Definition reference_libraries : Libraries := {|
  urljoin := reference_urljoin;
  registered_domain := reference_registered_domain
|}.

(** A pair of hexadecimal digits whose letters are all of one case: the
    shape of the members of [valid_hex]. *)
Definition same_case_hex (a b : ascii) : bool :=
  (is_lower_hex a && is_lower_hex b) || (is_upper_hex a && is_upper_hex b).

Definition hex_pair_shape (q : string) : bool :=
  match q with
  | String a (String b "") => same_case_hex a b
  | _ => false
  end.

(** Every character, for proofs by enumeration. *)
Definition all_ascii : list ascii := map ascii_of_nat (seq 0 256).

(** [c * n]: a run of [n] characters [c]. *)
Fixpoint str_repeat (c : ascii) (n : nat) : string :=
  match n with
  | 0 => ""
  | S n' => String c (str_repeat c n')
  end.

(** The optional scheme prefix of lines 94 and 99: nothing, or [http:] or
    [https:] in any case. *)
Definition is_scheme_prefix (p : string) : bool :=
  String.eqb p "" || String.eqb (Py.lower p) "http:"
  || String.eqb (Py.lower p) "https:".

(** The text before the first character of a class; the whole text when
    it has none: truncation at the first terminator. *)
Fixpoint before_first (cls s : string) : string :=
  match s with
  | "" => ""
  | String c s' => if Py.char_in c cls then "" else String c (before_first cls s')
  end.

(** The character of a run in lines 94 and 99: a slash or a backslash. *)
Definition run_char (c : ascii) : Prop := c = "/"%char \/ c = backslash.

(** The class of the redirect from [URL(url)] to [URL(next_url)]. *)
Definition classify_redirect `{SurtModule} `{Libraries}
  (url next_url : string) : result (option redirect) :=
  a <- URL_plain url ;;
  b <- URL_plain next_url ;;
  Ok (special_redirect a b).

(** The canonical url of [URL(url)]. *)
Definition URL_url `{SurtModule} `{Libraries} (url : string) : result string :=
  x <- URL_plain url ;; Ok (_url x).

(** The attribute [original_frag] of [URL(url)]. *)
Definition URL_original_frag `{SurtModule} `{Libraries} (url : string)
  : result (option string) :=
  x <- URL_plain url ;; Ok (_original_frag x).

(** A collaborator that leaves the netlocs of the examples as they are,
    which are lower-case ASCII host names without a port. *)
Definition keeps_example_netlocs (sm : SurtModule) : Prop :=
  forall s n, In s ["http"; "https"] ->
              In n ["example.com"; "www.example.com"] ->
              netloc_to_punycanon s n = n.

(** The constructor and its companions over the reference instance. *)
Definition reference_URL : string -> base -> bool -> result URL :=
  @URL_init reference_surt_module reference_libraries.

Definition reference_classify : string -> string -> result (option redirect) :=
  @classify_redirect reference_surt_module reference_libraries.

Definition reference_original_frag : string -> result (option string) :=
  @URL_original_frag reference_surt_module reference_libraries.

(** The [URL] object of the empty string, over the reference instance. *)
Definition root_URL : URL :=
  mkURL "/" (mkSplitResult "" "" "/" "" "") "" "" "" ")/" "" None.

(** A segment that can stay in a resolved path: it has no slash and is
    neither [.] nor [..]. *)
Definition seg_ok (s : string) : bool :=
  negb (Py.char_in "/" s) && negb (String.eqb s ".")
  && negb (String.eqb s "..").

(** Resolved segments: each one can stay, and only the last one may be
    empty. *)
Fixpoint tidy (l : list string) : bool :=
  match l with
  | [] => true
  | [s] => seg_ok s
  | s :: l' => seg_ok s && nonempty s && tidy l'
  end.

(** A segment that stays in the middle of a resolved path. *)
Definition good (s : string) : Prop := seg_ok s = true /\ nonempty s = true.

(** [s.count(c)] for a one-character [c]. *)
Fixpoint str_count (s : string) (c : ascii) : nat :=
  match s with
  | "" => 0
  | String d s' => (if Ascii.eqb d c then 1 else 0) + str_count s' c
  end.

(** An ASCII letter or digit. *)
Definition is_alnum (c : ascii) : bool :=
  Py.between 48 57 c || Py.between 65 90 c || Py.between 97 122 c.

(** The code of a character in the tables: ['%02X' % ord(c)]. *)
Definition code_of (c : ascii) : string := Py.fmt_02X (nat_of_ascii c).

(** The occurrences of [c] in the pieces, and the length of the pieces
    with the separator before each. *)
Definition pieces_count (c : ascii) (l : list string) : nat :=
  fold_right (fun p n => str_count p c + n) 0 l.

Definition pieces_length (l : list string) : nat :=
  fold_right (fun p n => S (String.length p) + n) 0 l.

(** A character that percent-decoding with [safe] leaves alone: not the
    percent sign, not a letter or digit, and its code not in [safe]. *)
Definition kept_by (safe : list string) (c : ascii) : bool :=
  negb (Ascii.eqb c "%") && negb (is_alnum c)
  && negb (Py.str_in (code_of c) safe).

(** A scheme as [urlsplit] accepts one: scheme characters only. *)
Definition scheme_like (s : string) : Prop :=
  str_forallb (fun c => Py.char_in c scheme_chars) s = true.

(** The seven characters at which a runaway link is cut, by their
    codes: [<] is 60, [>] is 62, the double quote 34, the single quote
    39, CR 13, LF 10 and the space 32. *)
Definition is_terminator (c : ascii) : bool :=
  existsb (Nat.eqb (nat_of_ascii c)) [60; 62; 34; 39; 13; 10; 32].

(** The text before the first of these characters; the whole text when
    it has none. *)
Fixpoint before_terminator (s : string) : string :=
  match s with
  | "" => ""
  | String c s' =>
      if is_terminator c then "" else String c (before_terminator s')
  end.

(** The text without its carriage returns and line feeds. *)
Fixpoint without_crlf (s : string) : string :=
  match s with
  | "" => ""
  | String c s' =>
      if Nat.eqb (nat_of_ascii c) 13 || Nat.eqb (nat_of_ascii c) 10
      then without_crlf s'
      else String c (without_crlf s')
  end.

(** * Properties *)

(** ** Strings *)

Lemma str_app_nil_r (s : string) : s ++ "" = s.
Proof. induction s as [|c s IH]; simpl; [reflexivity | now rewrite IH]. Qed.

Lemma str_app_assoc (s t u : string) : (s ++ t) ++ u = s ++ t ++ u.
Proof. induction s as [|c s IH]; simpl; [reflexivity | now rewrite IH]. Qed.

Lemma str_length_app (s t : string) :
  String.length (s ++ t) = String.length s + String.length t.
Proof. induction s as [|c s IH]; simpl; [reflexivity | now rewrite IH]. Qed.

Lemma take_drop (n : nat) (s : string) : Py.take n s ++ Py.drop n s = s.
Proof.
  revert s; induction n as [|n IH]; intros [|c s]; simpl; try reflexivity.
  now rewrite IH.
Qed.

Lemma take_length_le (n : nat) (s : string) :
  String.length (Py.take n s) <= n.
Proof.
  revert s; induction n as [|n IH]; intros [|c s]; simpl; try lia.
  specialize (IH s); lia.
Qed.

Lemma take_short (n : nat) (s : string) :
  String.length s <= n -> Py.take n s = s.
Proof.
  revert s; induction n as [|n IH]; intros [|c s]; simpl; intros Hl;
    try reflexivity; try lia.
  rewrite IH; [reflexivity | lia].
Qed.

Lemma drop_short (n : nat) (s : string) :
  String.length s <= n -> Py.drop n s = "".
Proof.
  revert s; induction n as [|n IH]; intros [|c s]; simpl; intros Hl;
    try reflexivity; try lia.
  apply IH; lia.
Qed.

Lemma take_app_length (s t : string) : Py.take (String.length s) (s ++ t) = s.
Proof. induction s as [|c s IH]; simpl; [now destruct t | now rewrite IH]. Qed.

Lemma drop_app_length (s t : string) : Py.drop (String.length s) (s ++ t) = t.
Proof. induction s as [|c s IH]; simpl; [now destruct t | exact IH]. Qed.

Lemma startswith_app (s t : string) : Py.startswith (s ++ t) s = true.
Proof.
  induction s as [|c s IH]; simpl; [now destruct t|].
  now rewrite Ascii.eqb_refl, IH.
Qed.

Lemma char_in_app (c : ascii) (s t : string) :
  Py.char_in c (s ++ t) = Py.char_in c s || Py.char_in c t.
Proof.
  induction s as [|d s IH]; simpl; [reflexivity|].
  now rewrite IH, orb_assoc.
Qed.

Lemma str_in_In (x : string) (l : list string) :
  Py.str_in x l = true <-> In x l.
Proof.
  unfold Py.str_in; rewrite existsb_exists; split.
  - intros [y [Hin Heq]]; apply String.eqb_eq in Heq; now subst.
  - intros Hin; exists x; split; [assumption | apply String.eqb_refl].
Qed.

(** ** [split] and [join] *)

Lemma split_nonempty (s : string) (sep : ascii) : Py.split s sep <> [].
Proof.
  destruct s as [|c s]; simpl; [discriminate|].
  destruct (Ascii.eqb c sep); [discriminate|].
  destruct (Py.split s sep); discriminate.
Qed.

Lemma split_no_sep (s : string) (sep : ascii) :
  Py.char_in sep s = false -> Py.split s sep = [s].
Proof.
  induction s as [|c s IH]; simpl; [reflexivity|].
  rewrite Ascii.eqb_sym; intros H; apply orb_false_iff in H as [Hc Hs].
  now rewrite Hc, (IH Hs).
Qed.

Lemma split_app_sep (u p : string) (sep : ascii) :
  Py.split (u ++ String sep p) sep = (Py.split u sep ++ Py.split p sep)%list.
Proof.
  induction u as [|c u IH]; simpl.
  - now rewrite Ascii.eqb_refl.
  - destruct (Ascii.eqb c sep); rewrite IH; [reflexivity|].
    pose proof (split_nonempty u sep) as Hne.
    destruct (Py.split u sep); [contradiction | reflexivity].
Qed.

Lemma split_head_no_sep (s : string) (sep : ascii) :
  Py.char_in sep (hd "" (Py.split s sep)) = false.
Proof.
  induction s as [|c s IH]; simpl; [reflexivity|].
  destruct (Ascii.eqb c sep) eqn:E; [reflexivity|].
  pose proof (split_nonempty s sep) as Hne.
  destruct (Py.split s sep); [contradiction|]; simpl in *.
  now rewrite Ascii.eqb_sym, E, IH.
Qed.

(** ** Characters by enumeration *)

Lemma all_ascii_complete (a : ascii) : In a all_ascii.
Proof.
  unfold all_ascii; rewrite <- (ascii_nat_embedding a).
  apply in_map, in_seq; pose proof (nat_ascii_bounded a); lia.
Qed.

Lemma ascii_forall (f : ascii -> bool) :
  forallb f all_ascii = true -> forall a, f a = true.
Proof.
  intros H a; rewrite forallb_forall in H; apply H, all_ascii_complete.
Qed.

Lemma ascii_forall2 (f : ascii -> ascii -> bool) :
  forallb (fun a => forallb (f a) all_ascii) all_ascii = true ->
  forall a b, f a b = true.
Proof.
  intros H a b.
  apply (ascii_forall (f a)), (ascii_forall _ H).
Qed.

(** ** The table [valid_hex] *)

Lemma valid_hex_shape (q : string) :
  Py.str_in q valid_hex = true -> hex_pair_shape q = true.
Proof.
  intros H; apply str_in_In in H.
  assert (Hall : forallb hex_pair_shape valid_hex = true)
    by (vm_compute; reflexivity).
  rewrite forallb_forall in Hall; now apply Hall.
Qed.

Lemma valid_hex_pair (a b : ascii) :
  Py.str_in (String a (String b "")) valid_hex = same_case_hex a b.
Proof.
  destruct (Py.str_in (String a (String b "")) valid_hex) eqn:E.
  - symmetry; exact (valid_hex_shape _ E).
  - destruct (same_case_hex a b) eqn:S; [|reflexivity].
    rewrite <- E; symmetry.
    assert (H : (if same_case_hex a b
                 then Py.str_in (String a (String b "")) valid_hex
                 else true) = true).
    { revert a b E S; intros a b _ _; revert a b.
      apply ascii_forall2; vm_compute; reflexivity. }
    now rewrite S in H.
Qed.

Lemma valid_hex_spec (q : string) : Py.str_in q valid_hex = hex_pair_shape q.
Proof.
  destruct (Py.str_in q valid_hex) eqn:E.
  - symmetry; now apply valid_hex_shape.
  - destruct q as [|a [|b [|c r]]]; try reflexivity.
    now rewrite <- E, valid_hex_pair.
Qed.

(** ** The percent-decode engine *)

Lemma is_code_valid_hex (q : string) :
  is_code q = true -> Py.str_in q valid_hex = true.
Proof.
  rewrite valid_hex_spec.
  destruct q as [|a [|b [|c r]]]; simpl; try discriminate.
  unfold same_case_hex; intros ->; apply orb_true_r.
Qed.

Lemma upper_char_hex : forall a,
  is_hex a = true ->
  is_upper_hex (Py.upper_char a) = true
  /\ Py.hex_value (Py.upper_char a) = Py.hex_value a.
Proof.
  assert (H : forall a,
             (if is_hex a
              then is_upper_hex (Py.upper_char a)
                   && match Py.hex_value (Py.upper_char a), Py.hex_value a with
                      | Some x, Some y => Nat.eqb x y
                      | _, _ => false
                      end
              else true) = true)
    by (apply ascii_forall; vm_compute; reflexivity).
  intros a Ha; specialize (H a); rewrite Ha in H.
  apply andb_true_iff in H as [H1 H2]; split; [assumption|].
  destruct (Py.hex_value (Py.upper_char a)), (Py.hex_value a);
    try discriminate.
  apply Nat.eqb_eq in H2; now subst.
Qed.

Lemma same_case_is_hex (a b : ascii) :
  same_case_hex a b = true -> is_hex a = true /\ is_hex b = true.
Proof.
  assert (H : forall c, (if is_lower_hex c || is_upper_hex c then is_hex c
                         else true) = true)
    by (apply ascii_forall; vm_compute; reflexivity).
  unfold same_case_hex; intros S.
  pose proof (H a) as Ha; pose proof (H b) as Hb.
  destruct (is_lower_hex a), (is_lower_hex b), (is_upper_hex a),
    (is_upper_hex b); simpl in *; try discriminate; now split.
Qed.

Lemma upper_hex_is_hex (a : ascii) : is_upper_hex a = true -> is_hex a = true.
Proof.
  intros H; apply (same_case_is_hex a a); unfold same_case_hex.
  rewrite H; apply orb_true_r.
Qed.

Lemma chr_int16_pair (a b : ascii) :
  is_hex a = true -> is_hex b = true ->
  Py.chr_int16 (String a (String b "")) = Ok (hex_pair_char a b).
Proof.
  assert (H : forall a b,
             (if is_hex a && is_hex b
              then match Py.chr_int16 (String a (String b "")) with
                   | Ok c => Ascii.eqb c (hex_pair_char a b)
                   | Raise _ => false
                   end
              else true) = true)
    by (apply ascii_forall2; vm_compute; reflexivity).
  intros Ha Hb; specialize (H a b); rewrite Ha, Hb in H; cbn [andb] in H.
  destruct (Py.chr_int16 _) as [c|e]; [|discriminate H].
  apply Ascii.eqb_eq in H; now subst.
Qed.

Lemma chr_int16_code (q : string) :
  is_code q = true -> exists c, Py.chr_int16 q = Ok c.
Proof.
  destruct q as [|a [|b [|c r]]]; simpl; try discriminate.
  intros H; apply andb_true_iff in H as [Ha Hb].
  eexists; apply chr_int16_pair; now apply upper_hex_is_hex.
Qed.

Lemma unquote_piece_total (safe : list string) (text p : string) :
  safe_codes safe -> exists r, unquote_piece safe text p = Ok r.
Proof.
  intros Hsafe; unfold unquote_piece.
  destruct (Py.endswith text "%"); [eexists; reflexivity|].
  destruct (Py.str_in _ safe) eqn:E; [|eexists; reflexivity].
  destruct (chr_int16_code _ (Hsafe _ E)) as [c Hc].
  rewrite Hc; simpl; eexists; reflexivity.
Qed.

Lemma unquote_fold_total (safe : list string) (pieces : list string) :
  safe_codes safe ->
  forall text, exists r,
    fold_left (fun acc p => text <- acc ;; unquote_piece safe text p)
      pieces (Ok text) = Ok r.
Proof.
  intros Hsafe; induction pieces as [|p pieces IH]; intros text; simpl.
  - eexists; reflexivity.
  - destruct (unquote_piece_total safe text p Hsafe) as [r Hr].
    rewrite Hr; apply IH.
Qed.

Lemma unquote_total (safe : list string) (text : string) :
  safe_codes safe -> exists r, unquote text safe = Ok r.
Proof.
  intros Hsafe; unfold unquote.
  pose proof (split_nonempty text "%") as Hne.
  destruct (Py.split text "%") as [|t pieces]; [contradiction|].
  now apply unquote_fold_total.
Qed.

Lemma unquote_literal (safe : list string) (text : string) :
  Py.char_in "%" text = false -> unquote text safe = Ok text.
Proof.
  intros H; unfold unquote; now rewrite (split_no_sep _ _ H).
Qed.

(** One more piece: the text up to the last [%] is decoded first, and the
    loop body is then run once on what follows that [%]. *)
Lemma unquote_snoc (safe : list string) (u p : string) :
  Py.char_in "%" p = false ->
  unquote (u ++ "%" ++ p) safe
  = (text <- unquote u safe ;; unquote_piece safe text p).
Proof.
  intros Hp; unfold unquote; simpl.
  rewrite split_app_sep, (split_no_sep _ _ Hp).
  pose proof (split_nonempty u "%") as Hne.
  destruct (Py.split u "%") as [|t pieces]; [contradiction|].
  simpl; now rewrite fold_left_app.
Qed.

Lemma not_hex_not_in (safe : list string) (q : string) :
  safe_codes safe -> hex_pair_shape q = false ->
  Py.str_in q valid_hex = false /\ Py.str_in q safe = false.
Proof.
  intros Hsafe Hq; split; [now rewrite valid_hex_spec|].
  destruct (Py.str_in q safe) eqn:E; [|reflexivity].
  apply Hsafe, is_code_valid_hex in E.
  rewrite valid_hex_spec in E; congruence.
Qed.

Lemma unquote_piece_pair (safe : list string) (t : string) (a b : ascii)
  (rest : string) :
  Py.endswith t "%" = false -> same_case_hex a b = true ->
  unquote_piece safe t (String a (String b rest))
  = Ok (if Py.str_in (Py.upper (String a (String b ""))) safe
        then t ++ String (hex_pair_char a b) rest
        else t ++ "%" ++ Py.upper (String a (String b "")) ++ rest).
Proof.
  intros Ht S; unfold unquote_piece; rewrite Ht.
  change (Py.take 2 (String a (String b rest))) with (String a (String b "")).
  change (Py.drop 2 (String a (String b rest))) with rest.
  rewrite valid_hex_pair, S.
  destruct (Py.str_in _ safe); [|reflexivity].
  destruct (same_case_is_hex a b S) as [Ha Hb].
  destruct (upper_char_hex a Ha) as [Ua Va], (upper_char_hex b Hb) as [Ub Vb].
  simpl Py.upper; rewrite chr_int16_pair by now apply upper_hex_is_hex.
  unfold hex_pair_char; now rewrite Va, Vb.
Qed.

Lemma unquote_piece_malformed (safe : list string) (t p : string) :
  safe_codes safe -> Py.endswith t "%" = false ->
  hex_pair_shape (Py.take 2 p) = false ->
  unquote_piece safe t p = Ok (t ++ "%" ++ p).
Proof.
  intros Hsafe Ht Hq; unfold unquote_piece; rewrite Ht.
  destruct (not_hex_not_in safe _ Hsafe Hq) as [Hv Hs].
  now rewrite Hv, Hs, take_drop.
Qed.

(** C2, as amended.  For every safe-set of two-hex-digit uppercase codes:
    [unquote] never fails; text without a percent sign is returned as it
    is; and the text is decoded piece by piece, from left to right, each
    piece being what follows one percent sign.  When the output so far
    ends in a percent sign (after [%%], or after a decoded [%]), the piece
    is copied with its percent sign and nothing in it is decoded.
    Otherwise a piece that starts with two hexadecimal digits, all of one
    case, is decoded to its character exactly when the upper-cased pair is
    in the safe-set and re-emitted as the percent sign and the upper-cased
    pair when it is not; a piece shorter than two characters (a trailing
    lone percent sign among them) and a piece whose first two characters
    are not both hexadecimal digits are copied unchanged.  The output so
    far is only extended, never scanned again.  The four examples of the
    specification hold. *)
Theorem unquote_piecewise (safe : list string) (Hsafe : safe_codes safe) :
  (forall text, exists r, unquote text safe = Ok r)
  /\ (forall text, Py.char_in "%" text = false -> unquote text safe = Ok text)
  /\ (forall u p t,
        Py.char_in "%" p = false -> unquote u safe = Ok t ->
        (Py.endswith t "%" = true ->
         unquote (u ++ "%" ++ p) safe = Ok (t ++ "%" ++ p))
        /\ (Py.endswith t "%" = false ->
            (forall a b rest,
               p = String a (String b rest) -> same_case_hex a b = true ->
               unquote (u ++ "%" ++ p) safe
               = Ok (if Py.str_in (Py.upper (String a (String b ""))) safe
                     then t ++ String (hex_pair_char a b) rest
                     else t ++ "%" ++ Py.upper (String a (String b "")) ++ rest))
            /\ (String.length p < 2
                \/ (exists a b rest,
                      p = String a (String b rest)
                      /\ is_hex a && is_hex b = false) ->
                unquote (u ++ "%" ++ p) safe = Ok (t ++ "%" ++ p))))
  /\ unquote "%2F" ["2F"] = Ok "/"
  /\ unquote "%2f" ["2F"] = Ok "/"
  /\ unquote "%xy" [] = Ok "%xy"
  /\ unquote "%" [] = Ok "%".
Proof.
  split; [intros text; now apply unquote_total|].
  split; [intros text; apply unquote_literal|].
  split; [|repeat split; reflexivity].
  intros u p t Hp Hu; rewrite (unquote_snoc safe u p Hp), Hu; simpl bind.
  split; [intros Ht; unfold unquote_piece; now rewrite Ht|].
  intros Ht; split.
  - intros a b rest -> S; now apply unquote_piece_pair.
  - intros Hmal; apply unquote_piece_malformed; try assumption.
    destruct Hmal as [Hlen | (a & b & rest & -> & Hab)].
    + destruct p as [|a [|b rest]]; simpl in *; try reflexivity; lia.
    + simpl; destruct (same_case_hex a b) eqn:S; [|reflexivity].
      destruct (same_case_is_hex a b S) as [Ha Hb].
      now rewrite Ha, Hb in Hab.
Qed.

Lemma safe_codes_2F : safe_codes ["2F"].
Proof.
  intros x H; apply str_in_In in H; destruct H as [<-|[]]; reflexivity.
Qed.

(** The four tables of the source are such safe-sets, and none of them
    has the code of the percent sign: in the canonicalizer no percent
    sign is ever the result of decoding. *)
Lemma safe_codes_forallb (safe : list string) :
  forallb is_code safe = true -> safe_codes safe.
Proof.
  intros H x Hx; rewrite forallb_forall in H; now apply H, str_in_In.
Qed.

Lemma tables_are_safe_codes :
  safe_codes unreserved /\ safe_codes unquote_in_path
  /\ safe_codes unquote_in_query /\ safe_codes unquote_in_frag.
Proof. repeat split; apply safe_codes_forallb; reflexivity. Qed.

Lemma tables_keep_percent :
  Py.str_in "25" unreserved = false /\ Py.str_in "25" unquote_in_path = false
  /\ Py.str_in "25" unquote_in_query = false
  /\ Py.str_in "25" unquote_in_frag = false.
Proof. repeat split; reflexivity. Qed.

Lemma unquote_piecewise_witness :
  safe_codes ["2F"] /\ exists r, unquote "a%2fb%zz%" ["2F"] = Ok r.
Proof.
  split; [exact safe_codes_2F|].
  exact (proj1 (unquote_piecewise ["2F"] safe_codes_2F) "a%2fb%zz%").
Defined.

(** C2 as stated fails: with [25] and [41] in the safe-set, the triplet
    [%41] of [%25%41] has its pair in the safe-set and is not decoded,
    because the output ends in the percent sign decoded from [%25]. *)
Lemma unquote_after_decoded_percent :
  safe_codes ["25"; "41"]
  /\ unquote "%25%41" ["25"; "41"] = Ok "%%41"
  /\ unquote_words "%25%41" ["25"; "41"] = "%A"
  /\ unquote "%25%41" ["25"; "41"] <> Ok (unquote_words "%25%41" ["25"; "41"]).
Proof.
  split; [|repeat split; try reflexivity; discriminate].
  intros x H; apply str_in_In in H; destruct H as [<-|[<-|[]]]; reflexivity.
Qed.

(** The same guard keeps a triplet that follows a literal percent sign,
    and a pair of hexadecimal digits of mixed case is not in [valid_hex]:
    it is neither upper-cased nor decoded. *)
Example unquote_after_percent : unquote "%%41" ["41"] = Ok "%%41".
Proof. reflexivity. Qed.

Example unquote_mixed_case :
  unquote "%aB" [] = Ok "%aB" /\ unquote "%aB" ["AB"] = Ok "%aB".
Proof. split; reflexivity. Qed.

(** ** The path normalizer *)

Lemma last_cons_default (l : list string) (a x : string) :
  last (a :: l) x = last l a.
Proof.
  revert a x; induction l as [|b l IH]; intros a x; [reflexivity|].
  change (last (a :: b :: l) x) with (last (b :: l) x).
  now rewrite !IH.
Qed.

Lemma skipn_all_but_last (l : list string) (x : string) :
  skipn (length l) (x :: l) = [last l x].
Proof.
  revert x; induction l as [|a l IH]; intros x; [reflexivity|].
  change (skipn (length (a :: l)) (x :: a :: l)) with (skipn (length l) (a :: l)).
  now rewrite IH, last_cons_default.
Qed.

Lemma interior_cons (x : string) (l : list string) :
  interior (x :: l) = removelast l.
Proof.
  unfold interior; simpl length; simpl skipn.
  rewrite removelast_firstn_len; f_equal; lia.
Qed.

(** After the assignment of line 165 the segments that follow the leading
    one are the non-empty interior ones and then the last one. *)
Lemma segments_after_filter (l : list string) :
  l <> [] ->
  skipn 1 (set_interior ("" :: l) (filter nonempty (interior ("" :: l))))
  = (filter nonempty (removelast l) ++ [last l ""])%list.
Proof.
  intros Hne; unfold set_interior; rewrite interior_cons.
  replace (Nat.max 1 (length ("" :: l) - 1)) with (length l)
    by (destruct l; [contradiction | simpl; lia]).
  now rewrite skipn_all_but_last.
Qed.

Lemma keep_segments_filter (l : list string) :
  l <> [] ->
  keep_segments l = (filter nonempty (removelast l) ++ [last l ""])%list.
Proof.
  induction l as [|s l IH]; [contradiction|]; intros _.
  destruct l as [|s' l]; [reflexivity|].
  change (keep_segments (s :: s' :: l))
    with (if nonempty s then s :: keep_segments (s' :: l)
          else keep_segments (s' :: l)).
  change (removelast (s :: s' :: l)) with (s :: removelast (s' :: l)).
  change (last (s :: s' :: l) "") with (last (s' :: l) "").
  rewrite IH by discriminate.
  simpl filter; destruct (nonempty s); reflexivity.
Qed.

(** The list that [pop] and [append] work on is the stack, bottom first. *)
Lemma resolve_fold_stack (l stack : list string) :
  fold_left resolve_segment l (rev stack) = resolve_stack l stack.
Proof.
  revert stack; induction l as [|s l IH]; intros stack; [reflexivity|].
  simpl; unfold resolve_segment at 2.
  destruct (String.eqb s "..").
  - destruct stack as [|x stack]; [exact (IH [])|].
    simpl rev; simpl tl.
    destruct (rev stack ++ [x])%list eqn:E;
      [now destruct (rev stack)|].
    rewrite <- E, removelast_last; apply IH.
  - destruct (String.eqb s "."); [apply IH | exact (IH (s :: stack))].
Qed.

(** C3.  For every path that starts with a slash, [remove_dot_segments]
    returns what the specification words: the path is split on slashes;
    after the leading empty segment, an empty segment is dropped unless it
    is the last one; the segments are processed from left to right, a [..]
    popping the last resolved segment or being discarded when there is
    none, a [.] being dropped, any other segment being appended; the
    result is a slash followed by the resolved segments joined by slashes,
    and starts with a slash.  The four examples hold. *)
Theorem remove_dot_segments_refines (path : string)
  (Hpath : Py.startswith path "/" = true) :
  remove_dot_segments path = Ok (remove_dot_segments_words path)
  /\ Py.startswith (remove_dot_segments_words path) "/" = true
  /\ remove_dot_segments "/a/b/../c" = Ok "/a/c"
  /\ remove_dot_segments "/../a" = Ok "/a"
  /\ remove_dot_segments "/a//b" = Ok "/a/b"
  /\ remove_dot_segments "/a/" = Ok "/a/".
Proof.
  split; [|repeat split; reflexivity].
  destruct path as [|c rest]; [discriminate|].
  simpl in Hpath; rewrite andb_true_r in Hpath.
  apply Ascii.eqb_eq in Hpath; subst c.
  unfold remove_dot_segments, remove_dot_segments_words.
  change (Py.split (String "/" rest) "/") with ("" :: Py.split rest "/").
  simpl negb; cbv iota; simpl tl.
  pose proof (split_nonempty rest "/") as Hne.
  rewrite (segments_after_filter _ Hne), (keep_segments_filter _ Hne).
  now rewrite <- resolve_fold_stack.
Qed.

Lemma remove_dot_segments_refines_witness :
  Py.startswith "/a/./b//../c/" "/" = true
  /\ remove_dot_segments "/a/./b//../c/"
     = Ok (remove_dot_segments_words "/a/./b//../c/").
Proof.
  split; [reflexivity|].
  exact (proj1 (remove_dot_segments_refines "/a/./b//../c/" eq_refl)).
Defined.

(** C4 at the empty string: [path[0]] raises IndexError before the test
    that raises the ValueError of an invalid path. *)
Theorem remove_dot_segments_empty : remove_dot_segments "" = Raise IndexError.
Proof. reflexivity. Qed.

(** On every other string the test decides: ValueError exactly when the
    path does not start with a slash, a result when it does. *)
Lemma remove_dot_segments_raises (path : string) :
  path <> "" ->
  (Py.startswith path "/" = false <-> remove_dot_segments path = Raise ValueError)
  /\ (Py.startswith path "/" = true -> exists r, remove_dot_segments path = Ok r).
Proof.
  intros Hne; destruct path as [|c rest]; [contradiction|].
  unfold remove_dot_segments; simpl Py.startswith; rewrite andb_true_r.
  destruct (Ascii.eqb c "/"); simpl; split;
    try (split; intros; discriminate); try (split; reflexivity);
    intros; try discriminate; eexists; reflexivity.
Qed.

(** ** The link sanitizer: runaway links *)

Lemma replace_char_absent (s : string) (c : ascii) (new : string) :
  Py.char_in c s = false -> Py.replace_char s c new = s.
Proof.
  induction s as [|d s IH]; simpl; [reflexivity|].
  rewrite Ascii.eqb_sym; intros H; apply orb_false_iff in H as [Hd Hs].
  now rewrite Hd, (IH Hs).
Qed.

Lemma before_first_clean (cls s : string) (c : ascii) :
  Py.char_in c cls = true -> Py.char_in c (before_first cls s) = false.
Proof.
  intros Hc; induction s as [|d s IH]; simpl; [reflexivity|].
  destruct (Py.char_in d cls) eqn:Hd; simpl; [reflexivity|].
  rewrite IH, orb_false_r.
  destruct (Ascii.eqb c d) eqn:E; [|reflexivity].
  apply Ascii.eqb_eq in E; congruence.
Qed.

Lemma before_first_none (cls s : string) :
  str_existsb (fun c => Py.char_in c cls) s = false -> before_first cls s = s.
Proof.
  induction s as [|d s IH]; simpl; [reflexivity|].
  intros H; apply orb_false_iff in H as [Hd Hs].
  now rewrite Hd, (IH Hs).
Qed.

(** The regular expression of line 127 finds the first terminator: its
    group is the text before it. *)
Lemma match_lazy_until_terminators (s : string) :
  match Re.match_lazy_until terminators s with
  | Some g => g
  | None => s
  end = before_first terminators s.
Proof.
  induction s as [|c s IH]; [reflexivity|].
  cbn [Re.match_lazy_until before_first].
  destruct (Py.char_in c terminators) eqn:Hc; [reflexivity|].
  destruct (Ascii.eqb c LF) eqn:E.
  - apply Ascii.eqb_eq in E; subst c; discriminate Hc.
  - destruct (Re.match_lazy_until terminators s); simpl; now rewrite <- IH.
Qed.

Lemma clean_tail_long (l : string) :
  300 < String.length l ->
  clean_tail l
  = if Nat.ltb 300 (String.length (before_first terminators l)) then ""
    else before_first terminators l.
Proof.
  intros Hlong; unfold clean_tail.
  apply Nat.ltb_lt in Hlong; rewrite Hlong, match_lazy_until_terminators.
  destruct (Nat.ltb 300 (String.length (before_first terminators l)));
    [reflexivity|].
  rewrite (replace_char_absent _ CR)
    by (apply before_first_clean; reflexivity).
  apply replace_char_absent, before_first_clean; reflexivity.
Qed.

(** The length that counts is the one after the earlier steps: a link of
    400 slashes is collapsed to two before the test of line 126. *)
Example clean_webpage_links_long_run :
  clean_webpage_links (str_repeat "/" 400) = "//".
Proof. vm_compute; reflexivity. Qed.

(** ** The link sanitizer: runs of slashes and backslashes *)

Lemma replace_first_eq (s old new : string) :
  Py.replace_first s old new
  = if Py.startswith s old then new ++ Py.drop (String.length old) s
    else match s with
         | "" => ""
         | String c s' => String c (Py.replace_first s' old new)
         end.
Proof. destruct s; reflexivity. Qed.

Lemma replace_first_prefix (start rest : string) :
  Py.replace_first (start ++ rest) start "" = rest.
Proof.
  rewrite replace_first_eq, startswith_app; simpl; apply drop_app_length.
Qed.

Lemma lower_length (s : string) : String.length (Py.lower s) = String.length s.
Proof. induction s as [|c s IH]; simpl; [reflexivity | now rewrite IH]. Qed.

Lemma lower_take (n : nat) (s : string) :
  Py.lower (Py.take n s) = Py.take n (Py.lower s).
Proof.
  revert s; induction n as [|n IH]; intros [|c s]; simpl; try reflexivity.
  now rewrite IH.
Qed.

Lemma lower_app (s t : string) : Py.lower (s ++ t) = Py.lower s ++ Py.lower t.
Proof. induction s as [|c s IH]; simpl; [reflexivity | now rewrite IH]. Qed.

(** A character that [lower] leaves alone stays in the string. *)
Lemma char_in_lower (c : ascii) (s : string) :
  Py.lower_char c = c -> Py.char_in c s = true ->
  Py.char_in c (Py.lower s) = true.
Proof.
  intros Hc; induction s as [|d s IH]; simpl; [discriminate|].
  intros H; apply orb_true_iff in H as [H|H].
  - apply Ascii.eqb_eq in H; subst d; now rewrite Hc, Ascii.eqb_refl.
  - now rewrite (IH H), orb_true_r.
Qed.

Lemma run_length_repeat (c : ascii) (n : nat) (rest : string) :
  Py.startswith rest (str1 c) = false ->
  Re.run_length c (str_repeat c n ++ rest) = n.
Proof.
  intros Hrest; induction n as [|n IH]; simpl.
  - destruct rest as [|d rest]; [reflexivity|]; simpl in *.
    rewrite andb_true_r in Hrest; now rewrite Hrest.
  - now rewrite Ascii.eqb_refl, IH.
Qed.

Lemma rstrip_app_run (p : string) (c : ascii) (n : nat) :
  Py.rstrip (p ++ str_repeat c n) (str1 c) = Py.rstrip p (str1 c).
Proof.
  induction p as [|a p IH]; simpl.
  - induction n as [|n IHn]; simpl; [reflexivity|].
    now rewrite IHn, Ascii.eqb_refl.
  - now rewrite IH.
Qed.

Lemma rstrip_absent (p : string) (c : ascii) :
  Py.char_in c p = false -> Py.rstrip p (str1 c) = p.
Proof.
  induction p as [|a p IH]; simpl; [reflexivity|].
  rewrite Ascii.eqb_sym; intros H; apply orb_false_iff in H as [Ha Hp].
  rewrite (IH Hp), Ha; simpl; now destruct p.
Qed.

Lemma scheme_prefix_cases (p : string) :
  is_scheme_prefix p = true ->
  p = "" \/ Py.lower p = "http:" \/ Py.lower p = "https:".
Proof.
  unfold is_scheme_prefix; intros H.
  apply orb_true_iff in H as [H|H]; [apply orb_true_iff in H as [H|H]|];
    apply String.eqb_eq in H; auto.
Qed.

Lemma scheme_prefix_no_run_char (p : string) (c : ascii) :
  is_scheme_prefix p = true -> run_char c -> Py.char_in c p = false.
Proof.
  intros Hp Hc; destruct (Py.char_in c p) eqn:E; [|reflexivity].
  apply char_in_lower in E; [|destruct Hc; subst c; reflexivity].
  destruct (scheme_prefix_cases p Hp) as [->|[H|H]];
    [discriminate | rewrite H in E | rewrite H in E];
    destruct Hc; subst c; discriminate.
Qed.

Lemma scheme_prefix_len_app (p x : string) :
  is_scheme_prefix p = true -> p <> "" ->
  Re.scheme_prefix_len (p ++ x) = Some (String.length p).
Proof.
  intros Hp Hne; unfold Re.scheme_prefix_len.
  destruct (scheme_prefix_cases p Hp) as [->|[H|H]]; [contradiction| |].
  - assert (Hl : String.length p = 5) by (rewrite <- lower_length, H; reflexivity).
    rewrite !lower_take, lower_app, H, Hl; reflexivity.
  - assert (Hl : String.length p = 6) by (rewrite <- lower_length, H; reflexivity).
    rewrite !lower_take, lower_app, H, Hl; reflexivity.
Qed.

Lemma scheme_prefix_len_run (c : ascii) (x : string) :
  run_char c -> Re.scheme_prefix_len (String c x) = None.
Proof.
  intros [->| ->]; unfold Re.scheme_prefix_len; simpl;
    destruct x as [|? [|? [|? [|? [|? ?]]]]]; reflexivity.
Qed.

Lemma take_app_plus (p y : string) (k : nat) :
  Py.take (String.length p + k) (p ++ y) = p ++ Py.take k y.
Proof. induction p as [|a p IH]; simpl; [reflexivity | now rewrite IH]. Qed.

Lemma str_repeat_length (c : ascii) (n : nat) :
  String.length (str_repeat c n) = n.
Proof. induction n as [|n IH]; simpl; [reflexivity | now rewrite IH]. Qed.

Lemma run_length_other (c d : ascii) (y : string) :
  d <> c -> Re.run_length c (String d y) = 0.
Proof. intros H; simpl; apply Ascii.eqb_neq in H; now rewrite H. Qed.

Lemma run_length_prefix (c : ascii) (p y : string) :
  p <> "" -> Py.char_in c p = false -> Re.run_length c (p ++ y) = 0.
Proof.
  destruct p as [|a p]; [contradiction|]; simpl; intros _ H.
  apply orb_false_iff in H as [Ha _].
  rewrite Ascii.eqb_sym in Ha; now rewrite Ha.
Qed.

(** The match of lines 94 and 99 on a scheme prefix followed by a run. *)
Lemma match_scheme_run_hit (c : ascii) (n m : nat) (p rest : string) :
  is_scheme_prefix p = true -> run_char c -> 1 <= n -> n <= m ->
  Py.startswith rest (str1 c) = false ->
  Re.match_scheme_run c n (p ++ str_repeat c m ++ rest)
  = Some (p ++ str_repeat c m).
Proof.
  intros Hp Hc Hn Hm Hrest.
  assert (Hrun : forall k,
             k = String.length p ->
             Re.run_at c n k (p ++ str_repeat c m ++ rest)
             = Some (p ++ str_repeat c m)).
  { intros k ->; unfold Re.run_at.
    rewrite drop_app_length, (run_length_repeat c m rest Hrest).
    apply Nat.leb_le in Hm; rewrite Hm, take_app_plus.
    rewrite <- (str_repeat_length c m) at 1; now rewrite take_app_length. }
  unfold Re.match_scheme_run.
  destruct (string_dec p "") as [->|Hne].
  - destruct m as [|m]; [lia|].
    change ("" ++ str_repeat c (S m) ++ rest)
      with (String c (str_repeat c m ++ rest)).
    rewrite (scheme_prefix_len_run c _ Hc).
    exact (Hrun 0 eq_refl).
  - rewrite (scheme_prefix_len_app p _ Hp Hne), (Hrun _ eq_refl); reflexivity.
Qed.

(** No match when another character follows the scheme prefix. *)
Lemma match_scheme_run_miss (c d : ascii) (n : nat) (p y : string) :
  is_scheme_prefix p = true -> run_char c -> run_char d -> d <> c -> 1 <= n ->
  Re.match_scheme_run c n (p ++ String d y) = None.
Proof.
  intros Hp Hc Hd Hdc Hn.
  assert (Hz : forall r, r = 0 -> Nat.leb n r = false)
    by (intros r ->; apply Nat.leb_gt; lia).
  unfold Re.match_scheme_run.
  destruct (string_dec p "") as [->|Hne].
  - simpl append; rewrite (scheme_prefix_len_run d y Hd).
    unfold Re.run_at; simpl Py.drop.
    now rewrite (Hz _ (run_length_other c d y Hdc)).
  - rewrite (scheme_prefix_len_app p _ Hp Hne); unfold Re.run_at.
    rewrite drop_app_length; simpl Py.drop.
    rewrite (Hz _ (run_length_other c d y Hdc)).
    now rewrite (Hz _ (run_length_prefix c p _ Hne
                         (scheme_prefix_no_run_char p c Hp Hc))).
Qed.

Lemma collapse_run_hit (c : ascii) (n m : nat) (p rest : string) :
  is_scheme_prefix p = true -> run_char c -> 1 <= n -> n <= m ->
  Py.startswith rest (str1 c) = false ->
  collapse_run c n (p ++ str_repeat c m ++ rest) = p ++ "//" ++ rest.
Proof.
  intros Hp Hc Hn Hm Hrest; unfold collapse_run.
  rewrite (match_scheme_run_hit c n m p rest Hp Hc Hn Hm Hrest).
  rewrite rstrip_app_run, (rstrip_absent p c (scheme_prefix_no_run_char p c Hp Hc)).
  now rewrite <- (str_app_assoc p (str_repeat c m) rest), replace_first_prefix.
Qed.

Lemma collapse_run_miss (c d : ascii) (n : nat) (p y : string) :
  is_scheme_prefix p = true -> run_char c -> run_char d -> d <> c -> 1 <= n ->
  collapse_run c n (p ++ String d y) = p ++ String d y.
Proof.
  intros Hp Hc Hd Hdc Hn; unfold collapse_run.
  now rewrite (match_scheme_run_miss c d n p y Hp Hc Hd Hdc Hn).
Qed.

(** ** [find], [split1] and [urlsplit] *)

Lemma find_from_char (s : string) (c : ascii) (i : Z) :
  Py.find_from s (String c "") i
  = match s with
    | "" => (-1)%Z
    | String d s' =>
        if Ascii.eqb d c then i else Py.find_from s' (String c "") (i + 1)%Z
    end.
Proof.
  destruct s as [|d s]; [reflexivity|]; simpl.
  now rewrite andb_true_r.
Qed.

(** [find] of a character: absent, or its first position. *)
Lemma find_char_cases (s : string) (c : ascii) (i : Z) :
  (Py.find_from s (String c "") i = (-1)%Z /\ Py.char_in c s = false)
  \/ (exists k,
        Py.find_from s (String c "") i = (i + Z.of_nat k)%Z
        /\ Py.char_in c (Py.take k s) = false
        /\ Py.drop k s = String c (Py.drop (S k) s)).
Proof.
  revert i; induction s as [|d s IH]; intros i; rewrite find_from_char.
  - left; split; reflexivity.
  - destruct (Ascii.eqb d c) eqn:E.
    + right; exists 0; apply Ascii.eqb_eq in E; subst d.
      repeat split; simpl; f_equal; lia.
    + destruct (IH (i + 1)%Z) as [[Hf Ha] | (k & Hf & Ha & Hd)].
      * left; split; [assumption|]; simpl.
        now rewrite Ascii.eqb_sym, E, Ha.
      * right; exists (S k); repeat split.
        -- rewrite Hf; lia.
        -- simpl; now rewrite Ascii.eqb_sym, E, Ha.
        -- exact Hd.
Qed.

Lemma char_in_take (c : ascii) (s : string) (j : nat) :
  Py.char_in c s = false -> Py.char_in c (Py.take j s) = false.
Proof.
  revert j; induction s as [|d s IH]; intros [|j]; simpl; try reflexivity.
  intros H; apply orb_false_iff in H as [Hd Hs]; now rewrite Hd, IH.
Qed.

Lemma char_in_drop (c : ascii) (s : string) (j : nat) :
  Py.char_in c s = false -> Py.char_in c (Py.drop j s) = false.
Proof.
  revert j; induction s as [|d s IH]; intros [|j]; simpl; try reflexivity;
    try (intros H; exact H).
  intros H; apply orb_false_iff in H as [Hd Hs]; now apply IH.
Qed.

Lemma take_take (j k : nat) (s : string) :
  j <= k -> Py.take j (Py.take k s) = Py.take j s.
Proof.
  revert k s; induction j as [|j IH]; intros [|k] [|d s] H; simpl;
    try reflexivity; try lia.
  rewrite IH; [reflexivity | lia].
Qed.

Lemma drop_drop (j k : nat) (s : string) :
  Py.drop j (Py.drop k s) = Py.drop (k + j) s.
Proof.
  revert s; induction k as [|k IH]; intros s; [reflexivity|].
  destruct s as [|d s]; simpl; [now destruct j | apply IH].
Qed.

Lemma contains_char (s : string) (c : ascii) :
  Py.contains s (String c "") = Py.char_in c s.
Proof.
  unfold Py.contains, Py.find.
  destruct (find_char_cases s c 0) as [[Hf Ha] | (k & Hf & Ha & Hd)].
  - now rewrite Hf, Ha.
  - rewrite Hf, <- (take_drop k s), char_in_app, Hd; simpl.
    rewrite Ascii.eqb_refl, orb_true_r.
    apply Z.leb_le; lia.
Qed.

Lemma split1_fst_clean (s : string) (c : ascii) :
  Py.char_in c (fst (Py.split1 s c)) = false.
Proof.
  induction s as [|d s IH]; simpl; [reflexivity|].
  destruct (Ascii.eqb d c) eqn:E; [reflexivity|].
  destruct (Py.split1 s c) as [a b]; simpl in *.
  now rewrite Ascii.eqb_sym, E, IH.
Qed.

Lemma split1_absent (s : string) (c : ascii) :
  Py.char_in c s = false -> Py.split1 s c = (s, "").
Proof.
  induction s as [|d s IH]; simpl; [reflexivity|].
  rewrite Ascii.eqb_sym; intros H; apply orb_false_iff in H as [Hd Hs].
  now rewrite Hd, (IH Hs).
Qed.

Lemma split1_keeps_clean (s : string) (c d : ascii) :
  Py.char_in c s = false ->
  Py.char_in c (fst (Py.split1 s d)) = false
  /\ Py.char_in c (snd (Py.split1 s d)) = false.
Proof.
  induction s as [|e s IH]; simpl; [now split|].
  intros H; apply orb_false_iff in H as [He Hs].
  destruct (Ascii.eqb e d); [now split|].
  destruct (IH Hs) as [H1 H2]; destruct (Py.split1 s d) as [a b]; simpl in *.
  now rewrite He, H1, H2.
Qed.

Lemma split1_app_clean (a s : string) (c : ascii) :
  Py.char_in c a = false ->
  snd (Py.split1 (a ++ s) c) = snd (Py.split1 s c).
Proof.
  induction a as [|d a IH]; simpl; [reflexivity|].
  rewrite Ascii.eqb_sym; intros H; apply orb_false_iff in H as [Hd Ha].
  rewrite Hd; specialize (IH Ha).
  now destruct (Py.split1 (a ++ s) c).
Qed.

Lemma take_plus (j m : nat) (s : string) :
  Py.take (j + m) s = Py.take j s ++ Py.take m (Py.drop j s).
Proof.
  revert s; induction j as [|j IH]; intros s; simpl; [reflexivity|].
  destruct s as [|d s]; [now destruct m | simpl; now rewrite IH].
Qed.

Lemma scheme_chars_clean (head : string) :
  str_forallb (fun c => Py.char_in c scheme_chars) head = true ->
  Py.char_in "#" head = false /\ Py.char_in "#" (Py.lower head) = false.
Proof.
  assert (H : forall c,
             (if Py.char_in c scheme_chars
              then negb (Ascii.eqb "#" c)
                   && negb (Ascii.eqb "#" (Py.lower_char c))
              else true) = true)
    by (apply ascii_forall; vm_compute; reflexivity).
  induction head as [|c head IH]; [now split|].
  cbn [str_forallb Py.char_in Py.lower].
  intros Hall; apply andb_true_iff in Hall as [Hc Hh].
  specialize (H c); rewrite Hc in H; apply andb_true_iff in H as [H1 H2].
  destruct (IH Hh) as [I1 I2].
  apply negb_true_iff in H1, H2; now rewrite H1, H2, I1, I2.
Qed.

(** The scheme has no [#], and neither has what [urlsplit] removes with
    it. *)
Lemma split_scheme_shape (url sch rest : string) :
  split_scheme url = (sch, rest) ->
  Py.char_in "#" sch = false
  /\ exists A, url = A ++ rest /\ Py.char_in "#" A = false.
Proof.
  assert (Hnone : ("", url) = (sch, rest) ->
                  Py.char_in "#" sch = false
                  /\ exists A, url = A ++ rest /\ Py.char_in "#" A = false).
  { intros E; injection E as <- <-; split; [reflexivity|].
    exists ""; now split. }
  unfold split_scheme, Py.find.
  destruct (find_char_cases url ":" 0) as [[Hf _] | (k & Hf & Ha & Hd)];
    rewrite Hf; [exact Hnone|].
  destruct (0 <? 0 + Z.of_nat k)%Z; [|exact Hnone].
  replace (Z.to_nat (0 + Z.of_nat k)) with k by lia.
  assert (Hsome : forall head,
             head = Py.take k url -> Py.char_in "#" head = false ->
             Py.char_in "#" (Py.lower head) = false ->
             (Py.lower head, Py.drop (k + 1) url) = (sch, rest) ->
             Py.char_in "#" sch = false
             /\ exists A, url = A ++ rest /\ Py.char_in "#" A = false).
  { intros head -> H1 H2 E; injection E as <- <-; split; [assumption|].
    exists (Py.take (k + 1) url); split; [now rewrite take_drop|].
    rewrite take_plus, Hd, char_in_app, H1; reflexivity. }
  destruct (String.eqb (Py.take k url) "http") eqn:Eh.
  - apply String.eqb_eq in Eh; apply Hsome; rewrite ?Eh; reflexivity.
  - destruct (str_forallb _ (Py.take k url)) eqn:Es; [|exact Hnone].
    destruct (scheme_chars_clean _ Es) as [H1 H2].
    destruct (_ || _); [|exact Hnone].
    now apply Hsome.
Qed.

Lemma delim_step (url : string) (c : ascii) (d : nat) :
  let w := find_at url (String c "") 2 in
  let d' := if (0 <=? w)%Z then Nat.min d (Z.to_nat w) else d in
  (d' = d /\ Py.char_in c (Py.drop 2 url) = false)
  \/ (exists k,
        d' = Nat.min d (k + 2)
        /\ Py.char_in c (Py.take k (Py.drop 2 url)) = false).
Proof.
  unfold find_at, Py.find; cbv zeta.
  destruct (find_char_cases (Py.drop 2 url) c 0)
    as [[Hf Ha] | (k & Hf & Ha & _)]; rewrite Hf.
  - left; split; [reflexivity | assumption].
  - right; exists k; split; [|assumption].
    replace (0 + Z.of_nat k <? 0)%Z with false by (symmetry; apply Z.ltb_ge; lia).
    replace (0 <=? 0 + Z.of_nat k + Z.of_nat 2)%Z with true
      by (symmetry; apply Z.leb_le; lia).
    f_equal; lia.
Qed.

(** The netloc ends before the first [#]. *)
Lemma splitnetloc_shape (url netloc rest : string) :
  Py.take 2 url = "//" -> _splitnetloc url 2 = (netloc, rest) ->
  url = "//" ++ netloc ++ rest /\ Py.char_in "#" netloc = false.
Proof.
  intros H2 E; unfold _splitnetloc in E; simpl fold_left in E.
  unfold str1 in E.
  assert (Hlen : 2 <= String.length url)
    by (destruct url as [|a [|b url]]; simpl in *; try discriminate; lia).
  pose proof (delim_step url "/" (String.length url)) as S1; cbv zeta in S1.
  set (d1 := if (0 <=? find_at url "/" 2)%Z then _ else _) in *.
  pose proof (delim_step url "?" d1) as S2; cbv zeta in S2.
  set (d2 := if (0 <=? find_at url "?" 2)%Z then _ else _) in *.
  pose proof (delim_step url "#" d2) as S3; cbv zeta in S3.
  set (d3 := if (0 <=? find_at url "#" 2)%Z then _ else _) in *.
  injection E as <- <-.
  assert (Hd3 : 2 <= d3).
  { destruct S1 as [[-> _] | (k1 & -> & _)];
      destruct S2 as [[-> _] | (k2 & -> & _)];
      destruct S3 as [[-> _] | (k3 & -> & _)]; lia. }
  split.
  - rewrite <- (take_drop 2 url) at 1; rewrite H2; simpl; f_equal.
    replace (Py.drop d3 url) with (Py.drop (d3 - 2) (Py.drop 2 url))
      by (rewrite drop_drop; f_equal; lia).
    now rewrite take_drop.
  - destruct S3 as [[_ Ha] | (k3 & Hk & Ha)]; [now apply char_in_take|].
    rewrite <- (take_take (d3 - 2) k3) by lia.
    now apply char_in_take.
Qed.

(** What [urlsplit] returns: no component before the fragment has a [#],
    and the fragment is what follows the first [#] of the url. *)
Lemma urlsplit_shape (url : string) (parts : SplitResult) :
  urlsplit url = Ok parts ->
  Py.char_in "#" (scheme parts) = false
  /\ Py.char_in "#" (netloc parts) = false
  /\ Py.char_in "#" (path parts) = false
  /\ Py.char_in "#" (query parts) = false
  /\ fragment parts = snd (Py.split1 url "#").
Proof.
  unfold urlsplit.
  destruct (split_scheme url) as [sch url1] eqn:Es.
  destruct (split_scheme_shape _ _ _ Es) as [Hsch (A & -> & HA)].
  assert (Hnet : forall net url2,
             url1 = net ++ url2 -> Py.char_in "#" net = false ->
             forall nl,
             Py.char_in "#" nl = false ->
             (let '(url, fragment) :=
                if Py.contains url2 "#" then Py.split1 url2 "#" else (url2, "") in
              let '(url, query) :=
                if Py.contains url "?" then Py.split1 url "?" else (url, "") in
              Ok (mkSplitResult sch nl url query fragment)) = Ok parts ->
             Py.char_in "#" (scheme parts) = false
             /\ Py.char_in "#" (netloc parts) = false
             /\ Py.char_in "#" (path parts) = false
             /\ Py.char_in "#" (query parts) = false
             /\ fragment parts = snd (Py.split1 (A ++ url1) "#")).
  { intros net url2 -> Hn nl Hnl E.
    rewrite (split1_app_clean A _ "#" HA), (split1_app_clean net _ "#" Hn).
    rewrite contains_char in E.
    assert (Hu : exists u, (if Py.char_in "#" url2 then Py.split1 url2 "#"
                            else (url2, "")) = (u, snd (Py.split1 url2 "#"))
                           /\ Py.char_in "#" u = false).
    { destruct (Py.char_in "#" url2) eqn:C.
      - exists (fst (Py.split1 url2 "#")); split;
          [now destruct (Py.split1 url2 "#") | apply split1_fst_clean].
      - exists url2; split; [now rewrite (split1_absent _ _ C) | assumption]. }
    destruct Hu as (u & Eu & Hu); rewrite Eu in E.
    destruct (split1_keeps_clean u "#" "?" Hu) as [K1 K2].
    destruct (Py.contains u "?"); [destruct (Py.split1 u "?") as [a b]|];
      injection E as <-; simpl in *; repeat split; assumption. }
  destruct (String.eqb (Py.take 2 url1) "//") eqn:E2.
  - apply String.eqb_eq in E2.
    destruct (_splitnetloc url1 2) as [nl url2] eqn:En.
    destruct (splitnetloc_shape _ _ _ E2 En) as [Hurl Hnl].
    destruct (_ || _); simpl; [discriminate|].
    apply (Hnet ("//" ++ nl) url2);
      [now rewrite str_app_assoc | simpl; now rewrite Hnl | assumption].
  - simpl; apply (Hnet "" url1); reflexivity.
Qed.

(** ** The [URL] object *)

Lemma urlunsplit_clean (c : SplitResult) :
  fragment c = "" ->
  Py.char_in "#" (scheme c) = false -> Py.char_in "#" (netloc c) = false ->
  Py.char_in "#" (path c) = false -> Py.char_in "#" (query c) = false ->
  Py.char_in "#" (urlunsplit c) = false.
Proof.
  intros Hf Hs Hn Hp Hq; unfold urlunsplit; rewrite Hf.
  simpl String.eqb; cbv iota; simpl negb; cbv iota.
  repeat match goal with
         | |- context [if ?b then _ else _] => destruct b
         end;
    rewrite ?char_in_app, ?Hs, ?Hn, ?Hp, ?Hq; reflexivity.
Qed.

Lemma lower_clean (s : string) :
  Py.char_in "#" s = false -> Py.char_in "#" (Py.lower s) = false.
Proof.
  assert (H : forall c, Bool.eqb (Ascii.eqb "#" (Py.lower_char c))
                          (Ascii.eqb "#" c) = true)
    by (apply ascii_forall; vm_compute; reflexivity).
  induction s as [|c s IH]; [reflexivity|].
  cbn [Py.char_in Py.lower].
  intros Hs; apply orb_false_iff in Hs as [Hc Hs].
  now rewrite (Bool.eqb_prop _ _ (H c)), Hc, IH.
Qed.

Lemma reference_netloc_clean (s n : string) :
  Py.char_in "#" n = false -> Py.char_in "#" (reference_netloc s n) = false.
Proof.
  intros Hn; apply lower_clean in Hn; unfold reference_netloc.
  repeat match goal with
         | |- context [if ?b then _ else _] => destruct b
         end; try assumption; now apply char_in_take.
Qed.

Section URLObject.

Context {surt_module : SurtModule} {libraries : Libraries}.

Lemma URL_init_canonical (url : string) (b : base) (seed : bool) (x : URL) :
  URL_init url b seed = Ok x ->
  exists link, URL_link url b seed = Ok link /\ URL_canonical link = Ok x.
Proof.
  unfold URL_init; destruct (URL_link url b seed) as [link|e] eqn:Hl; simpl;
    [|discriminate].
  intros Hx; now exists link.
Qed.

Lemma URL_canonical_fields (link : string) (x : URL) :
  URL_canonical link = Ok x ->
  exists url frag parts,
    safe_url_canonicalization link = Ok (url, frag)
    /\ urlsplit url = Ok parts
    /\ x = URL_fields url frag parts.
Proof.
  unfold URL_canonical.
  destruct (safe_url_canonicalization link) as [[url frag]|e] eqn:Hc; simpl;
    [|discriminate].
  destruct (urlsplit url) as [parts|e] eqn:Hp; simpl; [|discriminate].
  intros Hx; injection Hx as <-; now exists url, frag, parts.
Qed.

(** C5.  For every successfully constructed [URL] object, the path of its
    [urlsplit] is not empty, the fragment of its [urlsplit] is the empty
    string, and its canonical [url] is assembled from that [urlsplit], so
    without a fragment; the [url] has no [#] at all as soon as the netloc
    collaborator puts none into a netloc that has none. *)
Theorem URL_invariants (url : string) (b : base) (seed : bool) (x : URL) :
  URL_init url b seed = Ok x ->
  path (_urlsplit x) <> ""
  /\ fragment (_urlsplit x) = ""
  /\ _url x = urlunsplit (_urlsplit x)
  /\ ((forall s n, Py.char_in "#" n = false ->
                   Py.char_in "#" (netloc_to_punycanon s n) = false) ->
      Py.char_in "#" (_url x) = false).
Proof.
  intros Hx; apply URL_init_canonical in Hx as (link & _ & Hx).
  apply URL_canonical_fields in Hx as (c & frag & parts & _ & Hparts & ->).
  destruct (urlsplit_shape _ _ Hparts) as (Hs & Hn & Hp & Hq & _).
  unfold URL_fields; cbn [_urlsplit _url path fragment].
  split; [|split; [reflexivity | split; [reflexivity|]]].
  - destruct (String.eqb (path parts) "") eqn:E; [discriminate|].
    now apply String.eqb_neq.
  - intros Hnetloc.
    apply urlunsplit_clean; cbn [scheme netloc path query fragment];
      try assumption; try reflexivity; [now apply Hnetloc|].
    now destruct (String.eqb (path parts) "").
Qed.

(** C6, as amended.  For every successfully constructed [URL] object,
    [original_frag] is decided by the fragment that [urlsplit] returns
    for the link (sanitized, resolved against the base, percent-decoded
    with the unreserved safe-set): it is absent exactly when that
    fragment is empty, and is otherwise [#] followed by that fragment
    percent-decoded with the fragment safe-set; it is [#] and the very
    fragment when the fragment has no percent sign. *)
Theorem original_frag_decoded (url : string) (b : base) (seed : bool) (x : URL) :
  URL_init url b seed = Ok x ->
  exists link decoded parts f,
    URL_link url b seed = Ok link
    /\ unquote link unreserved = Ok decoded
    /\ urlsplit decoded = Ok parts
    /\ unquote (fragment parts) unquote_in_frag = Ok f
    /\ _original_frag x
       = (if String.eqb (fragment parts) "" then None else Some ("#" ++ f))
    /\ (Py.char_in "%" (fragment parts) = false -> f = fragment parts).
Proof.
  intros Hx; apply URL_init_canonical in Hx as (link & Hlink & Hx).
  apply URL_canonical_fields in Hx as (c & frag & parts & Hc & _ & ->).
  unfold safe_url_canonicalization in Hc.
  destruct (unquote link unreserved) as [decoded|e] eqn:Hd; simpl in Hc;
    [|discriminate].
  destruct (urlsplit decoded) as [p|e] eqn:Hp; simpl in Hc; [|discriminate].
  destruct (remove_dot_segments _) as [p1|e]; simpl in Hc; [|discriminate].
  destruct (unquote _ unquote_in_path) as [p2|e]; simpl in Hc; [|discriminate].
  destruct (unquote (query p) _) as [q|e]; simpl in Hc; [|discriminate].
  exists link, decoded, p.
  destruct (String.eqb (fragment p) "") eqn:Ef; simpl in Hc.
  - injection Hc as <- <-; apply String.eqb_eq in Ef.
    exists ""; rewrite Ef; repeat split; try assumption; reflexivity.
  - destruct (unquote (fragment p) unquote_in_frag) as [f|e] eqn:Hf;
      simpl in Hc; [|discriminate].
    injection Hc as <- <-; exists f.
    repeat split; try assumption.
    intros Hpct; rewrite (unquote_literal _ _ Hpct) in Hf; congruence.
Qed.

(** C10, as amended.  A base given as a non-empty string whose [URL]
    constructs, and the [URL] object constructed from it, are equivalent:
    the two constructions succeed or raise together, and on success every
    attribute is equal. *)
Theorem URL_base_str_or_object (s b : string) (seed : bool) (ub : URL) :
  b <> "" -> URL_plain b = Ok ub ->
  URL_init s (BaseStr b) seed = URL_init s (BaseURL ub) seed.
Proof.
  intros Hb Hub; unfold URL_init, URL_link, URL_base.
  apply String.eqb_neq in Hb; now rewrite Hb, Hub.
Qed.

Lemma URL_init_plain (s : string) : URL_init s NoBase false = URL_plain s.
Proof. reflexivity. Qed.

(** The empty string as a base is no base. *)
Lemma URL_empty_base (s : string) (seed : bool) :
  URL_init s (BaseStr "") seed = URL_init s NoBase seed.
Proof. reflexivity. Qed.

(** The length test of line 268 comes first: whatever the two urls. *)
Lemma special_redirect_length (x y : URL) :
  (5 < Z.abs (Z.of_nat (String.length (_url x))
              - Z.of_nat (String.length (_url y))))%Z ->
  special_redirect x y = None.
Proof.
  intros H; unfold special_redirect; apply Z.ltb_lt in H; now rewrite H.
Qed.

End URLObject.

(** ** Construction, step by step *)

(** The construction of [URL(raw)] follows the source line by line; each
    step is a premise, so that a concrete link is run by evaluating the
    steps of the source and by looking up the two calls of the netloc
    collaborator. *)
Lemma safe_url_canonicalization_steps {sm : SurtModule}
  (link decoded : string) (parts : SplitResult)
  (nl p1 p2 q frag canon : string) :
  unquote link unreserved = Ok decoded ->
  urlsplit decoded = Ok parts ->
  netloc_to_punycanon (Py.lower (scheme parts)) (netloc parts) = nl ->
  remove_dot_segments
    (if String.eqb (path parts) "" then "/" else path parts) = Ok p1 ->
  unquote (Py.replace_char p1 backslash "/") unquote_in_path = Ok p2 ->
  unquote (query parts) unquote_in_query = Ok q ->
  (if negb (String.eqb (fragment parts) "") then
     f <- unquote (fragment parts) unquote_in_frag ;; Ok ("#" ++ f)
   else Ok (fragment parts)) = Ok frag ->
  urlunsplit (mkSplitResult (Py.lower (scheme parts)) nl p2 q "") = canon ->
  safe_url_canonicalization link = Ok (canon, frag).
Proof.
  intros Hd Hp Hn H1 H2 Hq Hf Hc; unfold safe_url_canonicalization.
  rewrite Hd; cbn [bind]; rewrite Hp; cbn [bind].
  rewrite H1; cbn [bind]; rewrite H2; cbn [bind]; rewrite Hq; cbn [bind].
  rewrite Hf; cbn [bind]; now rewrite Hn, Hc.
Qed.

Lemma URL_plain_steps {sm : SurtModule} {lib : Libraries}
  (raw link canon frag : string) (parts2 : SplitResult) (nl2 u : string)
  (orig : option string) :
  clean_webpage_links raw = link ->
  safe_url_canonicalization link = Ok (canon, frag) ->
  urlsplit canon = Ok parts2 ->
  netloc_to_punycanon (scheme parts2) (netloc parts2) = nl2 ->
  urlunsplit
    (mkSplitResult (scheme parts2) nl2
       (if String.eqb (path parts2) "" then "/" else path parts2)
       (query parts2) "") = u ->
  (if Nat.ltb 0 (String.length frag) then Some frag else None) = orig ->
  exists x,
    URL_plain raw = Ok x /\ _url x = u
    /\ netloc (_urlsplit x) = nl2
    /\ _original_frag x = orig.
Proof.
  intros Hl Hs Hp2 Hn2 Hu Ho.
  exists (URL_fields canon frag parts2).
  unfold URL_plain, URL_canonical; rewrite Hl, Hs; cbn [bind].
  rewrite Hp2; cbn [bind]; unfold URL_fields;
    cbn [_url _urlsplit netloc _original_frag].
  now rewrite Hn2, Hu, Ho.
Qed.

(** Runs the two lemmas on a concrete link. *)
Ltac run_netloc Hn :=
  cbn [scheme netloc Py.lower Py.lower_char];
  first [ apply Hn; simpl; tauto | lazy; reflexivity ].

Ltac run_canonical Hn :=
  eapply safe_url_canonicalization_steps;
  [ lazy; reflexivity | lazy; reflexivity | run_netloc Hn
  | lazy; reflexivity | lazy; reflexivity | lazy; reflexivity
  | lazy; reflexivity | lazy; reflexivity ].

Ltac run_url Hn :=
  eapply URL_plain_steps;
  [ lazy; reflexivity | run_canonical Hn | lazy; reflexivity
  | run_netloc Hn | lazy; reflexivity | lazy; reflexivity ].

Lemma classify_redirect_steps {sm : SurtModule} {lib : Libraries}
  (a b ua ub na nb : string) (oa ob : option string) (r : option redirect) :
  (exists x, URL_plain a = Ok x /\ _url x = ua
             /\ netloc (_urlsplit x) = na /\ _original_frag x = oa) ->
  (exists y, URL_plain b = Ok y /\ _url y = ub
             /\ netloc (_urlsplit y) = nb /\ _original_frag y = ob) ->
  (forall x y, _url x = ua -> netloc (_urlsplit x) = na ->
               _url y = ub -> netloc (_urlsplit y) = nb ->
               special_redirect x y = r) ->
  classify_redirect a b = Ok r.
Proof.
  intros (x & Hx & X1 & X2 & _) (y & Hy & Y1 & Y2 & _) Hr.
  unfold classify_redirect; rewrite Hx, Hy; cbn [bind].
  now rewrite (Hr x y X1 X2 Y1 Y2).
Qed.

Ltac run_classify Hn :=
  eapply classify_redirect_steps;
  [ run_url Hn | run_url Hn
  | let x := fresh "x" in
    let y := fresh "y" in
    let X1 := fresh in
    let X2 := fresh in
    let Y1 := fresh in
    let Y2 := fresh in
    intros x y X1 X2 Y1 Y2; unfold special_redirect;
    rewrite X1, X2, Y1, Y2; lazy; reflexivity ].

Lemma URL_url_steps {sm : SurtModule} {lib : Libraries}
  (a ua na : string) (oa : option string) :
  (exists x, URL_plain a = Ok x /\ _url x = ua
             /\ netloc (_urlsplit x) = na /\ _original_frag x = oa) ->
  URL_url a = Ok ua /\ URL_original_frag a = Ok oa.
Proof.
  intros (x & Hx & X1 & _ & X2); unfold URL_url, URL_original_frag.
  rewrite Hx; cbn [bind]; now rewrite X1, X2.
Qed.

(** ** Idempotence *)

(** C1 at a link with a backslash in its path.  The canonicalizer
    replaces the backslash by a slash after it has removed the empty
    segments, so the canonical url has a double slash that a second
    canonicalization removes: neither [safe_url_canonicalization] nor the
    constructor returns the canonical url unchanged. *)
Theorem URL_backslash_not_idempotent {sm : SurtModule} {lib : Libraries}
  (Hn : netloc_to_punycanon "http" "example.com" = "example.com") :
  URL_url ("http://example.com/" ++ str1 backslash ++ "a")
  = Ok "http://example.com//a"
  /\ URL_url "http://example.com//a" = Ok "http://example.com/a"
  /\ safe_url_canonicalization "http://example.com//a"
     = Ok ("http://example.com/a", "").
Proof.
  split; [|split].
  - eapply (fun na oa H => proj1 (URL_url_steps _ _ na oa H)); run_url Hn.
  - eapply (fun na oa H => proj1 (URL_url_steps _ _ na oa H)); run_url Hn.
  - run_canonical Hn.
Qed.

Lemma URL_backslash_not_idempotent_witness :
  @netloc_to_punycanon reference_surt_module "http" "example.com" = "example.com"
  /\ @URL_url reference_surt_module reference_libraries "http://example.com//a"
     = Ok "http://example.com/a".
Proof.
  split; [reflexivity|].
  exact (proj1 (proj2 (@URL_backslash_not_idempotent reference_surt_module
                         reference_libraries eq_refl))).
Defined.

(** ** The redirect classifier *)

(** C7, as amended.  Two [URL] objects whose canonical urls differ in
    length by more than 5 are unclassified, whatever else holds of them.
    [URL('http://example.com')] and [URL('http://example.com/')] have the
    same canonical url, the path of the first being defaulted to a slash,
    and their class is [same]; [addslash] is the class of
    [http://example.com/foo] and [http://example.com/foo/].  The class of
    [http://example.com] and [https://example.com] is [tohttps], and that
    of [http://www.example.com] and [http://example.com] is [tononwww]. *)
Theorem special_redirect_classes {sm : SurtModule} {lib : Libraries} :
  (forall x y : URL,
     (5 < Z.abs (Z.of_nat (String.length (_url x))
                 - Z.of_nat (String.length (_url y))))%Z ->
     special_redirect x y = None)
  /\ (keeps_example_netlocs sm ->
      classify_redirect "http://example.com" "http://example.com/"
      = Ok (Some same)
      /\ classify_redirect "http://example.com/foo" "http://example.com/foo/"
         = Ok (Some addslash)
      /\ classify_redirect "http://example.com" "https://example.com"
         = Ok (Some tohttps)
      /\ classify_redirect "http://www.example.com" "http://example.com"
         = Ok (Some tononwww)).
Proof.
  split; [exact special_redirect_length|].
  intros Hn; repeat split; run_classify Hn.
Qed.

Lemma reference_keeps_example_netlocs :
  keeps_example_netlocs reference_surt_module.
Proof.
  intros s n Hs Hn; simpl in Hs, Hn.
  destruct Hs as [<-|[<-|[]]]; destruct Hn as [<-|[<-|[]]]; reflexivity.
Qed.

Lemma special_redirect_classes_witness :
  keeps_example_netlocs reference_surt_module
  /\ reference_classify "http://example.com" "https://example.com"
     = Ok (Some tohttps).
Proof.
  split; [exact reference_keeps_example_netlocs|].
  exact (proj1 (proj2 (proj2
    (proj2 (@special_redirect_classes reference_surt_module
              reference_libraries)
       reference_keeps_example_netlocs)))).
Defined.

(** C7 as stated fails on its first example: the class is [same], not
    [addslash]. *)
Lemma special_redirect_addslash_example :
  reference_classify "http://example.com" "http://example.com/" = Ok (Some same)
  /\ reference_classify "http://example.com" "http://example.com/"
     <> Ok (Some addslash).
Proof. split; [vm_compute; reflexivity | vm_compute; discriminate]. Qed.

(** ** The reference instance: witnesses and counterexamples *)

Lemma URL_invariants_witness :
  exists x,
    reference_URL "HTTP://Example.COM:80/a/./b/../c?q=1#frag" NoBase false
    = Ok x
    /\ _url x = "http://example.com/a/c?q=1"
    /\ path (_urlsplit x) <> ""
    /\ fragment (_urlsplit x) = ""
    /\ Py.char_in "#" (_url x) = false.
Proof.
  eexists; split; [vm_compute; reflexivity|].
  split; [reflexivity|].
  destruct (@URL_invariants reference_surt_module reference_libraries
              "HTTP://Example.COM:80/a/./b/../c?q=1#frag" NoBase false _
              ltac:(vm_compute; reflexivity)) as (H1 & H2 & _ & H3).
  split; [exact H1 | split; [exact H2 | exact (H3 reference_netloc_clean)]].
Defined.

Lemma original_frag_decoded_witness :
  exists x,
    reference_URL "http://example.com/a#top" NoBase false = Ok x
    /\ _original_frag x = Some "#top"
    /\ exists link decoded parts f,
         @URL_link reference_surt_module reference_libraries
           "http://example.com/a#top" NoBase false = Ok link
         /\ unquote link unreserved = Ok decoded
         /\ urlsplit decoded = Ok parts
         /\ unquote (fragment parts) unquote_in_frag = Ok f
         /\ _original_frag x
            = (if String.eqb (fragment parts) "" then None
               else Some ("#" ++ f))
         /\ (Py.char_in "%" (fragment parts) = false -> f = fragment parts).
Proof.
  eexists; split; [vm_compute; reflexivity|].
  split; [reflexivity|].
  apply (@original_frag_decoded reference_surt_module reference_libraries
           "http://example.com/a#top" NoBase false).
  vm_compute; reflexivity.
Defined.

(** C6 as stated fails: the fragment of the link is [#%7E], and
    [original_frag] is its decoded form [#~]. *)
Lemma original_frag_is_decoded :
  reference_original_frag "http://example.com/#%7E" = Ok (Some "#~")
  /\ reference_original_frag "http://example.com/#%7E" <> Ok (Some "#%7E").
Proof. split; [vm_compute; reflexivity | vm_compute; discriminate]. Qed.

(** A link that ends in a bare [#] has a fragment, the empty one, and no
    [original_frag]. *)
Example original_frag_bare_hash :
  reference_original_frag "http://example.com/#" = Ok None.
Proof. vm_compute; reflexivity. Qed.

Lemma URL_base_str_or_object_witness :
  "http://example.com/dir/" <> ""
  /\ reference_URL "x/y" (BaseStr "http://example.com/dir/") false
     = reference_URL "x/y"
         (BaseURL
            (mkURL "http://example.com/dir/"
               (mkSplitResult "http" "example.com" "/dir/" "" "")
               "example.com" "example.com" "example.com"
               "com,example)/dir/" "example.com" None)) false.
Proof.
  split; [discriminate|].
  apply (@URL_base_str_or_object reference_surt_module reference_libraries);
    [discriminate | vm_compute; reflexivity].
Defined.

(** C10 as stated fails at the empty base string: [URL("")] constructs,
    the empty string is falsy and the link is not resolved at all, while
    the [URL] object is truthy and the link is resolved against it. *)
Lemma URL_empty_base_differs :
  reference_URL "" NoBase false = Ok root_URL
  /\ reference_URL "/a" (BaseStr "") false
     = Ok (mkURL "/a" (mkSplitResult "" "" "/a" "" "") "" "" "" ")/a" "" None)
  /\ reference_URL "/a" (BaseURL root_URL) false = Raise ValueError.
Proof. repeat split; vm_compute; reflexivity. Qed.

(** ** More on the link sanitizer *)

Lemma replace_char_gone (s : string) (c d : ascii) :
  Py.char_in d (Py.replace_char s c "")
  = if Ascii.eqb d c then false else Py.char_in d s.
Proof.
  induction s as [|e s IH]; simpl; [now destruct (Ascii.eqb d c)|].
  destruct (Ascii.eqb e c) eqn:E; simpl; rewrite IH.
  - apply Ascii.eqb_eq in E; subst e.
    now destruct (Ascii.eqb d c).
  - destruct (Ascii.eqb d c) eqn:D; [|reflexivity].
    apply Ascii.eqb_eq in D; subst d.
    now rewrite Ascii.eqb_sym, E.
Qed.

Lemma replace_char_shorter (s : string) (c : ascii) :
  String.length (Py.replace_char s c "") <= String.length s.
Proof.
  induction s as [|e s IH]; simpl; [lia|].
  destruct (Ascii.eqb e c); simpl; lia.
Qed.

Lemma before_first_shorter (cls s : string) :
  String.length (before_first cls s) <= String.length s.
Proof.
  induction s as [|e s IH]; simpl; [lia|].
  destruct (Py.char_in e cls); simpl; lia.
Qed.

Lemma clean_tail_no_crlf (l : string) :
  Py.char_in CR (clean_tail l) = false /\ Py.char_in LF (clean_tail l) = false.
Proof.
  unfold clean_tail.
  assert (H : forall t,
             Py.char_in CR (Py.replace_char (Py.replace_char t CR "") LF "") = false
             /\ Py.char_in LF (Py.replace_char (Py.replace_char t CR "") LF "")
                = false)
    by (intros t; rewrite !replace_char_gone; split; reflexivity).
  destruct (Nat.ltb 300 (String.length l)); [|apply H].
  set (t := match Re.match_lazy_until terminators l with
            | Some g => g
            | None => l
            end).
  destruct (Nat.ltb 300 (String.length t)); [now split | apply H].
Qed.

Lemma clean_tail_length (l : string) : String.length (clean_tail l) <= 300.
Proof.
  unfold clean_tail.
  assert (H : forall t,
             String.length (Py.replace_char (Py.replace_char t CR "") LF "")
             <= String.length t).
  { intros t; pose proof (replace_char_shorter t CR).
    pose proof (replace_char_shorter (Py.replace_char t CR "") LF); lia. }
  destruct (Nat.ltb 300 (String.length l)) eqn:E.
  - set (t := match Re.match_lazy_until terminators l with
              | Some g => g
              | None => l
              end).
    destruct (Nat.ltb 300 (String.length t)) eqn:E2; [simpl; lia|].
    apply Nat.ltb_ge in E2; specialize (H t); lia.
  - apply Nat.ltb_ge in E; specialize (H l); lia.
Qed.

(** X1.  Whatever the link, what [clean_webpage_links] returns has no
    carriage return and no line feed. *)
Theorem clean_webpage_links_no_crlf (link : string) :
  Py.char_in CR (clean_webpage_links link) = false
  /\ Py.char_in LF (clean_webpage_links link) = false.
Proof. apply clean_tail_no_crlf. Qed.

(** X2.  Whatever the link, what [clean_webpage_links] returns has at
    most 300 characters: a longer link is truncated or given up. *)
Theorem clean_webpage_links_length (link : string) :
  String.length (clean_webpage_links link) <= 300.
Proof. apply clean_tail_length. Qed.

Lemma find_from_eq (s sub : string) (i : Z) :
  Py.find_from s sub i
  = if Py.startswith s sub then i
    else match s with
         | "" => (-1)%Z
         | String _ s' => Py.find_from s' sub (i + 1)%Z
         end.
Proof. destruct s; reflexivity. Qed.

Lemma find_from_found (s sub : string) (i j : Z) :
  (0 <= i)%Z -> (0 <= j)%Z ->
  (0 <=? Py.find_from s sub i)%Z = (0 <=? Py.find_from s sub j)%Z.
Proof.
  revert i j; induction s as [|c s IH]; intros i j Hi Hj;
    rewrite (find_from_eq _ sub i), (find_from_eq _ sub j).
  - destruct (Py.startswith "" sub); [|reflexivity].
    transitivity true; [|symmetry]; apply Z.leb_le; lia.
  - destruct (Py.startswith (String c s) sub).
    + transitivity true; [|symmetry]; apply Z.leb_le; lia.
    + apply IH; lia.
Qed.

Lemma contains_cons (c : ascii) (s sub : string) :
  Py.contains (String c s) sub
  = Py.startswith (String c s) sub || Py.contains s sub.
Proof.
  unfold Py.contains, Py.find; rewrite find_from_eq.
  destruct (Py.startswith (String c s) sub); [reflexivity|].
  simpl orb; apply find_from_found; lia.
Qed.

Lemma contains_nil (sub : string) :
  Py.contains "" sub = Py.startswith "" sub.
Proof.
  unfold Py.contains, Py.find; rewrite find_from_eq.
  now destruct (Py.startswith "" sub).
Qed.

(** [sub not in s]: no suffix of [s] starts with [sub]. *)
Lemma contains_false_drop (s sub : string) :
  Py.contains s sub = false ->
  forall k, Py.startswith (Py.drop k s) sub = false.
Proof.
  induction s as [|c s IH]; intros H k.
  - rewrite contains_nil in H; now destruct k.
  - rewrite contains_cons in H; apply orb_false_iff in H as [H1 H2].
    destruct k as [|k]; [exact H1 | exact (IH H2 k)].
Qed.

Lemma contains_false_of_drop (s sub : string) :
  (forall k, Py.startswith (Py.drop k s) sub = false) ->
  Py.contains s sub = false.
Proof.
  induction s as [|c s IH]; intros H.
  - rewrite contains_nil; exact (H 0).
  - pose proof (H 0) as H0.
    change (Py.drop 0 (String c s)) with (String c s) in H0.
    rewrite contains_cons, H0, IH; [reflexivity|].
    intros k; exact (H (S k)).
Qed.

Lemma run_length_three (s : string) :
  3 <= Re.run_length "/" s -> Py.startswith s "///" = true.
Proof.
  destruct s as [|a [|b [|c s]]]; simpl;
    repeat match goal with
           | |- context [Ascii.eqb ?x "/"] => destruct (Ascii.eqb x "/")
           end; simpl; intros; try lia; reflexivity.
Qed.

Lemma run_length_one (c : ascii) (s : string) :
  1 <= Re.run_length c s -> Py.char_in c s = true.
Proof.
  destruct s as [|a s]; simpl; [lia|].
  destruct (Ascii.eqb a c) eqn:E; [|lia].
  now rewrite Ascii.eqb_sym, E.
Qed.

Lemma match_scheme_run_none (c : ascii) (n : nat) (s : string) :
  (forall k, Re.run_length c (Py.drop k s) < n) ->
  Re.match_scheme_run c n s = None.
Proof.
  intros H.
  assert (R : forall k, Re.run_at c n k s = None).
  { intros k; unfold Re.run_at; specialize (H k).
    apply Nat.leb_gt in H; now rewrite H. }
  unfold Re.match_scheme_run.
  destruct (Re.scheme_prefix_len s); now rewrite ?R.
Qed.

Lemma search_class_found (cls s : string) (c : ascii) :
  Re.search_class cls s = Some c -> Py.char_in c s = true.
Proof.
  induction s as [|d s IH]; simpl; [discriminate|].
  destruct (Py.char_in d cls).
  - intros E; injection E as <-; now rewrite Ascii.eqb_refl.
  - intros E; now rewrite (IH E), orb_true_r.
Qed.

Lemma char_in_drop_back (c : ascii) (s : string) (k : nat) :
  Py.char_in c (Py.drop k s) = true -> Py.char_in c s = true.
Proof.
  intros H; destruct (Py.char_in c s) eqn:E; [reflexivity|].
  now rewrite (char_in_drop c s k E) in H.
Qed.

(** X3.  A link that needs no cleaning is returned as it is: one of at
    most 300 characters, without control characters or spaces at its
    ends, without backslash, carriage return or line feed, and without
    three slashes in a row. *)
Theorem clean_webpage_links_tidy (link : string) :
  Py.strip link strip_chars = link ->
  Py.contains link "///" = false ->
  Py.char_in backslash link = false ->
  Py.char_in CR link = false -> Py.char_in LF link = false ->
  String.length link <= 300 ->
  clean_webpage_links link = link.
Proof.
  intros Hstrip Hsl Hbs Hcr Hlf Hlen.
  assert (H1 : collapse_run "/" 3 link = link).
  { unfold collapse_run; rewrite match_scheme_run_none; [reflexivity|].
    intros k; destruct (Nat.ltb (Re.run_length "/" (Py.drop k link)) 3) eqn:E;
      [now apply Nat.ltb_lt|].
    apply Nat.ltb_ge, run_length_three in E.
    now rewrite (contains_false_drop _ _ Hsl k) in E. }
  assert (H2 : collapse_run backslash 2 link = link).
  { unfold collapse_run; rewrite match_scheme_run_none; [reflexivity|].
    intros k; destruct (Re.run_length backslash (Py.drop k link)) eqn:E; [lia|].
    assert (Hk : 1 <= Re.run_length backslash (Py.drop k link)) by lia.
    apply run_length_one, char_in_drop_back in Hk; congruence. }
  assert (H3 : fix_host_backslash link = link).
  { unfold fix_host_backslash.
    destruct (is_absolute_url link); [|reflexivity].
    destruct (Re.search_class _ _) as [c|] eqn:E; [|reflexivity].
    destruct (Ascii.eqb c backslash) eqn:Ec; [|reflexivity].
    apply Ascii.eqb_eq in Ec; subst c.
    apply search_class_found, char_in_drop_back in E; congruence. }
  unfold clean_webpage_links, clean_head; rewrite Hstrip, H1, H2, H3.
  unfold clean_tail; apply Nat.ltb_ge in Hlen; rewrite Hlen.
  now rewrite (replace_char_absent _ CR _ Hcr), (replace_char_absent _ LF _ Hlf).
Qed.

Lemma clean_webpage_links_tidy_witness :
  clean_webpage_links "https://www.example.com/a//b?q=1#top"
  = "https://www.example.com/a//b?q=1#top".
Proof.
  apply clean_webpage_links_tidy; try reflexivity.
  apply Nat.leb_le; reflexivity.
Defined.

Lemma rstrip_all (s chars : string) :
  str_forallb (fun c => Py.char_in c chars) s = true -> Py.rstrip s chars = "".
Proof.
  induction s as [|c s IH]; simpl; [reflexivity|].
  intros H; apply andb_true_iff in H as [Hc Hs]; now rewrite (IH Hs), Hc.
Qed.

Lemma rstrip_app_post (x post chars : string) :
  str_forallb (fun c => Py.char_in c chars) post = true ->
  Py.rstrip (x ++ post) chars = Py.rstrip x chars.
Proof.
  intros H; induction x as [|c x IH]; simpl;
    [now apply rstrip_all | now rewrite IH].
Qed.

Lemma lstrip_app_pre (pre x chars : string) :
  str_forallb (fun c => Py.char_in c chars) pre = true ->
  Py.lstrip (pre ++ x) chars = Py.lstrip x chars.
Proof.
  induction pre as [|c pre IH]; simpl; [reflexivity|].
  intros H; apply andb_true_iff in H as [Hc Hs]; now rewrite Hc, IH.
Qed.

Lemma strip_app_post (x post chars : string) :
  str_forallb (fun c => Py.char_in c chars) post = true ->
  Py.strip (x ++ post) chars = Py.strip x chars.
Proof.
  intros H; unfold Py.strip; induction x as [|c x IH]; simpl.
  - pose proof (lstrip_app_pre post "" chars H) as L.
    rewrite str_app_nil_r in L; now rewrite L.
  - destruct (Py.char_in c chars); [exact IH|].
    now apply (rstrip_app_post (String c x)).
Qed.

Lemma strip_padding (pre s post chars : string) :
  str_forallb (fun c => Py.char_in c chars) pre = true ->
  str_forallb (fun c => Py.char_in c chars) post = true ->
  Py.strip (pre ++ s ++ post) chars = Py.strip s chars.
Proof.
  intros Hpre Hpost; unfold Py.strip; rewrite (lstrip_app_pre _ _ _ Hpre).
  exact (strip_app_post s post chars Hpost).
Qed.

(** X4.  Control characters and spaces around a link do not matter: the
    padded link is cleaned to the same string, and, when it is not a
    seed, constructs the same [URL] or fails the same way. *)
Theorem clean_webpage_links_padding {sm : SurtModule} {lib : Libraries}
  (pre link post : string) (b : base) :
  str_forallb (fun c => Py.char_in c strip_chars) pre = true ->
  str_forallb (fun c => Py.char_in c strip_chars) post = true ->
  clean_webpage_links (pre ++ link ++ post) = clean_webpage_links link
  /\ URL_init (pre ++ link ++ post) b false = URL_init link b false.
Proof.
  intros Hpre Hpost.
  assert (H : clean_webpage_links (pre ++ link ++ post)
              = clean_webpage_links link)
    by (unfold clean_webpage_links, clean_head;
        now rewrite (strip_padding _ _ _ _ Hpre Hpost)).
  split; [exact H|].
  unfold URL_init, URL_link; cbn [bind]; now rewrite H.
Qed.

Lemma clean_webpage_links_padding_witness :
  clean_webpage_links ((" " ++ str1 LF) ++ "http://example.com/" ++ str1 CR ++ " ")
  = clean_webpage_links "http://example.com/".
Proof.
  exact (proj1 (@clean_webpage_links_padding reference_surt_module
                  reference_libraries (" " ++ str1 LF) "http://example.com/"
                  (str1 CR ++ " ") NoBase eq_refl eq_refl)).
Defined.

(** ** The link sanitizer: what it returns for runaway links and runs *)

Lemma terminators_spec (c : ascii) : Py.char_in c terminators = is_terminator c.
Proof.
  assert (H : forall c, Bool.eqb (Py.char_in c terminators) (is_terminator c)
                        = true)
    by (apply ascii_forall; vm_compute; reflexivity).
  now apply Bool.eqb_prop.
Qed.

Lemma before_first_terminators (s : string) :
  before_first terminators s = before_terminator s.
Proof.
  induction s as [|c s IH]; [reflexivity|].
  cbn [before_first before_terminator]; now rewrite terminators_spec, IH.
Qed.

Lemma before_terminator_split (s : string) :
  exists rest,
    s = before_terminator s ++ rest
    /\ (rest = "" \/ exists c r, rest = String c r /\ is_terminator c = true).
Proof.
  induction s as [|c s (rest & Hs & Hrest)].
  - exists ""; split; [reflexivity | now left].
  - cbn [before_terminator]; destruct (is_terminator c) eqn:E.
    + exists (String c s); split; [reflexivity | right; eauto].
    + exists rest; split; [cbn [append]; now rewrite <- Hs | assumption].
Qed.

Lemma before_terminator_clean (s : string) :
  str_existsb is_terminator (before_terminator s) = false.
Proof.
  induction s as [|c s IH]; [reflexivity|].
  cbn [before_terminator]; destruct (is_terminator c) eqn:E; [reflexivity|].
  cbn [str_existsb]; now rewrite E, IH.
Qed.

Lemma before_terminator_none (s : string) :
  str_existsb is_terminator s = false -> before_terminator s = s.
Proof.
  induction s as [|c s IH]; [reflexivity|].
  cbn [str_existsb before_terminator]; intros H.
  apply orb_false_iff in H as [Hc Hs]; now rewrite Hc, (IH Hs).
Qed.

Lemma collapse_run_none (c : ascii) (link : string) :
  Py.char_in c link = false -> collapse_run c 2 link = link.
Proof.
  intros Hc; unfold collapse_run; rewrite match_scheme_run_none; [reflexivity|].
  intros k; destruct (Re.run_length c (Py.drop k link)) eqn:E; [lia|].
  assert (Hk : 1 <= Re.run_length c (Py.drop k link)) by lia.
  apply run_length_one, char_in_drop_back in Hk; congruence.
Qed.

Lemma fix_host_backslash_none (link : string) :
  Py.char_in backslash link = false -> fix_host_backslash link = link.
Proof.
  intros Hbs; unfold fix_host_backslash.
  destruct (is_absolute_url link); [|reflexivity].
  destruct (Re.search_class _ _) as [c|] eqn:E; [|reflexivity].
  destruct (Ascii.eqb c backslash) eqn:Ec; [|reflexivity].
  apply Ascii.eqb_eq in Ec; subst c.
  apply search_class_found, char_in_drop_back in E; congruence.
Qed.

(** The steps before the length test leave a trimmed link without three
    slashes in a row and without backslash as it is. *)
Lemma clean_head_tidy (link : string) :
  Py.strip link strip_chars = link ->
  Py.contains link "///" = false ->
  Py.char_in backslash link = false ->
  fix_host_backslash (clean_head link) = link.
Proof.
  intros Hstrip Hsl Hbs.
  assert (H1 : collapse_run "/" 3 link = link).
  { unfold collapse_run; rewrite match_scheme_run_none; [reflexivity|].
    intros k; destruct (Nat.ltb (Re.run_length "/" (Py.drop k link)) 3) eqn:E;
      [now apply Nat.ltb_lt|].
    apply Nat.ltb_ge, run_length_three in E.
    now rewrite (contains_false_drop _ _ Hsl k) in E. }
  unfold clean_head; rewrite Hstrip, H1, (collapse_run_none _ _ Hbs).
  now apply fix_host_backslash_none.
Qed.

(** C8.  When the link, after the earlier steps of the sanitizer, is
    longer than 300 characters, [clean_webpage_links] truncates it at the
    first of the characters [<], [>], the double quote, the single quote,
    CR, LF and the space: it returns the text before that character, which
    has none of the seven and is followed by one of them or by nothing,
    and returns the empty string when that text is still longer than 300
    characters.  So a link without any of the seven characters then
    yields the empty string, as a link of 400 letters does.  The earlier
    steps leave a trimmed link without backslash and without three slashes
    in a row as it is. *)
Theorem clean_webpage_links_runaway (link : string)
  (Hlong : 300 < String.length (fix_host_backslash (clean_head link))) :
  clean_webpage_links link
  = (if Nat.ltb 300
          (String.length
             (before_terminator (fix_host_backslash (clean_head link))))
     then ""
     else before_terminator (fix_host_backslash (clean_head link)))
  /\ (exists rest,
        fix_host_backslash (clean_head link)
        = before_terminator (fix_host_backslash (clean_head link)) ++ rest
        /\ (rest = ""
            \/ exists c r, rest = String c r /\ is_terminator c = true))
  /\ str_existsb is_terminator
       (before_terminator (fix_host_backslash (clean_head link))) = false
  /\ (str_existsb is_terminator (fix_host_backslash (clean_head link)) = false ->
      clean_webpage_links link = "")
  /\ (Py.strip link strip_chars = link ->
      Py.contains link "///" = false ->
      Py.char_in backslash link = false ->
      fix_host_backslash (clean_head link) = link)
  /\ String.length (str_repeat "a" 400) = 400
  /\ clean_webpage_links (str_repeat "a" 400) = "".
Proof.
  assert (H : clean_webpage_links link
              = (if Nat.ltb 300
                      (String.length
                         (before_terminator
                            (fix_host_backslash (clean_head link))))
                 then ""
                 else before_terminator (fix_host_backslash (clean_head link))))
    by (unfold clean_webpage_links;
        now rewrite (clean_tail_long _ Hlong), before_first_terminators).
  split; [exact H|].
  split; [apply before_terminator_split|].
  split; [apply before_terminator_clean|].
  split; [|split; [apply clean_head_tidy | split; vm_compute; reflexivity]].
  intros Hnone; rewrite H, (before_terminator_none _ Hnone).
  apply Nat.ltb_lt in Hlong; now rewrite Hlong.
Qed.

Lemma clean_webpage_links_runaway_witness :
  300 < String.length
          (fix_host_backslash
             (clean_head (str_repeat "a" 100 ++ " " ++ str_repeat "b" 250)))
  /\ clean_webpage_links (str_repeat "a" 100 ++ " " ++ str_repeat "b" 250)
     = str_repeat "a" 100.
Proof.
  assert (H : 300 < String.length
                      (fix_host_backslash
                         (clean_head
                            (str_repeat "a" 100 ++ " " ++ str_repeat "b" 250))))
    by (apply Nat.ltb_lt; vm_compute; reflexivity).
  split; [exact H|].
  rewrite (proj1 (clean_webpage_links_runaway _ H)); vm_compute; reflexivity.
Defined.

(** Each of the seven characters cuts a link of 401 characters after its
    first 200, and no other character does: the link is then given up. *)
Example clean_webpage_links_cut_at_each (c : ascii) :
  clean_webpage_links (str_repeat "a" 200 ++ String c (str_repeat "b" 200))
  = if is_terminator c then str_repeat "a" 200 else "".
Proof.
  assert (H : forall c,
             String.eqb
               (clean_webpage_links
                  (str_repeat "a" 200 ++ String c (str_repeat "b" 200)))
               (if is_terminator c then str_repeat "a" 200 else "") = true)
    by (apply ascii_forall; vm_compute; reflexivity).
  now apply String.eqb_eq.
Qed.

(** A truncated link of more than 300 characters is given up. *)
Example clean_webpage_links_cut_too_late :
  clean_webpage_links (str_repeat "a" 310 ++ " " ++ str_repeat "b" 90) = "".
Proof. vm_compute; reflexivity. Qed.

Lemma replace_char_app (s t : string) (c : ascii) (new : string) :
  Py.replace_char (s ++ t) c new
  = Py.replace_char s c new ++ Py.replace_char t c new.
Proof.
  induction s as [|d s IH]; [reflexivity|].
  cbn [append Py.replace_char]; rewrite IH.
  destruct (Ascii.eqb d c); [now rewrite str_app_assoc | reflexivity].
Qed.

(** Lines 135-136 remove the carriage returns and the line feeds. *)
Lemma replace_crlf (s : string) :
  Py.replace_char (Py.replace_char s CR "") LF "" = without_crlf s.
Proof.
  induction s as [|c s IH]; [reflexivity|].
  cbn [Py.replace_char without_crlf].
  assert (Hc : Ascii.eqb c CR = Nat.eqb (nat_of_ascii c) 13
               /\ Ascii.eqb c LF = Nat.eqb (nat_of_ascii c) 10).
  { assert (H : forall c,
               Bool.eqb (Ascii.eqb c CR) (Nat.eqb (nat_of_ascii c) 13)
               && Bool.eqb (Ascii.eqb c LF) (Nat.eqb (nat_of_ascii c) 10)
               = true)
      by (apply ascii_forall; vm_compute; reflexivity).
    specialize (H c); apply andb_true_iff in H as [H1 H2].
    split; now apply Bool.eqb_prop. }
  destruct Hc as [<- <-].
  destruct (Ascii.eqb c CR) eqn:E1; cbn [append orb]; [exact IH|].
  cbn [Py.replace_char]; destruct (Ascii.eqb c LF); cbn [append];
    now rewrite IH.
Qed.

Lemma scheme_prefix_no_char (p : string) (c : ascii) :
  is_scheme_prefix p = true -> Py.lower_char c = c ->
  Py.char_in c "https:" = false -> Py.char_in c p = false.
Proof.
  intros Hp Hl Hc; destruct (Py.char_in c p) eqn:E; [|reflexivity].
  apply (char_in_lower _ _ Hl) in E.
  destruct (scheme_prefix_cases p Hp) as [->|[H|H]];
    [discriminate | rewrite H in E | rewrite H in E].
  - cbn [Py.char_in] in Hc, E.
    repeat (apply orb_false_iff in Hc as [? Hc]).
    repeat match goal with H : Ascii.eqb _ _ = false |- _ =>
             rewrite H in E; clear H end.
    discriminate E.
  - congruence.
Qed.

Lemma without_crlf_app (s t : string) :
  without_crlf (s ++ t) = without_crlf s ++ without_crlf t.
Proof.
  induction s as [|c s IH]; [reflexivity|].
  cbn [append without_crlf]; rewrite IH; now destruct (_ || _).
Qed.

Lemma without_crlf_prefix (p : string) :
  is_scheme_prefix p = true -> without_crlf (p ++ "//") = p ++ "//".
Proof.
  intros Hp.
  assert (Hcr : Py.char_in CR p = false)
    by (apply scheme_prefix_no_char; auto).
  assert (Hlf : Py.char_in LF p = false)
    by (apply scheme_prefix_no_char; auto).
  rewrite <- replace_crlf, replace_char_app, (replace_char_absent p CR _ Hcr).
  rewrite replace_char_app, (replace_char_absent p LF _ Hlf); reflexivity.
Qed.

(** What the sanitizer returns for a collapsed link without backslash
    and of at most 300 characters. *)
Lemma clean_collapsed (p rest : string) :
  is_scheme_prefix p = true ->
  Py.char_in backslash rest = false ->
  String.length (p ++ "//" ++ rest) <= 300 ->
  clean_tail (fix_host_backslash (p ++ "//" ++ rest))
  = p ++ "//" ++ without_crlf rest.
Proof.
  intros Hp Hbs Hlen.
  assert (Hb : run_char backslash) by now right.
  rewrite fix_host_backslash_none
    by (rewrite !char_in_app, (scheme_prefix_no_run_char p _ Hp Hb), Hbs;
        reflexivity).
  unfold clean_tail; apply Nat.ltb_ge in Hlen; rewrite Hlen, replace_crlf.
  rewrite <- (str_app_assoc p "//" rest), without_crlf_app.
  now rewrite (without_crlf_prefix p Hp), str_app_assoc.
Qed.

(** C9, as amended.  When the trimmed link is an optional scheme prefix
    ([http:] or [https:] in any case), a run of three or more slashes and
    a rest that does not start with a slash, the link after the steps of
    lines 94-102 is the prefix, two slashes and the rest; when moreover
    the rest has no backslash and this collapsed link has at most 300
    characters, [clean_webpage_links] returns the prefix, two slashes and
    the rest without its carriage returns and line feeds.  Likewise for a
    run of two or more backslashes and a rest that does not start with a
    backslash.  [clean_webpage_links("http:///example.com")] is
    ["http://example.com"]. *)
Theorem clean_webpage_links_collapses (link p rest : string) (n : nat)
  (Hp : is_scheme_prefix p = true) :
  (3 <= n -> Py.startswith rest "/" = false ->
   Py.strip link strip_chars = p ++ str_repeat "/" n ++ rest ->
   clean_head link = p ++ "//" ++ rest
   /\ (Py.char_in backslash rest = false ->
       String.length (p ++ "//" ++ rest) <= 300 ->
       clean_webpage_links link = p ++ "//" ++ without_crlf rest))
  /\ (2 <= n -> Py.startswith rest (str1 backslash) = false ->
      Py.strip link strip_chars = p ++ str_repeat backslash n ++ rest ->
      clean_head link = p ++ "//" ++ rest
      /\ (Py.char_in backslash rest = false ->
          String.length (p ++ "//" ++ rest) <= 300 ->
          clean_webpage_links link = p ++ "//" ++ without_crlf rest))
  /\ clean_webpage_links "http:///example.com" = "http://example.com".
Proof.
  assert (Hs : run_char "/") by now left.
  assert (Hb : run_char backslash) by now right.
  split; [|split; [|reflexivity]].
  - intros Hn Hrest Hlink.
    assert (H1 : collapse_run "/" 3 (Py.strip link strip_chars)
                 = p ++ "//" ++ rest)
      by (rewrite Hlink; apply collapse_run_hit; auto; lia).
    assert (H2 : clean_head link = p ++ "//" ++ rest).
    { unfold clean_head; rewrite H1.
      apply (collapse_run_miss backslash "/" 2 p); auto;
        try discriminate; lia. }
    split; [exact H2|].
    intros Hbs Hlen; unfold clean_webpage_links; rewrite H2.
    now apply clean_collapsed.
  - intros Hn Hrest Hlink.
    assert (H2 : clean_head link = p ++ "//" ++ rest).
    { unfold clean_head; rewrite Hlink; destruct n as [|n]; [lia|].
      change (str_repeat backslash (S n) ++ rest)
        with (String backslash (str_repeat backslash n ++ rest)).
      rewrite (collapse_run_miss "/" backslash 3 p); auto;
        try discriminate; try lia.
      apply (collapse_run_hit backslash 2 (S n) p rest); auto; lia. }
    split; [exact H2|].
    intros Hbs Hlen; unfold clean_webpage_links; rewrite H2.
    now apply clean_collapsed.
Qed.

Lemma clean_webpage_links_collapses_witness :
  is_scheme_prefix "HTTPS:" = true
  /\ clean_webpage_links "  HTTPS://///example.com/x " = "HTTPS://example.com/x".
Proof.
  split; [reflexivity|].
  refine (proj2 (proj1
    (clean_webpage_links_collapses "  HTTPS://///example.com/x " "HTTPS:"
       "example.com/x" 5 eq_refl) _ eq_refl eq_refl) eq_refl _);
    [lia | apply Nat.leb_le; reflexivity].
Defined.

(** C9 as stated fails on the returned value.  A backslash right after
    the run becomes a slash (lines 105-110), so that three slashes are
    returned where the run was collapsed to two; and a collapsed link of
    more than 300 characters without terminator is given up. *)
Lemma clean_webpage_links_run_restored :
  Py.strip ("///" ++ str1 backslash ++ "foo") strip_chars
  = "" ++ str_repeat "/" 3 ++ (str1 backslash ++ "foo")
  /\ clean_head ("///" ++ str1 backslash ++ "foo")
     = "//" ++ str1 backslash ++ "foo"
  /\ clean_webpage_links ("///" ++ str1 backslash ++ "foo") = "///foo"
  /\ clean_webpage_links ("///" ++ str1 backslash ++ "foo")
     <> "//" ++ str1 backslash ++ "foo"
  /\ Py.strip ("///" ++ str_repeat "a" 400) strip_chars
     = "" ++ str_repeat "/" 3 ++ str_repeat "a" 400
  /\ clean_webpage_links ("///" ++ str_repeat "a" 400) = ""
  /\ clean_webpage_links ("///" ++ str_repeat "a" 400)
     <> "//" ++ str_repeat "a" 400.
Proof.
  repeat split; try (vm_compute; reflexivity); vm_compute; discriminate.
Qed.

(** The backslash form: [http:] and two backslashes. *)
Example clean_webpage_links_backslash_run :
  clean_webpage_links ("http:" ++ str_repeat backslash 2 ++ "example.com/a")
  = "http://example.com/a".
Proof. vm_compute; reflexivity. Qed.

(** ** The seed normalizer *)

Lemma split_scheme_http (x : string) :
  split_scheme ("http:" ++ x) = ("http", x).
Proof. reflexivity. Qed.

Lemma urlsplit_http_scheme (x : string) (p : SplitResult) :
  urlsplit ("http:" ++ x) = Ok p -> scheme p = "http".
Proof.
  unfold urlsplit; rewrite split_scheme_http.
  destruct (String.eqb (Py.take 2 x) "//").
  - destruct (_splitnetloc x 2) as [nl rest].
    destruct (_ || _); simpl; [discriminate|].
    destruct (if Py.contains rest "#" then _ else _) as [u f].
    destruct (if Py.contains u "?" then _ else _) as [u' q].
    intros E; injection E as <-; reflexivity.
  - simpl.
    destruct (if Py.contains x "#" then _ else _) as [u f].
    destruct (if Py.contains u "?" then _ else _) as [u' q].
    intros E; injection E as <-; reflexivity.
Qed.

(** X5.  A seed is given a scheme once.  When [special_seed_handling]
    returns, the seed splits, and either it had a scheme and is returned
    as it is, or it had none and [http:] is put before a seed that starts
    with two slashes and [http://] before any other, which makes it
    absolute for [is_absolute_url]; whenever the result splits, it has a
    scheme and handling it again changes nothing. *)
Theorem special_seed_handling_scheme (url r : string) :
  special_seed_handling url = Ok r ->
  exists parts,
    urlsplit url = Ok parts
    /\ (scheme parts <> "" -> r = url)
    /\ (scheme parts = "" ->
        r = (if Py.startswith url "//" then "http:" else "http://") ++ url
        /\ Py.startswith r "http://" = true
        /\ is_absolute_url r = true)
    /\ (forall p, urlsplit r = Ok p ->
          scheme p <> "" /\ special_seed_handling r = Ok r).
Proof.
  unfold special_seed_handling at 1.
  destruct (urlsplit url) as [parts|e] eqn:Hu; cbn [bind]; [|discriminate].
  destruct (String.eqb (scheme parts) "") eqn:Es;
    intros Hr; exists parts; (split; [reflexivity|]).
  - apply String.eqb_eq in Es.
    assert (Hshape : r = (if Py.startswith url "//" then "http:" else "http://")
                         ++ url)
      by (revert Hr; destruct (Py.startswith url "//"); intros Hr;
          now injection Hr as <-).
    assert (Hhttp : exists x, r = "http:" ++ x /\ Py.startswith x "//" = true).
    { destruct (Py.startswith url "//") eqn:E; subst r.
      - now exists url.
      - exists ("//" ++ url); split; [reflexivity|].
        apply (startswith_app "//" url). }
    destruct Hhttp as (x & Hx & Hxx).
    split; [congruence|]; split.
    + intros _; split; [exact Hshape|].
      rewrite Hx; clear - Hxx.
      destruct x as [|a [|b x]]; simpl in Hxx;
        rewrite ?andb_false_r in Hxx; try discriminate.
      destruct (Ascii.eqb_spec a "/"), (Ascii.eqb_spec b "/");
        try discriminate; subst a b; split; reflexivity.
    + intros p Hp; rewrite Hx in Hp.
      pose proof (urlsplit_http_scheme _ _ Hp) as Hs.
      split; [rewrite Hs; discriminate|].
      unfold special_seed_handling; rewrite Hx, Hp; simpl; now rewrite Hs.
  - injection Hr as <-; apply String.eqb_neq in Es.
    split; [reflexivity|]; split; [contradiction|].
    intros p Hp; rewrite Hu in Hp; injection Hp as <-.
    split; [assumption|].
    unfold special_seed_handling; rewrite Hu; simpl.
    apply String.eqb_neq in Es; now rewrite Es.
Qed.

Lemma special_seed_handling_scheme_witness :
  special_seed_handling "example.com/a" = Ok "http://example.com/a"
  /\ special_seed_handling "http://example.com/a" = Ok "http://example.com/a".
Proof.
  split; [reflexivity|].
  destruct (special_seed_handling_scheme "example.com/a" "http://example.com/a"
              eq_refl) as (parts & _ & _ & _ & H).
  exact (proj2 (H (mkSplitResult "http" "example.com" "/a" "" "") eq_refl)).
Defined.

Lemma special_seed_handling_raises (url : string) (e : exn) :
  special_seed_handling url = Raise e <-> urlsplit url = Raise e.
Proof.
  unfold special_seed_handling.
  destruct (urlsplit url) as [parts|e']; cbn [bind].
  - destruct (String.eqb (scheme parts) ""); [destruct (Py.startswith url "//")|];
      split; intros H; discriminate H.
  - split; intros H; injection H as ->; reflexivity.
Qed.

(** ** More on the path normalizer *)

Lemma remove_dot_segments_slash (rest : string) :
  remove_dot_segments (String "/" rest)
  = Ok ("/" ++ Py.join "/"
                 (fold_left resolve_segment
                    (keep_segments (Py.split rest "/")) [])).
Proof.
  unfold remove_dot_segments.
  change (Py.split (String "/" rest) "/") with ("" :: Py.split rest "/").
  simpl negb; cbv iota.
  pose proof (split_nonempty rest "/") as Hne.
  now rewrite (segments_after_filter _ Hne), (keep_segments_filter _ Hne).
Qed.

Lemma remove_dot_segments_ok (path out : string) :
  remove_dot_segments path = Ok out -> exists rest, path = String "/" rest.
Proof.
  destruct path as [|c rest]; simpl; [discriminate|].
  destruct (Ascii.eqb_spec c "/"); simpl; [|discriminate].
  intros _; subst c; now exists rest.
Qed.

Lemma split_clean (s : string) (sep : ascii) :
  Forall (fun p => Py.char_in sep p = false) (Py.split s sep).
Proof.
  induction s as [|c s IH]; simpl; [now repeat constructor|].
  destruct (Ascii.eqb c sep) eqn:E; [now constructor|].
  pose proof (split_nonempty s sep) as Hne.
  destruct (Py.split s sep) as [|p ps]; [contradiction|].
  inversion IH as [|? ? Hp Hps]; subst; constructor; [|assumption].
  simpl; now rewrite Ascii.eqb_sym, E, Hp.
Qed.

Lemma Forall_removelast (P : string -> Prop) (l : list string) :
  Forall P l -> Forall P (removelast l).
Proof.
  induction l as [|a l IH]; intros H; [constructor|].
  inversion H; subst; destruct l; [constructor|].
  change (removelast (a :: s :: l)) with (a :: removelast (s :: l)).
  constructor; auto.
Qed.

Lemma resolve_segment_good (st : list string) (s : string) :
  Forall good st -> Py.char_in "/" s = false -> nonempty s = true ->
  Forall good (resolve_segment st s).
Proof.
  intros Hst Hs Hn; unfold resolve_segment.
  destruct (String.eqb s "..") eqn:E2.
  - destruct st; [constructor | now apply Forall_removelast].
  - destruct (String.eqb s ".") eqn:E1; [assumption|].
    apply Forall_app; split; [assumption|].
    constructor; [|constructor].
    split; [|assumption]; unfold seg_ok; now rewrite Hs, E1, E2.
Qed.

Lemma resolve_fold_good (l st : list string) :
  Forall good st ->
  Forall (fun s => Py.char_in "/" s = false /\ nonempty s = true) l ->
  Forall good (fold_left resolve_segment l st).
Proof.
  revert st; induction l as [|s l IH]; intros st Hst Hl; [assumption|].
  inversion Hl as [|? ? [Hs Hn] Hl']; subst; simpl.
  apply IH; [now apply resolve_segment_good | assumption].
Qed.

Lemma tidy_good (l : list string) : Forall good l -> tidy l = true.
Proof.
  induction l as [|s l IH]; intros H; [reflexivity|].
  inversion H as [|? ? [Hs Hn] Hl]; subst.
  destruct l as [|s' l]; [exact Hs|].
  change (tidy (s :: s' :: l)) with (seg_ok s && nonempty s && tidy (s' :: l)).
  now rewrite Hs, Hn, IH.
Qed.

Lemma tidy_snoc (l : list string) (z : string) :
  Forall good l -> seg_ok z = true -> tidy (l ++ [z]) = true.
Proof.
  induction l as [|s l IH]; intros H Hz; [exact Hz|].
  inversion H as [|? ? [Hs Hn] Hl]; subst.
  specialize (IH Hl Hz).
  destruct (l ++ [z])%list as [|s' l'] eqn:E; [now destruct l|].
  change ((s :: l) ++ [z])%list with (s :: (l ++ [z]))%list; rewrite E.
  change (tidy (s :: s' :: l')) with (seg_ok s && nonempty s && tidy (s' :: l')).
  now rewrite Hs, Hn, IH.
Qed.

Lemma last_In (l : list string) (d : string) : l <> [] -> In (last l d) l.
Proof.
  induction l as [|a l IH]; [contradiction|]; intros _.
  destruct l as [|b l]; [now left|].
  right; apply IH; discriminate.
Qed.

(** What the loop of lines 167-177 leaves is tidy. *)
Lemma resolved_tidy (l : list string) :
  l <> [] -> Forall (fun p => Py.char_in "/" p = false) l ->
  tidy (fold_left resolve_segment (keep_segments l) []) = true.
Proof.
  intros Hne Hl; rewrite (keep_segments_filter _ Hne), fold_left_app.
  assert (HA : Forall good
                 (fold_left resolve_segment
                    (filter nonempty (removelast l)) [])).
  { apply resolve_fold_good; [constructor|].
    apply Forall_forall; intros s Hs; apply filter_In in Hs as [Hs Hn].
    split; [|assumption].
    apply Forall_removelast in Hl; rewrite Forall_forall in Hl; now apply Hl. }
  assert (Hz : Py.char_in "/" (last l "") = false).
  { rewrite Forall_forall in Hl; now apply Hl, last_In. }
  set (R := fold_left resolve_segment _ []) in *.
  simpl; unfold resolve_segment.
  destruct (String.eqb (last l "") "..") eqn:E2.
  - destruct R; [reflexivity|]; now apply tidy_good, Forall_removelast.
  - destruct (String.eqb (last l "") ".") eqn:E1; [now apply tidy_good|].
    apply tidy_snoc; [assumption|].
    unfold seg_ok; now rewrite Hz, E1, E2.
Qed.

Lemma join_cons2 (sep x y : string) (l : list string) :
  Py.join sep (x :: y :: l) = x ++ sep ++ Py.join sep (y :: l).
Proof. reflexivity. Qed.

Lemma tidy_cons2 (s s' : string) (l : list string) :
  tidy (s :: s' :: l) = seg_ok s && nonempty s && tidy (s' :: l).
Proof. reflexivity. Qed.

Lemma seg_ok_clean (s : string) : seg_ok s = true -> Py.char_in "/" s = false.
Proof.
  unfold seg_ok; intros H.
  apply andb_true_iff in H as [H _]; apply andb_true_iff in H as [H _].
  now apply negb_true_iff in H.
Qed.

Lemma seg_ok_not_dot (s : string) : seg_ok s = true -> s <> "." /\ s <> "..".
Proof.
  unfold seg_ok; intros H.
  apply andb_true_iff in H as [H H2]; apply andb_true_iff in H as [_ H1].
  apply negb_true_iff in H1, H2; split; now apply String.eqb_neq.
Qed.

Lemma tidy_all_ok (l : list string) :
  tidy l = true -> Forall (fun s => seg_ok s = true) l.
Proof.
  induction l as [|s l IH]; [constructor|].
  destruct l as [|s' l]; [intros H; now repeat constructor|].
  rewrite tidy_cons2; intros H.
  apply andb_true_iff in H as [H Ht]; apply andb_true_iff in H as [Hs _].
  constructor; [assumption | now apply IH].
Qed.

(** [split] undoes [join] on segments without the separator. *)
Lemma split_join (l : list string) (sep : ascii) :
  l <> [] -> Forall (fun p => Py.char_in sep p = false) l ->
  Py.split (Py.join (String sep "") l) sep = l.
Proof.
  induction l as [|x l IH]; [contradiction|]; intros _ H.
  inversion H as [|? ? Hx Hl]; subst.
  destruct l as [|y l]; [now apply split_no_sep|].
  rewrite join_cons2.
  change (x ++ String sep "" ++ Py.join (String sep "") (y :: l))
    with (x ++ String sep (Py.join (String sep "") (y :: l))).
  rewrite split_app_sep, (split_no_sep _ _ Hx), IH; [reflexivity | discriminate
                                                   | assumption].
Qed.

(** [join] undoes [split]. *)
Lemma join_split (s : string) (sep : ascii) :
  Py.join (String sep "") (Py.split s sep) = s.
Proof.
  induction s as [|c s IH]; [reflexivity|]; cbn [Py.split].
  pose proof (split_nonempty s sep) as Hne.
  destruct (Py.split s sep) as [|p ps]; [contradiction|].
  destruct (Ascii.eqb c sep) eqn:E.
  - apply Ascii.eqb_eq in E; subst c.
    rewrite join_cons2, IH; reflexivity.
  - destruct ps as [|q ps].
    + change (Py.join (String sep "") [p]) with p in IH.
      change (Py.join (String sep "") [String c p]) with (String c p).
      now rewrite IH.
    + rewrite join_cons2 in IH; rewrite join_cons2.
      change (String c p ++ String sep "" ++ Py.join (String sep "") (q :: ps))
        with (String c (p ++ String sep "" ++ Py.join (String sep "") (q :: ps))).
      now rewrite IH.
Qed.

Lemma keep_segments_tidy (l : list string) :
  tidy l = true -> keep_segments l = l.
Proof.
  induction l as [|s l IH]; [reflexivity|].
  destruct l as [|s' l]; [reflexivity|].
  rewrite tidy_cons2; intros H.
  apply andb_true_iff in H as [H Ht]; apply andb_true_iff in H as [_ Hn].
  change (keep_segments (s :: s' :: l))
    with (if nonempty s then s :: keep_segments (s' :: l)
          else keep_segments (s' :: l)).
  now rewrite Hn, IH.
Qed.

Lemma resolve_fold_no_dots (l st : list string) :
  Forall (fun s => seg_ok s = true) l ->
  fold_left resolve_segment l st = (st ++ l)%list.
Proof.
  revert st; induction l as [|s l IH]; intros st H;
    [now rewrite app_nil_r|].
  inversion H as [|? ? Hs Hl]; subst; simpl.
  destruct (seg_ok_not_dot s Hs) as [H1 H2].
  apply String.eqb_neq in H1, H2.
  unfold resolve_segment at 2; rewrite H1, H2, (IH _ Hl), <- app_assoc.
  reflexivity.
Qed.

Lemma startswith_char_absent (s : string) (c : ascii) :
  Py.char_in c s = false -> Py.startswith s (String c "") = false.
Proof.
  destruct s as [|d s]; [reflexivity|]; cbn [Py.char_in Py.startswith].
  rewrite Ascii.eqb_sym; intros H; apply orb_false_iff in H as [H _].
  now rewrite H.
Qed.

Lemma contains_dslash_clean (s : string) :
  Py.char_in "/" s = false -> Py.contains s "//" = false.
Proof.
  induction s as [|c s IH]; [reflexivity|]; cbn [Py.char_in append].
  intros H; apply orb_false_iff in H as [Hc Hs].
  rewrite contains_cons, (IH Hs); cbn [Py.startswith].
  rewrite Ascii.eqb_sym in Hc; now rewrite Hc.
Qed.

Lemma contains_dslash_app (s t : string) :
  Py.char_in "/" s = false ->
  Py.contains (s ++ t) "//" = Py.contains t "//".
Proof.
  induction s as [|c s IH]; [reflexivity|]; cbn [Py.char_in append].
  intros H; apply orb_false_iff in H as [Hc Hs].
  rewrite contains_cons, (IH Hs); cbn [Py.startswith].
  rewrite Ascii.eqb_sym in Hc; now rewrite Hc.
Qed.

Lemma contains_dslash_cons (u : string) :
  Py.contains (String "/" u) "//"
  = Py.startswith u "/" || Py.contains u "//".
Proof. rewrite contains_cons; reflexivity. Qed.

Lemma tidy_no_dslash (l : list string) :
  tidy l = true -> Py.contains (String "/" (Py.join "/" l)) "//" = false.
Proof.
  induction l as [|s l IH]; [reflexivity|].
  destruct l as [|s' l].
  - intros H; apply seg_ok_clean in H; simpl Py.join.
    now rewrite contains_dslash_cons, (startswith_char_absent _ _ H),
      (contains_dslash_clean _ H).
  - rewrite tidy_cons2; intros H.
    apply andb_true_iff in H as [H Ht]; apply andb_true_iff in H as [Hs Hn].
    apply seg_ok_clean in Hs; rewrite join_cons2, contains_dslash_cons.
    change (s ++ "/" ++ Py.join "/" (s' :: l))
      with (s ++ String "/" (Py.join "/" (s' :: l))).
    rewrite (contains_dslash_app _ _ Hs), (IH Ht), orb_false_r.
    destruct s as [|c s]; [discriminate|].
    cbn [Py.char_in] in Hs; apply orb_false_iff in Hs as [Hc _].
    cbn [append Py.startswith].
    rewrite Ascii.eqb_sym in Hc; now rewrite Hc.
Qed.

Lemma remove_dot_segments_tidy (path out : string) :
  remove_dot_segments path = Ok out ->
  exists res, tidy res = true /\ out = String "/" (Py.join "/" res).
Proof.
  intros H; destruct (remove_dot_segments_ok _ _ H) as [rest ->].
  rewrite remove_dot_segments_slash in H; injection H as <-.
  eexists; split; [|reflexivity].
  apply resolved_tidy; [apply split_nonempty | apply split_clean].
Qed.

(** X6.  The result of [remove_dot_segments] never has two slashes in a
    row: empty segments are gone, as the comment of line 164 wants. *)
Theorem remove_dot_segments_no_double_slash (path out : string) :
  remove_dot_segments path = Ok out -> Py.contains out "//" = false.
Proof.
  intros H; destruct (remove_dot_segments_tidy _ _ H) as (res & Ht & ->).
  now apply tidy_no_dslash.
Qed.

Lemma remove_dot_segments_no_double_slash_witness :
  Py.contains "/a/c/" "//" = false.
Proof.
  apply (remove_dot_segments_no_double_slash "//a///b/..//c//"); reflexivity.
Defined.

(** X7.  No segment of the result of [remove_dot_segments] is [.] or
    [..]. *)
Theorem remove_dot_segments_no_dots (path out : string) :
  remove_dot_segments path = Ok out ->
  forall seg, In seg (Py.split out "/") -> seg <> "." /\ seg <> "..".
Proof.
  intros H; destruct (remove_dot_segments_tidy _ _ H) as (res & Ht & ->).
  change (Py.split (String "/" (Py.join "/" res)) "/")
    with ("" :: Py.split (Py.join "/" res) "/").
  intros seg [<-|Hin]; [split; discriminate|].
  destruct res as [|s res].
  - destruct Hin as [<-|[]]; split; discriminate.
  - pose proof (tidy_all_ok _ Ht) as Hok.
    rewrite (split_join (s :: res) "/") in Hin;
      [|discriminate
       |eapply Forall_impl; [|exact Hok]; intros a; apply seg_ok_clean].
    rewrite Forall_forall in Hok; now apply seg_ok_not_dot, Hok.
Qed.

Lemma remove_dot_segments_no_dots_witness :
  remove_dot_segments "/./a/../../b/./" = Ok "/b/"
  /\ Forall (fun seg => seg <> "." /\ seg <> "..") (Py.split "/b/" "/").
Proof.
  split; [reflexivity|].
  apply Forall_forall.
  apply (remove_dot_segments_no_dots "/./a/../../b/./"); reflexivity.
Defined.

(** X8.  [remove_dot_segments] is idempotent: its result is a path that
    it returns unchanged. *)
Theorem remove_dot_segments_idempotent (path out : string) :
  remove_dot_segments path = Ok out -> remove_dot_segments out = Ok out.
Proof.
  intros H; destruct (remove_dot_segments_tidy _ _ H) as (res & Ht & ->).
  rewrite remove_dot_segments_slash; do 2 f_equal.
  destruct res as [|s res]; [reflexivity|].
  pose proof (tidy_all_ok _ Ht) as Hok.
  rewrite (split_join (s :: res) "/");
    [|discriminate
     |eapply Forall_impl; [|exact Hok]; intros a; apply seg_ok_clean].
  now rewrite (keep_segments_tidy _ Ht), (resolve_fold_no_dots _ [] Hok).
Qed.

Lemma remove_dot_segments_idempotent_witness :
  remove_dot_segments "/a/c/" = Ok "/a/c/".
Proof.
  apply (remove_dot_segments_idempotent "//a///b/..//c//"); reflexivity.
Defined.

(** ** More on the percent-decode engine *)

Lemma str_count_app (s t : string) (c : ascii) :
  str_count (s ++ t) c = str_count s c + str_count t c.
Proof. induction s as [|d s IH]; simpl; [reflexivity | rewrite IH; lia]. Qed.

Lemma join_cons_length (x : string) (l : list string) :
  String.length (Py.join "%" (x :: l)) = String.length x + pieces_length l.
Proof.
  revert x; induction l as [|y l IH]; intros x;
    [simpl; lia|].
  rewrite join_cons2, !str_length_app, IH; simpl; lia.
Qed.

Lemma join_cons_count (x : string) (l : list string) (c : ascii) :
  c <> "%"%char ->
  str_count (Py.join "%" (x :: l)) c = str_count x c + pieces_count c l.
Proof.
  intros Hc; apply Ascii.eqb_neq in Hc; rewrite Ascii.eqb_sym in Hc.
  revert x; induction l as [|y l IH]; intros x; [simpl; lia|].
  rewrite join_cons2, !str_count_app, IH.
  change (pieces_count c (y :: l)) with (str_count y c + pieces_count c l).
  cbn [str_count]; rewrite Hc; lia.
Qed.

Lemma unquote_fold_raise (safe : list string) (pieces : list string) (e : exn) :
  fold_left (fun acc p => text <- acc ;; unquote_piece safe text p) pieces
    (Raise e) = Raise e.
Proof. induction pieces as [|p pieces IH]; simpl; [reflexivity | exact IH]. Qed.

(** An invariant of the loop of [unquote], piece by piece. *)
Lemma unquote_fold_inv (safe : list string) (I : string -> nat)
  (W : string -> nat) :
  (forall t p t', unquote_piece safe t p = Ok t' -> I t' <= I t + W p) ->
  forall pieces t out,
    fold_left (fun acc p => text <- acc ;; unquote_piece safe text p) pieces
      (Ok t) = Ok out ->
    I out <= I t + fold_right (fun p n => W p + n) 0 pieces.
Proof.
  intros Hstep; induction pieces as [|p pieces IH]; intros t out H; simpl in *.
  - injection H as <-; lia.
  - destruct (unquote_piece safe t p) as [t'|e] eqn:E.
    + specialize (Hstep _ _ _ E); specialize (IH _ _ H); lia.
    + rewrite unquote_fold_raise in H; discriminate.
Qed.

Lemma unquote_fold_inv_eq (safe : list string) (I W : string -> nat) :
  (forall t p t', unquote_piece safe t p = Ok t' -> I t' = I t + W p) ->
  forall pieces t out,
    fold_left (fun acc p => text <- acc ;; unquote_piece safe text p) pieces
      (Ok t) = Ok out ->
    I out = I t + fold_right (fun p n => W p + n) 0 pieces.
Proof.
  intros Hstep; induction pieces as [|p pieces IH]; intros t out H; simpl in *.
  - injection H as <-; lia.
  - destruct (unquote_piece safe t p) as [t'|e] eqn:E.
    + specialize (Hstep _ _ _ E); specialize (IH _ _ H); lia.
    + rewrite unquote_fold_raise in H; discriminate.
Qed.

Lemma upper_length (s : string) : String.length (Py.upper s) = String.length s.
Proof. induction s as [|c s IH]; simpl; [reflexivity | now rewrite IH]. Qed.

Lemma unquote_piece_length (safe : list string) (t p t' : string) :
  unquote_piece safe t p = Ok t' ->
  String.length t' <= String.length t + S (String.length p).
Proof.
  unfold unquote_piece.
  destruct (Py.endswith t "%").
  - intros E; injection E as <-; rewrite !str_length_app; simpl; lia.
  - pose proof (take_drop 2 p) as Hp.
    apply (f_equal String.length) in Hp; rewrite str_length_app in Hp.
    set (q := if Py.str_in (Py.take 2 p) valid_hex then _ else _).
    assert (Hq : String.length q = String.length (Py.take 2 p))
      by (unfold q; destruct (Py.str_in _ valid_hex);
          [apply upper_length | reflexivity]).
    set (r := Py.drop 2 p) in *; set (k := Py.take 2 p) in *.
    clearbody q r k.
    destruct (Py.str_in q safe).
    + destruct (Py.chr_int16 q) as [ch|e]; cbn [bind]; [|discriminate].
      intros E; injection E as <-; rewrite str_length_app.
      cbn [String.length]; lia.
    + intros E; injection E as <-; rewrite !str_length_app.
      cbn [String.length append]; rewrite ?str_length_app; lia.
Qed.

(** X11.  Percent-decoding never lengthens the text, whatever the
    safe-set. *)
Theorem unquote_length (text out : string) (safe : list string) :
  unquote text safe = Ok out -> String.length out <= String.length text.
Proof.
  unfold unquote; intros H.
  pose proof (join_split text "%") as J.
  destruct (Py.split text "%") as [|t pieces]; [discriminate|].
  rewrite <- J, join_cons_length.
  exact (unquote_fold_inv safe String.length (fun p => S (String.length p))
           (unquote_piece_length safe) pieces t out H).
Qed.

Lemma unquote_length_witness :
  exists out,
    unquote "/%61%7eb%2fc% 1%+f" (" 1" :: "+f" :: unreserved) = Ok out
    /\ String.length out <= String.length "/%61%7eb%2fc% 1%+f".
Proof.
  eexists; split; [vm_compute; reflexivity|].
  apply (unquote_length _ _ (" 1" :: "+f" :: unreserved)).
  vm_compute; reflexivity.
Defined.

(** For a string of at most two characters, which is all that [unquote]
    converts, the value of [int] is below 256: [chr_int16] raises only
    where [int] raises or the value is negative. *)
Lemma chr_int16_short (s : string) :
  String.length s <= 2 ->
  Py.chr_int16 s
  = match Py.int16 s with
    | Some n =>
        if (0 <=? n)%Z then Ok (ascii_of_nat (Z.to_nat n))
        else Raise ValueError
    | None => Raise ValueError
    end.
Proof.
  pose (small := fun o : option Z =>
                   match o with
                   | Some n => (n <? 256)%Z
                   | None => true
                   end).
  assert (H : small (Py.int16 s) = true -> Py.chr_int16 s
              = match Py.int16 s with
                | Some n =>
                    if (0 <=? n)%Z then Ok (ascii_of_nat (Z.to_nat n))
                    else Raise ValueError
                | None => Raise ValueError
                end).
  { unfold Py.chr_int16, small; destruct (Py.int16 s) as [n|]; [|reflexivity].
    intros ->; now rewrite andb_true_r. }
  assert (H1 : forall a, small (Py.int16 (String a "")) = true)
    by (apply ascii_forall; vm_compute; reflexivity).
  assert (H2 : forall a b, small (Py.int16 (String a (String b ""))) = true)
    by (apply ascii_forall2; vm_compute; reflexivity).
  intros Hlen; apply H.
  destruct s as [|a [|b [|c s]]]; [reflexivity | apply H1 | apply H2|].
  simpl in Hlen; lia.
Qed.

(** A safe-set may hold any string: beside one digit, [int] takes a sign
    or white space, and a negative value has no character. *)
Example unquote_signed_code :
  unquote "a%+fb% 1c" ["+f"; " 1"]
  = Ok (String "a" (String (ascii_of_nat 15)
          (String "b" (String (ascii_of_nat 1) "c"))))
  /\ unquote "%-f" ["-f"] = Raise ValueError
  /\ unquote "%-0" ["-0"] = Ok (String (ascii_of_nat 0) "").
Proof. repeat split; vm_compute; reflexivity. Qed.

Lemma hex_is_alnum (a : ascii) :
  is_hex a = true -> is_alnum a = true /\ is_alnum (Py.upper_char a) = true.
Proof.
  assert (H : forall a, (if is_hex a then is_alnum a && is_alnum (Py.upper_char a)
                         else true) = true)
    by (apply ascii_forall; vm_compute; reflexivity).
  intros Ha; specialize (H a); rewrite Ha in H.
  now apply andb_true_iff in H.
Qed.

Lemma alnum_differs (a c : ascii) :
  is_alnum a = true -> is_alnum c = false -> Ascii.eqb a c = false.
Proof.
  intros Ha Hc; destruct (Ascii.eqb_spec a c); [congruence | reflexivity].
Qed.

Lemma hex_pair_count (q : string) (c : ascii) :
  hex_pair_shape q = true -> is_alnum c = false ->
  str_count q c = 0 /\ str_count (Py.upper q) c = 0.
Proof.
  destruct q as [|a [|b [|d q]]]; try discriminate.
  cbn [hex_pair_shape]; intros S Hc.
  destruct (same_case_is_hex a b S) as [Ha Hb].
  destruct (hex_is_alnum a Ha) as [A1 A2], (hex_is_alnum b Hb) as [B1 B2].
  cbn [Py.upper str_count].
  now rewrite (alnum_differs _ _ A1 Hc), (alnum_differs _ _ A2 Hc),
    (alnum_differs _ _ B1 Hc), (alnum_differs _ _ B2 Hc).
Qed.

(** The code of the character that a code decodes to is that code. *)
Lemma code_of_hex_pair (a b : ascii) :
  is_upper_hex a = true -> is_upper_hex b = true ->
  code_of (hex_pair_char a b) = String a (String b "").
Proof.
  assert (H : forall a b,
             (if is_upper_hex a && is_upper_hex b
              then String.eqb (code_of (hex_pair_char a b))
                     (String a (String b ""))
              else true) = true)
    by (apply ascii_forall2; vm_compute; reflexivity).
  intros Ha Hb; specialize (H a b); rewrite Ha, Hb in H.
  now apply String.eqb_eq.
Qed.

Lemma unquote_piece_count (safe : list string) (c : ascii) (t p t' : string) :
  safe_codes safe -> c <> "%"%char -> is_alnum c = false ->
  Py.str_in (code_of c) safe = false ->
  unquote_piece safe t p = Ok t' ->
  str_count t' c = str_count t c + str_count p c.
Proof.
  intros Hsafe Hpc Hc Hcode.
  apply Ascii.eqb_neq in Hpc; rewrite Ascii.eqb_sym in Hpc.
  unfold unquote_piece.
  destruct (Py.endswith t "%").
  { intros E; injection E as <-; rewrite str_count_app.
    cbn [append str_count]; rewrite Hpc; lia. }
  pose proof (take_drop 2 p) as Hp.
  apply (f_equal (fun s => str_count s c)) in Hp; rewrite str_count_app in Hp.
  set (q := if Py.str_in (Py.take 2 p) valid_hex then _ else _).
  assert (Hq : str_count q c = str_count (Py.take 2 p) c).
  { unfold q; destruct (Py.str_in _ valid_hex) eqn:V; [|reflexivity].
    rewrite valid_hex_spec in V.
    destruct (hex_pair_count _ c V Hc) as [-> ->]; reflexivity. }
  set (r := Py.drop 2 p) in *; set (k := Py.take 2 p) in *.
  clearbody q r k.
  destruct (Py.str_in q safe) eqn:S.
  - pose proof (Hsafe _ S) as Hcd.
    destruct q as [|a [|b [|d q]]]; try discriminate Hcd.
    cbn [is_code] in Hcd; apply andb_true_iff in Hcd as [Ua Ub].
    rewrite (chr_int16_pair a b) by now apply upper_hex_is_hex.
    cbn [bind]; intros E; injection E as <-.
    rewrite str_count_app; cbn [str_count] in *.
    assert (Hch : Ascii.eqb (hex_pair_char a b) c = false).
    { destruct (Ascii.eqb_spec (hex_pair_char a b) c) as [Heq|]; [|reflexivity].
      rewrite <- Heq, (code_of_hex_pair a b Ua Ub) in Hcode; congruence. }
    rewrite Hch.
    rewrite (alnum_differs a c), (alnum_differs b c) in Hq;
      try assumption;
      try (apply hex_is_alnum; now apply upper_hex_is_hex).
    lia.
  - intros E; injection E as <-; rewrite str_count_app.
    cbn [append str_count]; rewrite Hpc, str_count_app; lia.
Qed.

Lemma unquote_count (safe : list string) (c : ascii) (text out : string) :
  safe_codes safe -> c <> "%"%char -> is_alnum c = false ->
  Py.str_in (code_of c) safe = false ->
  unquote text safe = Ok out ->
  str_count out c = str_count text c.
Proof.
  intros Hsafe Hpc Hc Hcode; unfold unquote; intros H.
  pose proof (join_split text "%") as J.
  destruct (Py.split text "%") as [|t pieces]; [discriminate|].
  rewrite <- J, (join_cons_count _ _ _ Hpc).
  exact (unquote_fold_inv_eq safe (fun s => str_count s c)
           (fun p => str_count p c)
           (fun t p t' => unquote_piece_count safe c t p t' Hsafe Hpc Hc Hcode)
           pieces t out H).
Qed.

(** X9.  Percent-decoding with a safe-set of two-hex-digit uppercase
    codes neither creates nor removes a character that is not a letter,
    not a digit, not the percent sign, and whose code is not in the
    safe-set: the text has as many of it after as before. *)
Theorem unquote_keeps_count (safe : list string) (c : ascii) (text out : string) :
  safe_codes safe -> c <> "%"%char -> is_alnum c = false ->
  Py.str_in (code_of c) safe = false ->
  unquote text safe = Ok out ->
  str_count out c = str_count text c.
Proof. exact (unquote_count safe c text out). Qed.

Lemma unquote_keeps_count_witness :
  str_count "a/b%2Fc/~" "/" = str_count "%61/b%2fc/%7E" "/".
Proof.
  apply (unquote_keeps_count unreserved "/" "%61/b%2fc/%7E" "a/b%2Fc/~");
    try reflexivity; [apply tables_are_safe_codes | discriminate].
Defined.

Lemma char_in_In (c : ascii) (s : string) :
  Py.char_in c s = true -> In c (list_ascii_of_string s).
Proof.
  induction s as [|d s IH]; simpl; [discriminate|].
  intros H; apply orb_true_iff in H as [H|H];
    [left; symmetry; now apply Ascii.eqb_eq | right; now apply IH].
Qed.

Lemma unquote_keeps_chars (safe : list string) (chars : string) :
  safe_codes safe ->
  forallb (kept_by safe) (list_ascii_of_string chars) = true ->
  forall c text out,
    Py.char_in c chars = true -> unquote text safe = Ok out ->
    str_count out c = str_count text c.
Proof.
  intros Hsafe Hall c text out Hc H.
  rewrite forallb_forall in Hall; specialize (Hall c (char_in_In _ _ Hc)).
  unfold kept_by in Hall.
  apply andb_true_iff in Hall as [Hall H3]; apply andb_true_iff in Hall as [H1 H2].
  apply negb_true_iff in H1, H2, H3.
  apply (unquote_count safe c text out); try assumption.
  now apply Ascii.eqb_neq.
Qed.

(** X10.  The three passes of the canonicalizer keep the delimiters they
    must not touch.  The pass over the whole url with [unreserved] keeps
    the number of each reserved character; the pass over the path keeps
    the slashes, question marks, hashes and brackets; the pass over the
    query and the fragment keeps the hashes, brackets, ampersands and
    equals signs. *)
Theorem canonical_passes_keep_delimiters (c : ascii) (text out : string) :
  (Py.char_in c ":/?#[]@!$&'()*+,;=" = true ->
   unquote text unreserved = Ok out -> str_count out c = str_count text c)
  /\ (Py.char_in c "/?#[]" = true ->
      unquote text unquote_in_path = Ok out ->
      str_count out c = str_count text c)
  /\ (Py.char_in c "#[]&=" = true ->
      unquote text unquote_in_query = Ok out ->
      str_count out c = str_count text c)
  /\ (Py.char_in c "#[]&=" = true ->
      unquote text unquote_in_frag = Ok out ->
      str_count out c = str_count text c).
Proof.
  repeat split; intros Hc H;
    (eapply unquote_keeps_chars;
     [ | | exact Hc | exact H ]; [apply tables_are_safe_codes | reflexivity]).
Qed.

Lemma canonical_passes_keep_delimiters_witness :
  str_count "/a:b%2Fc" "/" = str_count "/a%3Ab%2fc" "/".
Proof.
  exact (proj1 (proj2 (canonical_passes_keep_delimiters "/" "/a%3Ab%2fc"
                         "/a:b%2Fc")) eq_refl eq_refl).
Defined.

(** ** Failures of the canonicalizer and of the constructor *)

Lemma urlsplit_raises (url : string) (e : exn) :
  urlsplit url = Raise e -> e = ValueError.
Proof.
  unfold urlsplit.
  destruct (split_scheme url) as [sch u].
  destruct (String.eqb (Py.take 2 u) "//").
  - destruct (_splitnetloc u 2) as [nl rest].
    destruct (_ || _); cbn [bind].
    + intros E; now injection E as <-.
    + destruct (if Py.contains rest "#" then _ else _) as [a f].
      destruct (if Py.contains a "?" then _ else _); discriminate.
  - cbn [bind].
    destruct (if Py.contains u "#" then _ else _) as [a f].
    destruct (if Py.contains a "?" then _ else _); discriminate.
Qed.

Lemma remove_dot_segments_relative (path : string) :
  path <> "" -> Py.startswith path "/" = false ->
  remove_dot_segments path = Raise ValueError.
Proof.
  destruct path as [|c rest]; [contradiction|]; intros _.
  cbn [Py.startswith]; rewrite andb_true_r; intros H.
  unfold remove_dot_segments; now rewrite H.
Qed.

Lemma startswith_slash (path : string) :
  Py.startswith path "/" = true -> exists rest, path = String "/" rest.
Proof.
  destruct path as [|c rest]; [discriminate|].
  cbn [Py.startswith]; rewrite andb_true_r; intros H.
  apply Ascii.eqb_eq in H; subst c; now exists rest.
Qed.

Lemma unquote_table_total (text : string) :
  (exists r, unquote text unreserved = Ok r)
  /\ (exists r, unquote text unquote_in_path = Ok r)
  /\ (exists r, unquote text unquote_in_query = Ok r)
  /\ (exists r, unquote text unquote_in_frag = Ok r).
Proof.
  repeat split; apply unquote_total, tables_are_safe_codes.
Qed.

Lemma safe_url_canonicalization_raises {sm : SurtModule} (link : string)
  (e : exn) :
  safe_url_canonicalization link = Raise e -> e = ValueError.
Proof.
  destruct (proj1 (unquote_table_total link)) as [decoded Hd].
  unfold safe_url_canonicalization; rewrite Hd; cbn [bind].
  destruct (urlsplit decoded) as [parts|e0] eqn:Hp; cbn [bind];
    [|intros E; injection E as <-; exact (urlsplit_raises _ _ Hp)].
  set (p0 := if String.eqb (path parts) "" then "/" else path parts).
  destruct (remove_dot_segments p0) as [p1|e1] eqn:H1; cbn [bind].
  - destruct (proj1 (proj2 (unquote_table_total
                              (Py.replace_char p1 backslash "/"))))
      as [p2 ->].
    destruct (proj1 (proj2 (proj2 (unquote_table_total (query parts)))))
      as [q ->].
    destruct (proj2 (proj2 (proj2 (unquote_table_total (fragment parts)))))
      as [f Hf].
    cbn [bind]; destruct (negb (String.eqb (fragment parts) ""));
      rewrite ?Hf; cbn [bind]; intros E; discriminate E.
  - intros E; injection E as <-.
    destruct p0 as [|c rest] eqn:E0.
    + unfold p0 in E0; destruct (String.eqb_spec (path parts) "");
        [discriminate | contradiction].
    + unfold remove_dot_segments in H1.
      destruct (negb (Ascii.eqb c "/")); [now injection H1 as <- | discriminate].
Qed.

(** X12.  The canonicalizer fails on a link exactly when the link,
    percent-decoded with the unreserved safe-set, does not split, or
    splits with a path that is not empty and does not start with a slash;
    the failure is a ValueError, never the IndexError of the path
    normalizer. *)
Theorem safe_url_canonicalization_fails {sm : SurtModule} (link : string) :
  (forall e, safe_url_canonicalization link = Raise e -> e = ValueError)
  /\ exists decoded,
       unquote link unreserved = Ok decoded
       /\ ((exists c f, safe_url_canonicalization link = Ok (c, f))
           <-> exists parts,
                 urlsplit decoded = Ok parts
                 /\ (path parts = ""
                     \/ Py.startswith (path parts) "/" = true)).
Proof.
  split; [intros e; apply safe_url_canonicalization_raises|].
  destruct (proj1 (unquote_table_total link)) as [decoded Hd].
  exists decoded; split; [exact Hd|].
  unfold safe_url_canonicalization; rewrite Hd; cbn [bind].
  destruct (urlsplit decoded) as [parts|e0] eqn:Hp; cbn [bind].
  2:{ split.
      - intros (c & f & E); discriminate E.
      - intros (parts & E & _); discriminate E. }
  set (p0 := if String.eqb (path parts) "" then "/" else path parts).
  destruct (Py.startswith p0 "/") eqn:Hs.
  - destruct (startswith_slash _ Hs) as [rest Hrest].
    rewrite Hrest, remove_dot_segments_slash; cbn [bind].
    set (p1 := Py.replace_char _ backslash "/").
    destruct (proj1 (proj2 (unquote_table_total p1))) as [p2 ->].
    destruct (proj1 (proj2 (proj2 (unquote_table_total (query parts)))))
      as [q ->].
    destruct (proj2 (proj2 (proj2 (unquote_table_total (fragment parts)))))
      as [f Hf].
    cbn [bind]; split.
    + intros _; exists parts; split; [reflexivity|].
      unfold p0 in Hs; destruct (String.eqb_spec (path parts) ""); auto.
    + intros _; destruct (negb (String.eqb (fragment parts) ""));
        rewrite ?Hf; cbn [bind]; eexists; eexists; reflexivity.
  - assert (Hne : p0 <> "")
      by (unfold p0; destruct (String.eqb_spec (path parts) "");
          [discriminate | assumption]).
    rewrite (remove_dot_segments_relative _ Hne Hs); cbn [bind]; split.
    + intros (c & f & E); discriminate E.
    + intros (parts' & E & Hpath); injection E as <-.
      unfold p0 in Hs.
      destruct Hpath as [Hpath|Hpath].
      * rewrite Hpath in Hs; discriminate.
      * revert Hs; destruct (String.eqb (path parts) ""); intros Hs;
          [discriminate Hs | congruence].
Qed.

Lemma URL_canonical_raises {sm : SurtModule} {lib : Libraries}
  (link : string) (e : exn) :
  URL_canonical link = Raise e -> e = ValueError.
Proof.
  unfold URL_canonical.
  destruct (safe_url_canonicalization link) as [[c f]|e0] eqn:Hc; cbn [bind].
  - destruct (urlsplit c) as [p|e1] eqn:Hp; cbn [bind]; [discriminate|].
    intros E; injection E as <-; exact (urlsplit_raises _ _ Hp).
  - intros E; injection E as <-.
    exact (safe_url_canonicalization_raises link _ Hc).
Qed.

(** X13.  When [urllib.parse.urljoin] raises nothing but ValueError, the
    constructor raises nothing but ValueError, whatever the link, the
    base and the seed flag: the IndexError of [remove_dot_segments] on
    the empty path cannot come out of [URL]. *)
Theorem URL_init_raises {sm : SurtModule} {lib : Libraries}
  (Hjoin : forall b u e, urljoin b u = Raise e -> e = ValueError)
  (url : string) (b : base) (seed : bool) (e : exn) :
  URL_init url b seed = Raise e -> e = ValueError.
Proof.
  unfold URL_init.
  destruct (URL_link url b seed) as [link|e0] eqn:Hl; cbn [bind];
    [apply URL_canonical_raises|].
  intros E; injection E as <-; revert Hl; unfold URL_link.
  assert (Hseed : forall e1,
             (if seed then special_seed_handling url else Ok url) = Raise e1 ->
             e1 = ValueError).
  { intros e1; destruct seed; [|discriminate].
    intros E; apply special_seed_handling_raises in E.
    exact (urlsplit_raises _ _ E). }
  destruct (if seed then special_seed_handling url else Ok url) as [u|e1];
    cbn [bind]; [|intros E; injection E as <-; exact (Hseed _ eq_refl)].
  assert (Hbase : forall e1, URL_base b = Raise e1 -> e1 = ValueError).
  { intros e1; destruct b as [|s|ub]; cbn [URL_base]; try discriminate.
    destruct (String.eqb s ""); [discriminate|].
    unfold URL_plain.
    destruct (URL_canonical (clean_webpage_links s)) as [x|e2] eqn:Hx;
      cbn [bind]; [discriminate|].
    intros E; injection E as <-; exact (URL_canonical_raises _ _ Hx). }
  destruct (URL_base b) as [bo|e1]; cbn [bind];
    [|intros E; injection E as <-; exact (Hbase _ eq_refl)].
  unfold URL_resolve; destruct bo as [ub|]; [|discriminate].
  destruct (_ || _); [discriminate|].
  destruct (_ && _); [discriminate|].
  apply Hjoin.
Qed.

Lemma URL_init_raises_witness :
  reference_URL "mailto:someone@example.com" NoBase false = Raise ValueError.
Proof.
  assert (Hjoin : forall b u e, reference_urljoin b u = Raise e -> e = ValueError).
  { assert (Hp : forall x s e1, urlparse x s = Raise e1 -> e1 = ValueError).
    { intros x s e1; unfold urlparse.
      destruct (urlsplit x) as [pp|e2] eqn:Hx; cbn [bind];
        [|intros E; injection E as <-; exact (urlsplit_raises _ _ Hx)].
      destruct (if _ && _ then _ else _); discriminate. }
    intros b u e; unfold reference_urljoin.
    destruct (String.eqb b ""); [discriminate|].
    destruct (String.eqb u ""); [discriminate|].
    destruct (urlparse b "") as [[bp bparams]|e1] eqn:Hb; cbn [bind];
      [|intros E; injection E as <-; exact (Hp _ _ _ Hb)].
    destruct (urlparse u (scheme bp)) as [[up params]|e1] eqn:Hu; cbn [bind];
      [|intros E; injection E as <-; exact (Hp _ _ _ Hu)].
    cbv zeta.
    repeat match goal with
           | |- context [if ?c then Ok _ else _] => destruct c
           end; discriminate. }
  destruct (reference_URL "mailto:someone@example.com" NoBase false)
    as [x|e] eqn:E; [vm_compute in E; discriminate E|].
  now rewrite (@URL_init_raises reference_surt_module reference_libraries
                 Hjoin _ _ _ _ E).
Defined.

(** ** More on the redirect classifier *)

Lemma endswith_eq (s suf : string) :
  Py.endswith s suf
  = if String.eqb s suf then true
    else match s with
         | "" => false
         | String _ s' => Py.endswith s' suf
         end.
Proof. destruct s; reflexivity. Qed.

Lemma endswith_app (s suf : string) : Py.endswith (s ++ suf) suf = true.
Proof.
  induction s as [|c s IH]; rewrite endswith_eq.
  - now rewrite String.eqb_refl.
  - destruct (String.eqb _ suf); [reflexivity | exact IH].
Qed.

Lemma str_eqb_length (s t : string) :
  String.length s <> String.length t -> String.eqb s t = false.
Proof. intros H; apply String.eqb_neq; intros ->; contradiction. Qed.

Ltac split_redirect :=
  repeat match goal with
         | |- context [if ?b then _ else _] => destruct b eqn:?
         end.

(** X14.  The class is [same] exactly when the two canonical urls are
    equal. *)
Theorem special_redirect_same (x y : URL) :
  special_redirect x y = Some same <-> _url x = _url y.
Proof.
  split.
  - unfold special_redirect; cbv zeta.
    destruct (5 <? _)%Z; [discriminate|].
    destruct (String.eqb_spec (_url x) (_url y)); [auto|].
    split_redirect; discriminate.
  - intros E; unfold special_redirect; cbv zeta; rewrite E, String.eqb_refl.
    replace (5 <? _)%Z with false; [reflexivity|].
    symmetry; apply Z.ltb_ge; lia.
Qed.

(** X15.  The slash classes are inverse to each other in this direction:
    when the class of a redirect is [addslash], the class of the
    redirect back is [removeslash]. *)
Theorem special_redirect_addslash_back (x y : URL) :
  special_redirect x y = Some addslash ->
  _url y = _url x ++ "/" /\ special_redirect y x = Some removeslash.
Proof.
  unfold special_redirect at 1; cbv zeta.
  destruct (5 <? _)%Z; [discriminate|].
  destruct (String.eqb_spec (_url x) (_url y)) as [|Hne]; [discriminate|].
  destruct (negb (Py.endswith (_url x) "/") && String.eqb (_url x ++ "/") (_url y))
    eqn:A; [|split_redirect; discriminate].
  intros _; apply andb_true_iff in A as [_ A]; apply String.eqb_eq in A.
  split; [now symmetry|].
  unfold special_redirect; cbv zeta; rewrite <- A.
  replace (5 <? _)%Z with false
    by (symmetry; apply Z.ltb_ge; rewrite str_length_app; simpl; lia).
  replace (String.eqb (_url x ++ "/") (_url x)) with false
    by (symmetry; apply str_eqb_length; rewrite str_length_app; simpl; lia).
  now rewrite endswith_app, String.eqb_refl.
Qed.

Lemma special_redirect_addslash_back_witness :
  special_redirect
    (mkURL "http://example.com/foo/"
       (mkSplitResult "http" "example.com" "/foo/" "" "") "example.com"
       "example.com" "example.com" "com,example)/foo/" "example.com" None)
    (mkURL "http://example.com/foo"
       (mkSplitResult "http" "example.com" "/foo" "" "") "example.com"
       "example.com" "example.com" "com,example)/foo" "example.com" None)
  = Some removeslash.
Proof. apply special_redirect_addslash_back; reflexivity. Defined.

Lemma startswith_split (s p : string) :
  Py.startswith s p = true -> s = p ++ Py.drop (String.length p) s.
Proof.
  revert s; induction p as [|a p IH]; intros s H; [now destruct s|].
  destruct s as [|b s]; [discriminate|]; cbn [Py.startswith] in H.
  apply andb_true_iff in H as [Hab H]; apply Ascii.eqb_eq in Hab; subst b.
  simpl; f_equal; now apply IH.
Qed.

Lemma replace_first_at_start (p new r : string) :
  Py.replace_first (p ++ r) p new = new ++ r.
Proof. now rewrite replace_first_eq, startswith_app, drop_app_length. Qed.

(** No string is moved by one place by a letter before and a slash
    behind. *)
Lemma s_before_slash_behind (r : string) : String "s" r <> r ++ "/".
Proof.
  intros E; apply (f_equal (fun s => str_count s "s")) in E.
  rewrite str_count_app in E; simpl in E; lia.
Qed.

(** X16.  The scheme classes are inverse to each other in this
    direction: when the class of a redirect from a url that starts with
    [http] is [tohttps], the class of the redirect back is [tohttp]. *)
Theorem special_redirect_tohttps_back (x y : URL) :
  Py.startswith (_url x) "http" = true ->
  special_redirect x y = Some tohttps ->
  _url y = "https" ++ Py.drop 4 (_url x)
  /\ special_redirect y x = Some tohttp.
Proof.
  intros Hx; apply startswith_split in Hx; simpl String.length in Hx.
  set (r := Py.drop 4 (_url x)) in *; clearbody r.
  unfold special_redirect at 1; cbv zeta; rewrite Hx.
  destruct (5 <? _)%Z; [discriminate|].
  destruct (String.eqb ("http" ++ r) (_url y)); [discriminate|].
  destruct (negb _ && _); [discriminate|].
  destruct (Py.endswith _ "/" && _); [discriminate|].
  rewrite (replace_first_at_start "http" "https" r).
  destruct (String.eqb_spec ("https" ++ r) (_url y)) as [Hy|];
    [|split_redirect; discriminate].
  intros _; split; [now symmetry|].
  unfold special_redirect; cbv zeta; rewrite Hx, <- Hy.
  replace (5 <? _)%Z with false
    by (symmetry; apply Z.ltb_ge; simpl String.length; lia).
  replace (String.eqb ("https" ++ r) ("http" ++ r)) with false
    by (symmetry; apply str_eqb_length; simpl; lia).
  replace (String.eqb (("https" ++ r) ++ "/") ("http" ++ r)) with false
    by (symmetry; apply str_eqb_length; rewrite str_length_app; simpl; lia).
  rewrite andb_false_r.
  replace (String.eqb ("https" ++ r) (("http" ++ r) ++ "/")) with false.
  2:{ symmetry; apply String.eqb_neq; simpl; intros E.
      injection E as E; exact (s_before_slash_behind r E). }
  rewrite andb_false_r.
  change ("https" ++ r) with ("http" ++ String "s" r) at 1.
  rewrite (replace_first_at_start "http" "https" (String "s" r)).
  replace (String.eqb ("https" ++ String "s" r) ("http" ++ r)) with false
    by (symmetry; apply str_eqb_length; simpl; lia).
  rewrite (startswith_app "https" r).
  now rewrite (replace_first_at_start "https" "http" r), String.eqb_refl.
Qed.

Lemma special_redirect_tohttps_back_witness :
  special_redirect
    (mkURL "https://example.com/"
       (mkSplitResult "https" "example.com" "/" "" "") "example.com"
       "example.com" "example.com" "com,example)/" "example.com" None)
    (mkURL "http://example.com/"
       (mkSplitResult "http" "example.com" "/" "" "") "example.com"
       "example.com" "example.com" "com,example)/" "example.com" None)
  = Some tohttp.
Proof. apply special_redirect_tohttps_back; reflexivity. Defined.

(** The classes are read off the strings alone: a url that is not an
    http url, with [http] in its path, is classified as [tohttps]. *)
Example special_redirect_substring :
  reference_classify "ftp://example.com/http" "ftp://example.com/https"
  = Ok (Some tohttps).
Proof. vm_compute; reflexivity. Qed.

(** ** More on the [URL] object *)

Lemma unquote_piece_extends (safe : list string) (t p t' : string) :
  unquote_piece safe t p = Ok t' -> exists suf, t' = t ++ suf.
Proof.
  unfold unquote_piece.
  destruct (Py.endswith t "%"); [intros E; injection E as <-; eauto|].
  destruct (Py.str_in _ safe).
  - destruct (Py.chr_int16 _); cbn [bind]; [|discriminate].
    intros E; injection E as <-; eauto.
  - intros E; injection E as <-; eauto.
Qed.

Lemma unquote_fold_extends (safe : list string) (pieces : list string) :
  forall t out,
    fold_left (fun acc p => text <- acc ;; unquote_piece safe text p) pieces
      (Ok t) = Ok out ->
    exists suf, out = t ++ suf.
Proof.
  induction pieces as [|p pieces IH]; intros t out H; simpl in H.
  - injection H as <-; exists ""; now rewrite str_app_nil_r.
  - destruct (unquote_piece safe t p) as [t'|e] eqn:E.
    + destruct (unquote_piece_extends _ _ _ _ E) as [s1 ->].
      destruct (IH _ _ H) as [s2 ->]; exists (s1 ++ s2).
      now rewrite str_app_assoc.
    + rewrite unquote_fold_raise in H; discriminate.
Qed.

(** Decoding leaves the first character alone, unless it is a percent
    sign. *)
Lemma unquote_first_char (safe : list string) (c : ascii) (s out : string) :
  c <> "%"%char -> unquote (String c s) safe = Ok out ->
  exists o, out = String c o.
Proof.
  intros Hc; unfold unquote; cbn [Py.split].
  apply Ascii.eqb_neq in Hc; rewrite Hc.
  pose proof (split_nonempty s "%") as Hne.
  destruct (Py.split s "%") as [|p ps]; [contradiction|].
  intros H; destruct (unquote_fold_extends _ _ _ _ H) as [suf ->].
  now exists (p ++ suf).
Qed.

Lemma scheme_char_lower (c : ascii) :
  Py.char_in c scheme_chars = true ->
  Py.char_in (Py.lower_char c) scheme_chars = true
  /\ Py.lower_char (Py.lower_char c) = Py.lower_char c
  /\ Ascii.eqb c ":" = false /\ Ascii.eqb c "/" = false.
Proof.
  assert (H : forall c,
             (if Py.char_in c scheme_chars
              then Py.char_in (Py.lower_char c) scheme_chars
                   && Ascii.eqb (Py.lower_char (Py.lower_char c))
                        (Py.lower_char c)
                   && negb (Ascii.eqb c ":") && negb (Ascii.eqb c "/")
              else true) = true)
    by (apply ascii_forall; vm_compute; reflexivity).
  intros Hc; specialize (H c); rewrite Hc in H.
  repeat (apply andb_true_iff in H as [H ?]).
  repeat split; try assumption;
    try (now apply negb_true_iff); now apply Ascii.eqb_eq.
Qed.

Lemma scheme_like_lower (s : string) :
  scheme_like s ->
  scheme_like (Py.lower s) /\ Py.lower (Py.lower s) = Py.lower s
  /\ Py.char_in ":" s = false.
Proof.
  unfold scheme_like; induction s as [|c s IH]; [now repeat split|].
  cbn [str_forallb Py.lower Py.char_in].
  intros H; apply andb_true_iff in H as [Hc Hs].
  destruct (scheme_char_lower c Hc) as (L1 & L2 & L3 & _).
  destruct (IH Hs) as (I1 & I2 & I3).
  rewrite L1, I1, L2, I2, I3, Ascii.eqb_sym, L3; now repeat split.
Qed.

(** The scheme that [urlsplit] finds is made of scheme characters and is
    in lower case. *)
Lemma split_scheme_scheme (url sch rest : string) :
  split_scheme url = (sch, rest) -> scheme_like sch /\ Py.lower sch = sch.
Proof.
  unfold split_scheme.
  assert (Hnone : ("", url) = (sch, rest) -> scheme_like sch /\ Py.lower sch = sch)
    by (intros E; injection E as <- <-; now split).
  destruct (0 <? Py.find url ":")%Z; [|exact Hnone].
  set (head := Py.take _ url).
  assert (Hsome : scheme_like head ->
                  (Py.lower head, Py.drop (Z.to_nat (Py.find url ":") + 1) url)
                  = (sch, rest) ->
                  scheme_like sch /\ Py.lower sch = sch).
  { intros Hh E; injection E as <- <-.
    destruct (scheme_like_lower head Hh) as (H1 & H2 & _); now split. }
  destruct (String.eqb_spec head "http") as [->|_]; [now apply Hsome|].
  destruct (str_forallb _ head) eqn:F; [|exact Hnone].
  destruct (_ || _); [now apply Hsome | exact Hnone].
Qed.

Lemma urlsplit_scheme (url : string) (p : SplitResult) :
  urlsplit url = Ok p -> scheme p = fst (split_scheme url).
Proof.
  unfold urlsplit.
  destruct (split_scheme url) as [sch u].
  destruct (String.eqb (Py.take 2 u) "//").
  - destruct (_splitnetloc u 2) as [nl rest].
    destruct (_ || _); cbn [bind]; [discriminate|].
    destruct (if Py.contains rest "#" then _ else _) as [a f].
    destruct (if Py.contains a "?" then _ else _).
    intros E; now injection E as <-.
  - cbn [bind].
    destruct (if Py.contains u "#" then _ else _) as [a f].
    destruct (if Py.contains a "?" then _ else _).
    intros E; now injection E as <-.
Qed.

Lemma scheme_like_starts (s : string) :
  scheme_like s -> Py.startswith s "/" = false.
Proof.
  unfold scheme_like; destruct s as [|c s]; [reflexivity|].
  cbn [str_forallb Py.startswith]; intros H.
  apply andb_true_iff in H as [Hc _].
  destruct (scheme_char_lower c Hc) as (_ & _ & _ & L); now rewrite L.
Qed.

Lemma scheme_like_take (s : string) (n : nat) :
  scheme_like s -> scheme_like (Py.take n s).
Proof.
  unfold scheme_like; revert s; induction n as [|n IH]; intros [|c s];
    try reflexivity.
  cbn [Py.take str_forallb]; intros H; apply andb_true_iff in H as [Hc Hs].
  now rewrite Hc, IH.
Qed.

(** No scheme is found in front of a slash. *)
Lemma split_scheme_after_slash (R : string) :
  Py.startswith R "/" = true -> split_scheme R = ("", R).
Proof.
  intros HR; unfold split_scheme.
  destruct (0 <? Py.find R ":")%Z eqn:Hi; [|reflexivity].
  apply Z.ltb_lt in Hi.
  destruct (Z.to_nat (Py.find R ":")) as [|n] eqn:En; [lia|].
  destruct (startswith_slash _ HR) as [r ->].
  cbn [Py.take]; reflexivity.
Qed.

Lemma find_from_app_char (a t : string) (c : ascii) (i : Z) :
  Py.char_in c a = false ->
  Py.find_from (a ++ String c t) (String c "") i
  = (i + Z.of_nat (String.length a))%Z.
Proof.
  revert i; induction a as [|d a IH]; intros i; rewrite find_from_char.
  - intros _; cbn [append]; rewrite Ascii.eqb_refl; simpl; lia.
  - cbn [Py.char_in append]; intros H; apply orb_false_iff in H as [Hd Ha].
    rewrite Ascii.eqb_sym in Hd; rewrite Hd, (IH _ Ha).
    cbn [String.length]; lia.
Qed.

(** The scheme that [urlunsplit] wrote in front of a slash is found
    again. *)
Lemma split_scheme_rebuild (sch R : string) :
  sch <> "" -> scheme_like sch -> Py.startswith R "/" = true ->
  split_scheme (sch ++ ":" ++ R) = (Py.lower sch, R).
Proof.
  intros Hne Hs HR; unfold split_scheme, Py.find.
  destruct (scheme_like_lower sch Hs) as (_ & _ & Hcolon).
  change (sch ++ ":" ++ R) with (sch ++ String ":" R).
  rewrite (find_from_app_char sch R ":" 0 Hcolon).
  replace (0 <? 0 + Z.of_nat (String.length sch))%Z with true
    by (symmetry; apply Z.ltb_lt; destruct sch; [contradiction | simpl; lia]).
  replace (Z.to_nat (0 + Z.of_nat (String.length sch)))
    with (String.length sch) by lia.
  rewrite take_app_length.
  replace (Py.drop (String.length sch + 1) (sch ++ String ":" R)) with R
    by (rewrite <- drop_drop, drop_app_length; reflexivity).
  destruct (String.eqb sch "http"); [reflexivity|].
  unfold scheme_like in Hs; rewrite Hs.
  destruct (startswith_slash _ HR) as [r ->]; reflexivity.
Qed.

(** What is before the first separator starts like the string. *)
Lemma before_sep_first (s u f : string) (d : ascii) :
  (if Py.contains s (String d "") then Py.split1 s d else (s, "")) = (u, f) ->
  (s = "" -> u = "")
  /\ (forall c r, s = String c r ->
        (c = d -> u = "") /\ (c <> d -> exists r', u = String c r')).
Proof.
  rewrite contains_char; intros E.
  assert (Hu : u = fst (Py.split1 s d)).
  { destruct (Py.char_in d s) eqn:C; [now rewrite E|].
    rewrite (split1_absent _ _ C); now injection E as <- _. }
  split; [intros ->; rewrite Hu; reflexivity|].
  intros c r ->; rewrite Hu; cbn [Py.split1]; split.
  - intros ->; now rewrite Ascii.eqb_refl.
  - intros Hcd; apply Ascii.eqb_neq in Hcd; rewrite Hcd.
    destruct (Py.split1 r d) as [a b]; now exists a.
Qed.

(** The path that the tail of [urlsplit] cuts out of a string that is
    empty or starts with a slash, a question mark or a hash. *)
Lemma urlsplit_tail_path (rest u f u' q : string) :
  rest = "" \/ (exists c r, rest = String c r /\ Py.char_in c "/?#" = true) ->
  (if Py.contains rest "#" then Py.split1 rest "#" else (rest, "")) = (u, f) ->
  (if Py.contains u "?" then Py.split1 u "?" else (u, "")) = (u', q) ->
  u' = "" \/ Py.startswith u' "/" = true.
Proof.
  intros Hrest E1 E2.
  destruct (before_sep_first _ _ _ _ E1) as [A1 A2].
  destruct (before_sep_first _ _ _ _ E2) as [B1 B2].
  destruct Hrest as [->|(c & r & -> & Hc)]; [left; auto|].
  destruct (A2 c r eq_refl) as [A3 A4].
  destruct (Ascii.eqb_spec c "#") as [->|Hh]; [left; auto|].
  destruct (A4 Hh) as [r' ->].
  destruct (B2 c r' eq_refl) as [B3 B4].
  destruct (Ascii.eqb_spec c "?") as [->|Hq]; [left; auto|].
  destruct (B4 Hq) as [r'' ->]; right.
  cbn [Py.char_in] in Hc.
  apply Ascii.eqb_neq in Hh, Hq; rewrite Hh, Hq in Hc; simpl in Hc.
  rewrite orb_false_r in Hc; cbn [Py.startswith]; now rewrite Hc.
Qed.

Lemma delim_step_rest (url : string) (c : ascii) (d : nat) :
  let w := find_at url (String c "") 2 in
  let d' := if (0 <=? w)%Z then Nat.min d (Z.to_nat w) else d in
  d' = d \/ exists r, Py.drop d' url = String c r.
Proof.
  unfold find_at, Py.find; cbv zeta.
  destruct (find_char_cases (Py.drop 2 url) c 0)
    as [[Hf _] | (k & Hf & _ & Hd)]; rewrite Hf; [now left|].
  replace (0 + Z.of_nat k <? 0)%Z with false by (symmetry; apply Z.ltb_ge; lia).
  replace (0 <=? 0 + Z.of_nat k + Z.of_nat 2)%Z with true
    by (symmetry; apply Z.leb_le; lia).
  replace (Z.to_nat (0 + Z.of_nat k + Z.of_nat 2)) with (2 + k) by lia.
  destruct (Nat.min_spec d (2 + k)) as [[_ ->]|[_ ->]]; [now left|].
  right; rewrite <- drop_drop; eauto.
Qed.

(** What follows the netloc is empty or starts with a slash, a question
    mark or a hash. *)
Lemma splitnetloc_rest (url nl rest : string) :
  _splitnetloc url 2 = (nl, rest) ->
  rest = "" \/ (exists c r, rest = String c r /\ Py.char_in c "/?#" = true).
Proof.
  unfold _splitnetloc; simpl fold_left; unfold str1.
  pose proof (delim_step_rest url "/" (String.length url)) as S1; cbv zeta in S1.
  set (d1 := if (0 <=? find_at url "/" 2)%Z then _ else _) in *.
  pose proof (delim_step_rest url "?" d1) as S2; cbv zeta in S2.
  set (d2 := if (0 <=? find_at url "?" 2)%Z then _ else _) in *.
  pose proof (delim_step_rest url "#" d2) as S3; cbv zeta in S3.
  set (d3 := if (0 <=? find_at url "#" 2)%Z then _ else _) in *.
  intros E; injection E as _ <-.
  destruct S3 as [->|[r ->]]; [|right; now exists "#"%char, r].
  destruct S2 as [->|[r ->]]; [|right; now exists "?"%char, r].
  destruct S1 as [->|[r ->]]; [|right; now exists "/"%char, r].
  left; now apply drop_short.
Qed.

(** After a scheme, or without one, a url that goes on with a slash
    splits with a path that is empty or starts with a slash. *)
Lemma urlsplit_path_first (url sch R : string) (p : SplitResult) :
  split_scheme url = (sch, R) -> Py.startswith R "/" = true ->
  urlsplit url = Ok p ->
  path p = "" \/ Py.startswith (path p) "/" = true.
Proof.
  intros Hs HR; unfold urlsplit; rewrite Hs.
  destruct (String.eqb (Py.take 2 R) "//").
  - destruct (_splitnetloc R 2) as [nl rest] eqn:En.
    destruct (_ || _); cbn [bind]; [discriminate|].
    destruct (if Py.contains rest "#" then _ else _) as [a f] eqn:E1.
    destruct (if Py.contains a "?" then _ else _) as [a' q] eqn:E2.
    intros E; injection E as <-; cbn [path].
    exact (urlsplit_tail_path _ _ _ _ _ (splitnetloc_rest _ _ _ En) E1 E2).
  - cbn [bind].
    destruct (if Py.contains R "#" then _ else _) as [a f] eqn:E1.
    destruct (if Py.contains a "?" then _ else _) as [a' q] eqn:E2.
    intros E; injection E as <-; cbn [path].
    apply (urlsplit_tail_path R a f a' q); try assumption.
    right; destruct (startswith_slash _ HR) as [r ->].
    now exists "/"%char, r.
Qed.

Lemma replace_char_first (s : string) (c a : ascii) (new : string) :
  c <> a ->
  Py.replace_char (String c s) a new = String c (Py.replace_char s a new).
Proof.
  intros H; apply Ascii.eqb_neq in H; cbn [Py.replace_char]; now rewrite H.
Qed.

(** The url that [urlunsplit] assembles around a path with a leading
    slash: the scheme and a colon when there is a scheme, then a text
    that starts with a slash. *)
Lemma urlunsplit_absolute (sch nl p q : string) :
  Py.startswith p "/" = true ->
  exists R,
    Py.startswith R "/" = true
    /\ urlunsplit (mkSplitResult sch nl p q "")
       = if String.eqb sch "" then R else sch ++ ":" ++ R.
Proof.
  intros Hp; destruct (startswith_slash _ Hp) as [r ->].
  unfold urlunsplit; cbn [scheme netloc path query fragment].
  change (String.eqb "" "") with true; cbn [negb].
  change (Py.take 1 (String "/" r)) with "/".
  change (String.eqb (String "/" r) "") with false.
  change (String.eqb "/" "/") with true; cbn [negb andb].
  set (body := if _ || _ then _ else _).
  assert (Hb : exists b, body = String "/" b).
  { unfold body; destruct (_ || _); [|now exists r].
    now exists ("/" ++ nl ++ String "/" r). }
  destruct Hb as [b ->].
  destruct (String.eqb sch ""); cbn [negb];
    destruct (String.eqb q ""); cbn [negb].
  - now exists (String "/" b).
  - now exists (String "/" b ++ "?" ++ q).
  - now exists (String "/" b).
  - exists (String "/" b ++ "?" ++ q); split; [reflexivity|].
    now rewrite !str_app_assoc.
Qed.

Section URLShape.

Context {surt_module : SurtModule} {libraries : Libraries}.

(** The canonical url: a lower-case scheme and a colon when the decoded
    link has a scheme, then a text that starts with a slash. *)
Lemma safe_url_canonicalization_absolute (link canon frag : string) :
  safe_url_canonicalization link = Ok (canon, frag) ->
  exists sch R,
    scheme_like sch /\ Py.lower sch = sch
    /\ Py.startswith R "/" = true
    /\ canon = if String.eqb sch "" then R else sch ++ ":" ++ R.
Proof.
  unfold safe_url_canonicalization.
  destruct (unquote link unreserved) as [decoded|e]; cbn [bind];
    [|discriminate].
  destruct (urlsplit decoded) as [parts|e] eqn:Hp; cbn [bind]; [|discriminate].
  destruct (remove_dot_segments _) as [p1|e] eqn:H1; cbn [bind];
    [|discriminate].
  destruct (unquote _ unquote_in_path) as [p2|e] eqn:H2; cbn [bind];
    [|discriminate].
  destruct (unquote (query parts) _) as [q|e]; cbn [bind]; [|discriminate].
  assert (Hp2 : Py.startswith p2 "/" = true).
  { destruct (remove_dot_segments_ok _ _ H1) as [r0 E0]; rewrite E0 in H1.
    rewrite remove_dot_segments_slash in H1; injection H1 as <-.
    change ("/" ++ ?s) with (String "/" s) in H2.
    rewrite replace_char_first in H2 by (intros E; discriminate E).
    apply unquote_first_char in H2 as [o ->];
      [reflexivity | intros E; discriminate E]. }
  pose proof (urlsplit_scheme _ _ Hp) as Hsch.
  destruct (split_scheme decoded) as [sch rest] eqn:Es; cbn [fst] in Hsch.
  destruct (split_scheme_scheme _ _ _ Es) as [Hlike Hlow].
  rewrite Hsch, Hlow.
  destruct (urlunsplit_absolute sch
              (netloc_to_punycanon sch (netloc parts)) p2 q Hp2)
    as (R & HR & HU).
  destruct (negb (String.eqb (fragment parts) "")); cbn [bind];
    [destruct (unquote (fragment parts) _); cbn [bind]; [|discriminate]|];
    intros E; injection E as <- _; exists sch, R; now rewrite HU.
Qed.

(** X17.  Every successfully constructed [URL] object has a path that
    starts with a slash and a scheme made of scheme characters with no
    upper-case letter, whatever the link, the base and the answers of the
    canonicalizing collaborators. *)
Theorem URL_path_absolute (url : string) (b : base) (seed : bool) (x : URL) :
  URL_init url b seed = Ok x ->
  Py.startswith (path (_urlsplit x)) "/" = true
  /\ scheme_like (scheme (_urlsplit x))
  /\ Py.lower (scheme (_urlsplit x)) = scheme (_urlsplit x).
Proof.
  intros Hx; apply URL_init_canonical in Hx as (link & _ & Hx).
  apply URL_canonical_fields in Hx as (c & frag & parts & Hc & Hparts & ->).
  unfold URL_fields; cbn [_urlsplit path scheme].
  apply safe_url_canonicalization_absolute in Hc
    as (sch & R & Hlike & Hlow & HR & ->).
  assert (Hs : split_scheme (if String.eqb sch "" then R else sch ++ ":" ++ R)
               = (sch, R)).
  { destruct (String.eqb_spec sch "") as [->|Hne].
    - now apply split_scheme_after_slash.
    - rewrite (split_scheme_rebuild sch R Hne Hlike HR); now rewrite Hlow. }
  pose proof (urlsplit_scheme _ _ Hparts) as Hsch; rewrite Hs in Hsch.
  cbn [fst] in Hsch; rewrite Hsch.
  split; [|now split].
  destruct (urlsplit_path_first _ _ _ _ Hs HR Hparts) as [->|Hpath];
    [reflexivity|].
  destruct (String.eqb (path parts) ""); [reflexivity | assumption].
Qed.

End URLShape.

Lemma URL_path_absolute_witness :
  exists x,
    reference_URL "HTTP://Example.COM/a" NoBase false = Ok x
    /\ Py.startswith (path (_urlsplit x)) "/" = true
    /\ scheme_like (scheme (_urlsplit x))
    /\ Py.lower (scheme (_urlsplit x)) = scheme (_urlsplit x).
Proof.
  eexists; split; [vm_compute; reflexivity|].
  apply (@URL_path_absolute reference_surt_module reference_libraries
           "HTTP://Example.COM/a" NoBase false).
  vm_compute; reflexivity.
Defined.
